(** * little-expr: the manim scene scripts, embedded and checked

    The repository's two scripts ([manim/ast_generation.py] and
    [manim/cfg_static_images.py]) build object graphs of the animation
    library (texts, groups, rectangles, arrows), call layout methods on
    them and submit animations to the scene.  The library itself is a
    black box: what a script can be held to is which objects it builds,
    from which arguments, which methods it calls on them in which order,
    how it groups them, and which animations it plays in which batches.

    The embedding therefore keeps
    - a store of library objects addressed by reference (Python object
      identity), each with its constructor arguments, its submobjects and
      the chronological list of method calls made on it;
    - the attribute dictionary of the scene instance ([self.x]);
    - the timeline of [play] / [wait] / [add] requests.

    Scene methods are written in a state-and-exception monad over that
    state and follow the Python text statement by statement.

    Scalars are Python floats in the scripts; they are exact rationals
    here (every comparison the scripts make is on values that floats
    represent exactly).  A literal keeps the form it has in the script
    ([1.0] is not rewritten to [1]).  One value of the scripts is not
    exact in floats: the height [y_pos] of the token lines, from which
    1.2 is subtracted line after line.  The properties stated of the
    token stage name no height but that of the first line; the lemmas
    on the way to them follow the values of the model.

    Strings are byte strings.  [strip], [lstrip] and [len] agree with
    Python's on ASCII text; a statement about a text the caller chooses
    assumes that the text is ASCII.

    Embedded: [ASTGeneration] in full; of [cfg_static_images.py] the
    classes [BuildBasicBlocks], [FinalCFG] and [BlockMerging] in full.
    [IdentifyBasicBlocks] (rule texts and annotated source only) and the
    empty [AllSteps] are left out. *)

From Stdlib Require Import ZArith QArith String Ascii List Lia.
From stdpp Require Import base option list gmap strings.
Import ListNotations.

Local Open Scope string_scope.
Local Open Scope list_scope.

(* ================================================================== *)
(** ** Python strings                                                  *)
(* ================================================================== *)

Module Py.

(** [str.isspace] on the ASCII range: the blanks of an ASCII text.  Python
    also counts blanks outside ASCII (U+0085, U+00A0, U+3000, ...); they
    do not occur in an ASCII text. *)
Definition is_space (c : ascii) : bool :=
  let n := nat_of_ascii c in
  ((9 <=? n) && (n <=? 13) || (28 <=? n) && (n <=? 32))%nat.

Fixpoint lstrip (s : string) : string :=
  match s with
  | String c s' => if is_space c then lstrip s' else s
  | EmptyString => EmptyString
  end.

Fixpoint rev_onto (s acc : string) : string :=
  match s with
  | String c s' => rev_onto s' (String c acc)
  | EmptyString => acc
  end.

Definition reversed (s : string) : string := rev_onto s "".

Definition rstrip (s : string) : string := reversed (lstrip (reversed s)).

Definition strip (s : string) : string := rstrip (lstrip s).

(** [s.split(sep)] for a one-character separator; [acc] holds the current
    piece, reversed. *)
Fixpoint split_from (sep : ascii) (s acc : string) : list string :=
  match s with
  | String c s' =>
      if Ascii.eqb c sep then reversed acc :: split_from sep s' ""
      else split_from sep s' (String c acc)
  | EmptyString => [reversed acc]
  end.

Definition split (sep : ascii) (s : string) : list string := split_from sep s "".

Definition len (s : string) : Z := Z.of_nat (String.length s).

(** [s * n]: the empty string for [n <= 0]. *)
Definition repeat_str (s : string) (n : Z) : string :=
  String.concat "" (repeat s (Z.to_nat n)).

(** [min(xs, default=d)] *)
Definition min_default (xs : list Z) (d : Z) : Z :=
  match xs with
  | [] => d
  | x :: xs' => fold_left Z.min xs' x
  end.

(** Truth value of a list / of an optional string ([None] and [""] are
    false). *)
Definition truthy_list {A} (l : list A) : bool :=
  match l with [] => false | _ => true end.

Definition truthy_str (s : option string) : bool :=
  match s with
  | Some (String _ _) => true
  | _ => false
  end.

Definition newline : ascii := ascii_of_nat 10.

End Py.

(* ================================================================== *)
(** ** The animation library, as far as the scripts use it             *)
(* ================================================================== *)

Module Manim.

Inductive color := WHITE | GRAY | BLUE | GREEN | YELLOW | ORANGE | RED | PURPLE.
Inductive weight := NORMAL | BOLD.

#[global] Instance color_eq_dec : EqDecision color.
Proof. solve_decision. Defined.
#[global] Instance weight_eq_dec : EqDecision weight.
Proof. solve_decision. Defined.

(** Scalars, kept in lowest terms so that equal values are equal terms. *)
Definition fadd (a b : Q) : Q := Qred (a + b).
Definition fsub (a b : Q) : Q := Qred (a - b).
Definition fmul (a b : Q) : Q := Qred (a * b).

(** Direction constants and coordinate triples. *)
Definition vec : Type := Q * Q * Q.

Definition ORIGIN : vec := (0, 0, 0)%Q.
Definition UP : vec := (0, 1, 0)%Q.
Definition DOWN : vec := (0, -1, 0)%Q.
Definition LEFT : vec := (-1, 0, 0)%Q.
Definition RIGHT : vec := (1, 0, 0)%Q.
Definition UL : vec := (-1, 1, 0)%Q.

Definition vmul (v : vec) (k : Q) : vec :=
  let '(x, y, z) := v in (fmul x k, fmul y k, fmul z k).
Definition vadd (v w : vec) : vec :=
  let '(x, y, z) := v in let '(x', y', z') := w in
  (fadd x x', fadd y y', fadd z z').

Declare Scope vec_scope.
Delimit Scope vec_scope with V.
Bind Scope vec_scope with vec.
Infix "*" := vmul : vec_scope.
Infix "+" := vadd : vec_scope.

(** References to library objects. *)
Definition ref : Type := nat.

(** Points.  The bounding box of an object is the library's business
    (text metrics); [m.get_top()] and its siblings are kept as the call
    that was made, on the object it was made on. *)
Inductive edge := Top | Bottom | Left | Right | Center.

Inductive point :=
| At (v : vec)
| Anchor (e : edge) (m : ref)
| Offset (p : point) (v : vec).

Definition get_top (m : ref) : point := Anchor Top m.
Definition get_bottom (m : ref) : point := Anchor Bottom m.
Definition get_left (m : ref) : point := Anchor Left m.
Definition get_right (m : ref) : point := Anchor Right m.
Definition get_center (m : ref) : point := Anchor Center m.

Declare Scope point_scope.
Delimit Scope point_scope with P.
Bind Scope point_scope with point.
Infix "+" := Offset : point_scope.

#[global] Instance edge_eq_dec : EqDecision edge.
Proof. solve_decision. Defined.

(** The method calls the scripts make on objects. *)
Inductive call :=
| Cmove_to (p : point)
| Cscale (k : Q)
| Cshift (v : vec)
| Cto_edge (dir : vec) (buff : option Q)
| Cto_corner (dir : vec) (buff : Q)
| Cnext_to (m : ref) (dir : vec) (buff : Q)
| Carrange (dir : vec) (aligned_edge : vec) (buff : Q)
| Cset_stroke (width opacity : Q)
| Cset_color (c : color)
| Cset_opacity (o : Q)
| Ctip_set_stroke (width opacity : Q)
| Ctip_set_fill (c : color) (opacity : Q).

(** What an object was constructed as. *)
Inductive shape :=
| TextShape (text : string) (font_size : Q) (font : string) (col : color) (wt : weight)
| VGroupShape
| RectShape (target : ref) (col : color) (buff corner_radius stroke_width : Q)
| ArrowShape (start finish : point) (col : color) (buff stroke_width tip_length : Q).

Record mobject := Mobject {
  shape_of : shape;
  submobjects : list ref;
  calls : list call
}.

Inductive animation :=
| Write (m : ref)
| Create (m : ref)
| FadeOut (ms : list ref)
| Transform (m target : ref)
| Animate (m : ref) (c : call).

Inductive event :=
| Play (anims : list animation) (run_time : option Q)
| Wait (duration : Q)
| Add (ms : list ref).

(** Values held in instance attributes: an object or a Python list of
    objects. *)
Inductive value :=
| Obj (m : ref)
| PyList (ms : list ref).

Record scene := Scene {
  heap : list mobject;
  attrs : gmap string value;
  timeline : list event
}.

Definition empty_scene : scene := Scene [] ∅ [].

Inductive exn :=
| AttributeError (name : string)
| IndexError
| TypeError
| DanglingRef (m : ref).

Inductive outcome (A : Type) :=
| Returns (a : A) (s : scene)
| Raises (e : exn).
Arguments Returns {A} a s.
Arguments Raises {A} e.

Definition M (A : Type) : Type := scene -> outcome A.

Definition ret {A} (a : A) : M A := fun s => Returns a s.
Definition raise {A} (e : exn) : M A := fun _ => Raises e.
Definition bind {A B} (m : M A) (k : A -> M B) : M B :=
  fun s => match m s with
           | Returns a s' => k a s'
           | Raises e => Raises e
           end.

Declare Scope py_scope.
Delimit Scope py_scope with py.
Notation "x <- m ;; k" := (bind m (fun x => k))
  (at level 100, m at next level, right associativity) : py_scope.
Notation "m ;; k" := (bind m (fun _ => k))
  (at level 100, right associativity) : py_scope.
Local Open Scope py_scope.

(** [for x in xs: body] *)
Fixpoint for_each {A} (xs : list A) (body : A -> M unit) : M unit :=
  match xs with
  | [] => ret tt
  | x :: xs' => body x ;; for_each xs' body
  end.

(** A loop that rebinds local variables: they are threaded as [st]. *)
Fixpoint for_fold {A St} (xs : list A) (st : St) (body : A -> St -> M St) : M St :=
  match xs with
  | [] => ret st
  | x :: xs' => st' <- body x st ;; for_fold xs' st' body
  end.

(** *** Store primitives *)

Definition alloc (o : mobject) : M ref :=
  fun s => Returns (length (heap s))
                   (Scene (heap s ++ [o]) (attrs s) (timeline s)).

Definition deref (m : ref) : M mobject :=
  fun s => match heap s !! m with
           | Some o => Returns o s
           | None => Raises (DanglingRef m)
           end.

Definition store (m : ref) (o : mobject) : M unit :=
  fun s => Returns tt (Scene (<[m := o]> (heap s)) (attrs s) (timeline s)).

Definition invoke (m : ref) (c : call) : M unit :=
  o <- deref m ;;
  store m (Mobject (shape_of o) (submobjects o) (calls o ++ [c])).

(** *** Constructors *)

(** Keeps the last occurrence of each element, in order. *)
Definition remove_list_redundancies (ms : list ref) : list ref :=
  fold_left (fun acc m => if bool_decide (m ∈ acc) then acc else m :: acc) (rev ms) [].

(** [Mobject.add]: the new members go to the end; one that was already a
    member moves there. *)
Definition list_update (old new : list ref) : list ref :=
  filter (fun m => m ∉ new) old ++ new.

Definition add (g : ref) (ms : list ref) : M unit :=
  o <- deref g ;;
  store g (Mobject (shape_of o)
                   (list_update (submobjects o) (remove_list_redundancies ms))
                   (calls o)).

Definition Text (text : string) (font_size : Q) (font : string)
    (col : color) (wt : weight) : M ref :=
  alloc (Mobject (TextShape text font_size font col wt) [] []).

Definition VGroup (ms : list ref) : M ref :=
  g <- alloc (Mobject VGroupShape [] []) ;;
  add g ms ;;
  ret g.

Definition SurroundingRectangle (target : ref) (col : color)
    (buff corner_radius stroke_width : Q) : M ref :=
  alloc (Mobject (RectShape target col buff corner_radius stroke_width) [] []).

Definition Arrow (start finish : point) (col : color)
    (buff stroke_width tip_length : Q) : M ref :=
  alloc (Mobject (ArrowShape start finish col buff stroke_width tip_length) [] []).

(** *** Methods *)

Definition move_to (m : ref) (p : point) : M unit := invoke m (Cmove_to p).
Definition scale (m : ref) (k : Q) : M unit := invoke m (Cscale k).
Definition shift (m : ref) (v : vec) : M unit := invoke m (Cshift v).
Definition to_edge (m : ref) (dir : vec) : M unit :=
  invoke m (Cto_edge dir None).
Definition to_edge_buff (m : ref) (dir : vec) (buff : Q) : M unit :=
  invoke m (Cto_edge dir (Some buff)).
Definition to_corner (m : ref) (dir : vec) (buff : Q) : M unit :=
  invoke m (Cto_corner dir buff).
Definition next_to (m other : ref) (dir : vec) (buff : Q) : M unit :=
  invoke m (Cnext_to other dir buff).
Definition arrange (m : ref) (dir aligned_edge : vec) (buff : Q) : M unit :=
  invoke m (Carrange dir aligned_edge buff).
Definition set_stroke (m : ref) (width opacity : Q) : M unit :=
  invoke m (Cset_stroke width opacity).
Definition set_color (m : ref) (c : color) : M unit := invoke m (Cset_color c).
Definition set_opacity (m : ref) (o : Q) : M unit := invoke m (Cset_opacity o).
Definition tip_set_stroke (m : ref) (width opacity : Q) : M unit :=
  invoke m (Ctip_set_stroke width opacity).
Definition tip_set_fill (m : ref) (c : color) (opacity : Q) : M unit :=
  invoke m (Ctip_set_fill c opacity).

(** Iterating a group ([for x in g], [*g]) and [len(g)]. *)
Definition members (g : ref) : M (list ref) :=
  o <- deref g ;; ret (submobjects o).

(** [xs[i]] with Python's negative indices. *)
Definition list_item (xs : list ref) (i : Z) : M ref :=
  let n := Z.of_nat (length xs) in
  let j := (if i <? 0 then n + i else i)%Z in
  if ((j <? 0) || (n <=? j))%Z then raise IndexError
  else match xs !! Z.to_nat j with
       | Some m => ret m
       | None => raise IndexError
       end.

(** [g[i]] on a group. *)
Definition item (g : ref) (i : Z) : M ref :=
  xs <- members g ;; list_item xs i.

(** *** Instance attributes *)

Definition setattr (name : string) (v : value) : M unit :=
  fun s => Returns tt (Scene (heap s) (<[name := v]> (attrs s)) (timeline s)).

Definition getattr (name : string) : M value :=
  fun s => match attrs s !! name with
           | Some v => Returns v s
           | None => Raises (AttributeError name)
           end.

(** An attribute used as an object. *)
Definition self_obj (name : string) : M ref :=
  v <- getattr name ;;
  match v with
  | Obj m => ret m
  | PyList _ => raise TypeError
  end.

(** An attribute used as a Python list. *)
Definition self_list (name : string) : M (list ref) :=
  v <- getattr name ;;
  match v with
  | PyList ms => ret ms
  | Obj m => members m
  end.

(** *** Scene requests *)

Definition emit (e : event) : M unit :=
  fun s => Returns tt (Scene (heap s) (attrs s) (timeline s ++ [e])).

Definition play (anims : list animation) : M unit :=
  emit (Play anims None).
Definition play_run_time (anims : list animation) (run_time : Q) : M unit :=
  emit (Play anims (Some run_time)).
Definition wait (duration : Q) : M unit := emit (Wait duration).
Definition scene_add (ms : list ref) : M unit := emit (Add ms).

End Manim.

Import Manim.
Local Open Scope py_scope.

(* ================================================================== *)
(** ** cfg_static_images.py                                            *)
(* ================================================================== *)

(** *** class BuildBasicBlocks *)

Module BuildBasicBlocks.

Definition create_block_box (block_id : string) (statements : list string)
    (color : color) : M ref :=
  title <- Text block_id 24 "" color BOLD ;;
  stmt_group <- VGroup [] ;;
  (if Py.truthy_list statements then
     for_each statements (fun stmt =>
       stmt_text <- Text stmt 20 "" WHITE NORMAL ;;
       add stmt_group [stmt_text]) ;;
     arrange stmt_group DOWN LEFT 0.15
   else
     stmt_text <- Text "(empty)" 20 "" GRAY NORMAL ;;
     add stmt_group [stmt_text]) ;;
  let content := stmt_group in
  box <- SurroundingRectangle content color 0.3 0.3 3 ;;
  next_to title box UP 0.2 ;;
  block <- VGroup [title; box; content] ;;
  ret block.

Definition construct : M unit :=
  title <- Text "步骤 4: 构建基本块" 36 "" BLUE NORMAL ;;
  to_edge title UP ;;
  blocks <- VGroup [] ;;
  block0 <- create_block_box "entry_block"
              ["int grade = 0;"; "int score = 70;"] GREEN ;;
  move_to block0 (At (UP * 2.5)) ;;
  add blocks [block0] ;;
  block1 <- create_block_box "block_1" ["if (score >= 90)"] ORANGE ;;
  move_to block1 (At (UP * 0.8)) ;;
  add blocks [block1] ;;
  block2 <- create_block_box "block_2" ["grade = 1;"] YELLOW ;;
  move_to block2 (At (LEFT * 2.5 + DOWN * 0.5)) ;;
  add blocks [block2] ;;
  block3 <- create_block_box "block_3" ["grade = 2;"] YELLOW ;;
  move_to block3 (At (RIGHT * 2.5 + DOWN * 0.5)) ;;
  add blocks [block3] ;;
  block4 <- create_block_box "block_4" ["return grade;"] PURPLE ;;
  move_to block4 (At (DOWN * 1.8)) ;;
  add blocks [block4] ;;
  block5 <- create_block_box "exit_block" [] RED ;;
  move_to block5 (At (DOWN * 3.2)) ;;
  add blocks [block5] ;;
  scale blocks 0.6 ;;
  bs <- members blocks ;;
  scene_add (title :: bs).

End BuildBasicBlocks.

(** *** class FinalCFG *)

Module FinalCFG.

Definition create_block_box (block_id : string) (statements : list string)
    (color : color) : M ref :=
  title <- Text block_id 24 "" color BOLD ;;
  stmt_group <- VGroup [] ;;
  (if Py.truthy_list statements then
     for_each statements (fun stmt =>
       stmt_text <- Text stmt 20 "" WHITE NORMAL ;;
       add stmt_group [stmt_text]) ;;
     arrange stmt_group DOWN LEFT 0.15
   else
     stmt_text <- Text "(empty)" 20 "" GRAY NORMAL ;;
     add stmt_group [stmt_text]) ;;
  let content := stmt_group in
  box <- SurroundingRectangle content color 0.3 0.3 3 ;;
  next_to title box UP 0.2 ;;
  block <- VGroup [title; box; content] ;;
  ret block.

Definition ARROW_COLOR : color := BLUE.
Definition ARROW_STROKE_WIDTH : Q := 3.
Definition ARROW_BUFF : Q := 0.2.
Definition ARROW_OPACITY : Q := 1.0.
Definition ARROW_TIP_LENGTH : Q := 0.25.
Definition LABEL_FONT_SIZE : Q := 16.
Definition OFFSET_DISTANCE : Q := 0.15.

Definition connections : list (Z * Z * option string) :=
  [ (0, 1, None);
    (1, 2, Some "true");
    (1, 3, Some "false");
    (2, 4, None);
    (3, 4, None);
    (4, 5, None) ]%Z.

(** The body of [for from_idx, to_idx, label_text in connections]. *)
Definition connect (blocks arrows : ref) (c : Z * Z * option string) : M unit :=
  let '(from_idx, to_idx, label_text) := c in
  from_block <- item blocks from_idx ;;
  to_block <- item blocks to_idx ;;
  let start :=
    (if (from_idx =? 0)%Z then
       get_bottom from_block + DOWN * OFFSET_DISTANCE
     else if (from_idx =? 1)%Z then
       (if (to_idx =? 2)%Z then
          get_left from_block + LEFT * OFFSET_DISTANCE
        else
          get_right from_block + RIGHT * OFFSET_DISTANCE)
     else if ((from_idx =? 2) || (from_idx =? 3))%Z then
       get_bottom from_block + DOWN * OFFSET_DISTANCE
     else
       get_bottom from_block + DOWN * OFFSET_DISTANCE)%P in
  let finish :=
    (if (to_idx =? 1)%Z then
       get_top to_block + UP * OFFSET_DISTANCE
     else if ((to_idx =? 2) || (to_idx =? 3))%Z then
       get_top to_block + UP * OFFSET_DISTANCE
     else if (to_idx =? 4)%Z then
       get_top to_block + UP * OFFSET_DISTANCE
     else
       get_top to_block + UP * OFFSET_DISTANCE)%P in
  arrow <- Arrow start finish ARROW_COLOR ARROW_BUFF ARROW_STROKE_WIDTH
                 ARROW_TIP_LENGTH ;;
  set_stroke arrow ARROW_STROKE_WIDTH ARROW_OPACITY ;;
  set_color arrow ARROW_COLOR ;;
  (* an Arrow always has its tip *)
  tip_set_stroke arrow ARROW_STROKE_WIDTH ARROW_OPACITY ;;
  tip_set_fill arrow ARROW_COLOR ARROW_OPACITY ;;
  arrow_group <-
    (if Py.truthy_str label_text then
       label <- Text (default "" label_text) LABEL_FONT_SIZE "" ARROW_COLOR BOLD ;;
       set_opacity label ARROW_OPACITY ;;
       move_to label (get_center arrow) ;;
       (if (to_idx =? 2)%Z then shift label (LEFT * 0.3)
        else shift label (RIGHT * 0.3)) ;;
       VGroup [arrow; label]
     else
       ret arrow) ;;
  add arrows [arrow_group].

(** [construct] keeps nothing in [self]: its two groups are locals.  The
    body is written once, handing the locals back so that they can be
    inspected; [construct] itself returns nothing. *)
Definition construct_body : M (ref * ref) :=
  blocks <- VGroup [] ;;
  block0 <- create_block_box "entry_block"
              ["int grade = 0;"; "int score = 70;"] GREEN ;;
  move_to block0 (At (UP * 2.8)) ;;
  add blocks [block0] ;;
  block1 <- create_block_box "block_1" ["if (score >= 90)"] ORANGE ;;
  move_to block1 (At (UP * 1.0)) ;;
  add blocks [block1] ;;
  block2 <- create_block_box "block_2" ["grade = 1;"] YELLOW ;;
  move_to block2 (At (LEFT * 3.0 + DOWN * 0.3)) ;;
  add blocks [block2] ;;
  block3 <- create_block_box "block_3" ["grade = 2;"] YELLOW ;;
  move_to block3 (At (RIGHT * 3.0 + DOWN * 0.3)) ;;
  add blocks [block3] ;;
  block4 <- create_block_box "block_4" ["return grade;"] PURPLE ;;
  move_to block4 (At (DOWN * 1.6)) ;;
  add blocks [block4] ;;
  block5 <- create_block_box "exit_block" [] RED ;;
  move_to block5 (At (DOWN * 3.0)) ;;
  add blocks [block5] ;;
  scale blocks 0.65 ;;
  arrows <- VGroup [] ;;
  for_each connections (connect blocks arrows) ;;
  bs <- members blocks ;;
  ars <- members arrows ;;
  scene_add (bs ++ ars) ;;
  ret (blocks, arrows).

Definition construct : M unit :=
  construct_body ;; ret tt.

End FinalCFG.

(** *** class BlockMerging *)

Module BlockMerging.

Definition create_block_box (block_id : string) (statements : list string)
    (color : color) : M ref :=
  title <- Text block_id 24 "" color BOLD ;;
  stmt_group <- VGroup [] ;;
  (if Py.truthy_list statements then
     for_each statements (fun stmt =>
       stmt_text <- Text stmt 20 "" WHITE NORMAL ;;
       add stmt_group [stmt_text]) ;;
     arrange stmt_group DOWN LEFT 0.15
   else
     stmt_text <- Text "(empty)" 20 "" GRAY NORMAL ;;
     add stmt_group [stmt_text]) ;;
  let content := stmt_group in
  box <- SurroundingRectangle content color 0.3 0.3 3 ;;
  next_to title box UP 0.2 ;;
  block <- VGroup [title; box; content] ;;
  ret block.

Definition ARROW_COLOR : color := BLUE.
Definition ARROW_STROKE_WIDTH : Q := 2.5.
Definition ARROW_BUFF : Q := 0.15.
Definition ARROW_OPACITY : Q := 1.0.
Definition ARROW_TIP_LENGTH : Q := 0.2.
Definition OFFSET_DISTANCE : Q := 0.1.

Definition create_arrow (from_block to_block : ref) (label_text : option string)
    (from_idx to_idx : Z) : M ref :=
  let start :=
    (if (from_idx =? 0)%Z then
       get_bottom from_block + DOWN * OFFSET_DISTANCE
     else if ((from_idx =? 1) || (from_idx =? -1))%Z then
       get_bottom from_block + DOWN * OFFSET_DISTANCE
     else if (from_idx =? 4)%Z then
       (if (to_idx =? 5)%Z then
          get_left from_block + LEFT * OFFSET_DISTANCE
        else
          get_right from_block + RIGHT * OFFSET_DISTANCE)
     else if ((from_idx =? 5) || (from_idx =? 6))%Z then
       get_bottom from_block + DOWN * OFFSET_DISTANCE
     else
       get_bottom from_block + DOWN * OFFSET_DISTANCE)%P in
  let finish :=
    (if (to_idx =? 4)%Z then
       get_top to_block + UP * OFFSET_DISTANCE
     else if ((to_idx =? 5) || (to_idx =? 6))%Z then
       get_top to_block + UP * OFFSET_DISTANCE
     else if (to_idx =? 7)%Z then
       get_top to_block + UP * OFFSET_DISTANCE
     else if (to_idx =? 8)%Z then
       get_top to_block + UP * OFFSET_DISTANCE
     else
       get_top to_block + UP * OFFSET_DISTANCE)%P in
  arrow <- Arrow start finish ARROW_COLOR ARROW_BUFF ARROW_STROKE_WIDTH
                 ARROW_TIP_LENGTH ;;
  set_stroke arrow ARROW_STROKE_WIDTH ARROW_OPACITY ;;
  set_color arrow ARROW_COLOR ;;
  if Py.truthy_str label_text then
    label <- Text (default "" label_text) 14 "" ARROW_COLOR BOLD ;;
    set_opacity label ARROW_OPACITY ;;
    move_to label (get_center arrow) ;;
    (if (to_idx =? 5)%Z then shift label (LEFT * 0.25)
     else shift label (RIGHT * 0.25)) ;;
    VGroup [arrow; label]
  else
    ret arrow.

Definition connections : list (Z * Z * option string) :=
  [ (0, 1, None);
    (1, 2, None);
    (2, 3, None);
    (3, 4, None);
    (4, 5, Some "true");
    (4, 6, Some "false");
    (5, 7, None);
    (6, 7, None);
    (7, 8, None) ]%Z.

Definition show_initial_blocks : M unit :=
  title <- Text "步骤 1: 初始基本块" 36 "" BLUE NORMAL ;;
  to_corner title UL 0.5 ;;
  blocks <- VGroup [] ;;
  entry <- create_block_box "entry_block" ["int x = 0;"; "int y = 1;"] GREEN ;;
  move_to entry (At (UP * 3.0 + LEFT * 4.0)) ;;
  add blocks [entry] ;;
  block1 <- create_block_box "block_1" ["x = x + 1;"] YELLOW ;;
  move_to block1 (At (UP * 3.0 + LEFT * 1.5)) ;;
  add blocks [block1] ;;
  block2 <- create_block_box "block_2" ["y = y * 2;"] YELLOW ;;
  move_to block2 (At (UP * 3.0 + RIGHT * 1.0)) ;;
  add blocks [block2] ;;
  block3 <- create_block_box "block_3" ["int z = x + y;"] YELLOW ;;
  move_to block3 (At (UP * 3.0 + RIGHT * 3.5)) ;;
  add blocks [block3] ;;
  condition <- create_block_box "block_4" ["if (z > 10)"] ORANGE ;;
  move_to condition (At (UP * 0.5)) ;;
  add blocks [condition] ;;
  then_block <- create_block_box "block_5" ["x = 100;"] YELLOW ;;
  move_to then_block (At (LEFT * 2.5 + DOWN * 1.5)) ;;
  add blocks [then_block] ;;
  else_block <- create_block_box "block_6" ["x = 200;"] YELLOW ;;
  move_to else_block (At (RIGHT * 2.5 + DOWN * 1.5)) ;;
  add blocks [else_block] ;;
  merge <- create_block_box "block_7" ["return x;"] PURPLE ;;
  move_to merge (At (DOWN * 3.0)) ;;
  add blocks [merge] ;;
  exit_block <- create_block_box "exit_block" [] RED ;;
  move_to exit_block (At (DOWN * 4.5)) ;;
  add blocks [exit_block] ;;
  scale blocks 0.5 ;;
  arrows <- VGroup [] ;;
  for_each connections (fun '(from_idx, to_idx, label) =>
    from_block <- item blocks from_idx ;;
    to_block <- item blocks to_idx ;;
    arrow <- create_arrow from_block to_block label from_idx to_idx ;;
    add arrows [arrow]) ;;
  play [Write title] ;;
  bs <- members blocks ;;
  play_run_time (map Create bs) 2 ;;
  ars <- members arrows ;;
  play_run_time (map Create ars) 2 ;;
  setattr "title" (Obj title) ;;
  setattr "blocks" (Obj blocks) ;;
  setattr "arrows" (Obj arrows).

Definition identify_mergeable_blocks : M unit :=
  new_title <- Text "步骤 2: 识别可合并的块" 36 "" BLUE NORMAL ;;
  to_corner new_title UL 0.5 ;;
  self_blocks <- self_obj "blocks" ;;
  b1 <- item self_blocks 1 ;;
  b2 <- item self_blocks 2 ;;
  b3 <- item self_blocks 3 ;;
  let mergeable_blocks := [b1; b2; b3] in
  t0 <- Text "合并规则：" 24 "" GREEN NORMAL ;;
  t1 <- Text "• 块A只有一个后继块B" 20 "" WHITE NORMAL ;;
  t2 <- Text "• 块B只有一个前驱块A" 20 "" WHITE NORMAL ;;
  t3 <- Text "• 满足条件即可合并" 20 "" WHITE NORMAL ;;
  rule_text <- VGroup [t0; t1; t2; t3] ;;
  arrange rule_text DOWN LEFT 0.3 ;;
  scale rule_text 0.7 ;;
  to_edge_buff rule_text RIGHT 0.5 ;;
  self_title <- self_obj "title" ;;
  play [Transform self_title new_title] ;;
  play [Write rule_text] ;;
  highlight_boxes <- VGroup [] ;;
  for_each mergeable_blocks (fun block =>
    highlight <- SurroundingRectangle block YELLOW 0.1 0 4 ;;
    add highlight_boxes [highlight]) ;;
  hs <- members highlight_boxes ;;
  play_run_time (map Create hs) 1.5 ;;
  annotations <- VGroup [] ;;
  for_each mergeable_blocks (fun block =>
    annotation <- Text "可合并" 16 "" YELLOW BOLD ;;
    next_to annotation block DOWN 0.3 ;;
    add annotations [annotation]) ;;
  play [Write annotations] ;;
  setattr "rule_text" (Obj rule_text) ;;
  setattr "highlight_boxes" (Obj highlight_boxes) ;;
  setattr "annotations" (Obj annotations).

Definition perform_merging : M unit :=
  new_title <- Text "步骤 3: 执行块合并" 36 "" BLUE NORMAL ;;
  to_corner new_title UL 0.5 ;;
  self_title <- self_obj "title" ;;
  play [Transform self_title new_title] ;;
  rule_text <- self_obj "rule_text" ;;
  highlight_boxes <- self_obj "highlight_boxes" ;;
  annotations <- self_obj "annotations" ;;
  play [FadeOut [rule_text]; FadeOut [highlight_boxes]; FadeOut [annotations]] ;;
  merged_block <- create_block_box "merged_block"
                    ["x = x + 1;"; "y = y * 2;"; "int z = x + y;"] GREEN ;;
  move_to merged_block (At (UP * 3.0)) ;;
  scale merged_block 0.5 ;;
  self_blocks <- self_obj "blocks" ;;
  b1 <- item self_blocks 1 ;;
  b2 <- item self_blocks 2 ;;
  b3 <- item self_blocks 3 ;;
  let blocks_to_remove := [b1; b2; b3] in
  self_arrows <- self_obj "arrows" ;;
  a0 <- item self_arrows 0 ;;
  a1 <- item self_arrows 1 ;;
  a2 <- item self_arrows 2 ;;
  a3 <- item self_arrows 3 ;;
  let arrows_to_remove := [a0; a1; a2; a3] in
  play_run_time (map (fun block => FadeOut [block]) blocks_to_remove ++
                 map (fun arrow => FadeOut [arrow]) arrows_to_remove) 1 ;;
  play_run_time [Create merged_block] 1 ;;
  b0 <- item self_blocks 0 ;;
  new_arrow1 <- create_arrow b0 merged_block None 0 (-1) ;;
  b4 <- item self_blocks 4 ;;
  new_arrow2 <- create_arrow merged_block b4 None (-1) 4 ;;
  play_run_time [Create new_arrow1; Create new_arrow2] 1 ;;
  b0 <- item self_blocks 0 ;;
  b4 <- item self_blocks 4 ;;
  b5 <- item self_blocks 5 ;;
  b6 <- item self_blocks 6 ;;
  b7 <- item self_blocks 7 ;;
  b8 <- item self_blocks 8 ;;
  blocks' <- VGroup [b0; merged_block; b4; b5; b6; b7; b8] ;;
  setattr "blocks" (Obj blocks') ;;
  a4 <- item self_arrows 4 ;;
  a5 <- item self_arrows 5 ;;
  a6 <- item self_arrows 6 ;;
  a7 <- item self_arrows 7 ;;
  a8 <- item self_arrows 8 ;;
  arrows' <- VGroup [new_arrow1; new_arrow2; a4; a5; a6; a7; a8] ;;
  setattr "arrows" (Obj arrows') ;;
  setattr "merged_block" (Obj merged_block).

Definition show_final_merged_cfg : M unit :=
  new_title <- Text "步骤 4: 合并后的 CFG" 36 "" BLUE NORMAL ;;
  to_corner new_title UL 0.5 ;;
  self_title <- self_obj "title" ;;
  play [Transform self_title new_title] ;;
  bs <- self_list "blocks" ;;
  ars <- self_list "arrows" ;;
  play_run_time (map (fun block => Animate block (Cset_opacity 1.0)) bs ++
                 map (fun arrow => Animate arrow (Cset_opacity 1.0)) ars) 1.5 ;;
  n0 <- Text "合并完成：" 20 "" GREEN NORMAL ;;
  n1 <- Text "block_1, block_2, block_3" 20 "" GREEN NORMAL ;;
  n2 <- Text "已合并为一个块" 20 "" GREEN NORMAL ;;
  note_lines <- VGroup [n0; n1; n2] ;;
  arrange note_lines DOWN LEFT 0.4 ;;
  to_edge_buff note_lines RIGHT 0.5 ;;
  play [Write note_lines] ;;
  setattr "note" (Obj note_lines).

Definition construct : M unit :=
  show_initial_blocks ;;
  wait 2 ;;
  identify_mergeable_blocks ;;
  wait 2 ;;
  perform_merging ;;
  wait 2 ;;
  show_final_merged_cfg ;;
  wait 3.

End BlockMerging.

(* ================================================================== *)
(** ** ast_generation.py                                               *)
(* ================================================================== *)

Module ASTGeneration.

Definition nl : string := String Py.newline "".

Definition truthy (s : string) : bool :=
  match s with EmptyString => false | String _ _ => true end.

(** The literal of [construct]: ten lines, the inner ones indented by four
    and eight blanks. *)
Definition source_code : string :=
  "int checkGrade() {" +:+ nl +:+
  "    int grade = 0;" +:+ nl +:+
  "    int score = 70;" +:+ nl +:+
  "    if (score >= 90) {" +:+ nl +:+
  "        grade = 1;" +:+ nl +:+
  "    } else {" +:+ nl +:+
  "        grade = 2;" +:+ nl +:+
  "    }" +:+ nl +:+
  "    return grade;" +:+ nl +:+
  "}".

Definition show_source_code (code : string) : M unit :=
  title <- Text "步骤 1: 源代码" 36 "" BLUE NORMAL ;;
  to_corner title UL 0.5 ;;
  let code_lines := Py.split Py.newline (Py.strip code) in
  code_group <- VGroup [] ;;
  let min_indent :=
    Py.min_default
      (map (fun line => Py.len line - Py.len (Py.lstrip line))%Z
           (List.filter (fun line => truthy (Py.strip line)) code_lines))
      0%Z in
  for_each code_lines (fun line =>
    line_text <-
      (if negb (truthy (Py.strip line)) then
         Text "" 22 "monospace" WHITE NORMAL
       else
         let current_indent := (Py.len line - Py.len (Py.lstrip line))%Z in
         let relative_indent := (current_indent - min_indent)%Z in
         let indent_spaces := Py.repeat_str "    " (relative_indent / 4)%Z in
         let line_content := Py.lstrip line in
         let formatted_line := indent_spaces +:+ line_content in
         Text formatted_line 22 "monospace" WHITE NORMAL) ;;
    add code_group [line_text]) ;;
  arrange code_group DOWN LEFT 0.25 ;;
  scale code_group 0.8 ;;
  move_to code_group (At (ORIGIN + DOWN * 0.3)) ;;
  code_box <- SurroundingRectangle code_group BLUE 0.3 0.2 2 ;;
  play [Write title] ;;
  play_run_time [Create code_box; Write code_group] 2 ;;
  setattr "title" (Obj title) ;;
  setattr "code_group" (Obj code_group) ;;
  setattr "code_box" (Obj code_box).

Definition tokens : list (string * string) :=
  [ ("int", "关键字");
    ("checkGrade", "标识符");
    ("(", "分隔符");
    (")", "分隔符");
    ("{", "分隔符");
    ("int", "关键字");
    ("grade", "标识符");
    ("=", "运算符");
    ("0", "字面量");
    (";", "分隔符");
    ("if", "关键字");
    ("(", "分隔符");
    ("score", "标识符");
    (">=", "运算符");
    ("90", "字面量");
    (")", "分隔符");
    ("{", "分隔符");
    ("grade", "标识符");
    ("=", "运算符");
    ("1", "字面量");
    (";", "分隔符");
    ("}", "分隔符");
    ("else", "关键字");
    ("{", "分隔符");
    ("grade", "标识符");
    ("=", "运算符");
    ("2", "字面量");
    (";", "分隔符");
    ("}", "分隔符");
    ("return", "关键字");
    ("grade", "标识符");
    (";", "分隔符");
    ("}", "分隔符") ].

(** The locals the token loop rebinds. *)
Record token_loop := TokenLoop {
  token_groups : list ref;
  current_line : ref;
  x_pos : Q;
  y_pos : Q;
  tokens_in_line : Z
}.

Definition x_start : Q := -6.
Definition tokens_per_line : Z := 6.

Definition token_color (token_type : string) : color :=
  if String.eqb token_type "关键字" then YELLOW
  else if String.eqb token_type "标识符" then GREEN
  else if String.eqb token_type "运算符" then RED
  else if String.eqb token_type "字面量" then BLUE
  else WHITE.

(** The body of [for token, token_type in tokens].  [x_pos] takes the
    values -6, -4, ..., 6, which floats hold exactly; [y_pos] is 2.5 on
    the first line and is then lowered by 1.2 per line, here exactly, in
    Python with the rounding of floats. *)
Definition place_token (tk : string * string) (st : token_loop) : M token_loop :=
  let '(token, token_type) := tk in
  let color := token_color token_type in
  token_text <- Text token 24 "monospace" color NORMAL ;;
  move_to token_text (At (x_pos st, y_pos st, 0%Q)) ;;
  type_text <- Text token_type 14 "" GRAY NORMAL ;;
  next_to type_text token_text DOWN 0.1 ;;
  token_group <- VGroup [token_text; type_text] ;;
  add (current_line st) [token_group] ;;
  let x_pos' := fadd (x_pos st) 2.0 in
  let tokens_in_line' := (tokens_in_line st + 1)%Z in
  if (tokens_per_line <=? tokens_in_line')%Z || negb (Qle_bool x_pos' 6) then
    current_line' <- VGroup [] ;;
    ret (TokenLoop (token_groups st ++ [current_line st]) current_line'
                   x_start (fsub (y_pos st) 1.2) 0)
  else
    ret (TokenLoop (token_groups st) (current_line st)
                   x_pos' (y_pos st) tokens_in_line').

(** The stage for a given token list; [show_tokenization] runs it on the
    literal [tokens]. *)
Definition show_tokens (tokens : list (string * string)) : M unit :=
  new_title <- Text "步骤 2: 词法分析 (Tokenization)" 36 "" GREEN NORMAL ;;
  to_corner new_title UL 0.5 ;;
  self_title <- self_obj "title" ;;
  play [Transform self_title new_title] ;;
  code_box <- self_obj "code_box" ;;
  code_group <- self_obj "code_group" ;;
  play [FadeOut [code_box]; FadeOut [code_group]] ;;
  line0 <- VGroup [] ;;
  st <- for_fold tokens (TokenLoop [] line0 x_start 2.5 0) place_token ;;
  last_line <- members (current_line st) ;;
  let token_groups :=
    if (0 <? Z.of_nat (length last_line))%Z
    then token_groups st ++ [current_line st]
    else token_groups st in
  items <- for_fold token_groups []
             (fun group acc => xs <- members group ;; ret (acc ++ xs)) ;;
  all_tokens <- VGroup items ;;
  scale all_tokens 0.8 ;;
  move_to all_tokens (At (ORIGIN + DOWN * 0.5)) ;;
  for_each token_groups (fun group =>
    xs <- members group ;;
    play_run_time (map Write xs) 0.3) ;;
  setattr "token_groups" (PyList token_groups).

Definition show_tokenization : M unit := show_tokens tokens.

Definition show_parsing : M unit :=
  new_title <- Text "步骤 3: 语法分析 (Parsing)" 36 "" ORANGE NORMAL ;;
  to_corner new_title UL 0.5 ;;
  self_title <- self_obj "title" ;;
  play [Transform self_title new_title] ;;
  token_groups <- self_list "token_groups" ;;
  items <- for_fold token_groups []
             (fun group acc => xs <- members group ;; ret (acc ++ xs)) ;;
  play [FadeOut items] ;;
  r0 <- Text "解析规则：" 28 "" GREEN NORMAL ;;
  r1 <- Text "1. FunctionDeclaration → int IDENTIFIER ( ) { BlockStatement }"
             24 "" WHITE NORMAL ;;
  r2 <- Text "2. BlockStatement → Statement*" 24 "" WHITE NORMAL ;;
  r3 <- Text "3. Statement → VariableDeclaration | IfStatement | ReturnStatement"
             24 "" WHITE NORMAL ;;
  r4 <- Text "4. VariableDeclaration → int IDENTIFIER [= Expression];"
             24 "" WHITE NORMAL ;;
  r5 <- Text "5. IfStatement → if ( Expression ) Statement [else Statement]"
             24 "" WHITE NORMAL ;;
  r6 <- Text "6. ReturnStatement → return [Expression];" 24 "" WHITE NORMAL ;;
  rules <- VGroup [r0; r1; r2; r3; r4; r5; r6] ;;
  arrange rules DOWN LEFT 0.4 ;;
  scale rules 0.85 ;;
  move_to rules (At ORIGIN) ;;
  play_run_time [Write rules] 3 ;;
  setattr "rules" (Obj rules).

Definition create_ast_node (text : string) (color : color) (position : vec) : M ref :=
  let lines := Py.split Py.newline text in
  text_group <- VGroup [] ;;
  for_each lines (fun line =>
    line_text <- Text line 18 "monospace" WHITE NORMAL ;;
    add text_group [line_text]) ;;
  arrange text_group DOWN LEFT 0.12 ;;
  box <- SurroundingRectangle text_group color 0.25 0.25 2.5 ;;
  node <- VGroup [box; text_group] ;;
  move_to node (At position) ;;
  scale node 0.55 ;;
  ret node.

Definition connect_nodes (parent child : ref) : M ref :=
  let parent_bottom := get_bottom parent in
  let child_top := get_top child in
  arrow <- Arrow parent_bottom child_top GRAY 0.1 1.5 0.15 ;;
  ret arrow.

Definition show_ast_building : M unit :=
  new_title <- Text "步骤 4: AST 构建" 36 "" PURPLE NORMAL ;;
  to_corner new_title UL 0.5 ;;
  self_title <- self_obj "title" ;;
  play [Transform self_title new_title] ;;
  rules <- self_obj "rules" ;;
  play [FadeOut [rules]] ;;
  setattr "connections" (PyList []) ;;
  program <- create_ast_node "Program" BLUE (UP * 3.5) ;;
  func_decl <- create_ast_node ("FunctionDeclaration" +:+ nl +:+ "checkGrade")
                 GREEN (UP * 2.5) ;;
  arrow1 <- connect_nodes program func_decl ;;
  block_stmt <- create_ast_node "BlockStatement" YELLOW (UP * 1.5) ;;
  arrow2 <- connect_nodes func_decl block_stmt ;;
  var_decl1 <- create_ast_node ("VariableDeclaration" +:+ nl +:+ "int grade = 0")
                 ORANGE (LEFT * 4.5 + DOWN * 0.5) ;;
  arrow3 <- connect_nodes block_stmt var_decl1 ;;
  var_decl2 <- create_ast_node ("VariableDeclaration" +:+ nl +:+ "int score = 70")
                 ORANGE (LEFT * 1.5 + DOWN * 0.5) ;;
  arrow4 <- connect_nodes block_stmt var_decl2 ;;
  if_stmt <- create_ast_node "IfStatement" RED (RIGHT * 1.5 + DOWN * 0.5) ;;
  arrow5 <- connect_nodes block_stmt if_stmt ;;
  return_stmt <- create_ast_node ("ReturnStatement" +:+ nl +:+ "return grade")
                   BLUE (RIGHT * 4.5 + DOWN * 0.5) ;;
  arrow9 <- connect_nodes block_stmt return_stmt ;;
  condition <- create_ast_node
                 ("BinaryExpression" +:+ nl +:+ ">=" +:+ nl +:+ "score, 90")
                 PURPLE (RIGHT * 1.5 + DOWN * 1.8) ;;
  arrow6 <- connect_nodes if_stmt condition ;;
  then_branch <- create_ast_node ("AssignmentStatement" +:+ nl +:+ "grade = 1")
                   GREEN (RIGHT * 0.3 + DOWN * 3.2) ;;
  arrow7 <- connect_nodes if_stmt then_branch ;;
  else_branch <- create_ast_node ("AssignmentStatement" +:+ nl +:+ "grade = 2")
                   GREEN (RIGHT * 2.7 + DOWN * 3.2) ;;
  arrow8 <- connect_nodes if_stmt else_branch ;;
  let all_nodes :=
    [ program; func_decl; block_stmt;
      var_decl1; var_decl2; if_stmt;
      condition; then_branch; else_branch; return_stmt ] in
  let all_arrows :=
    [arrow1; arrow2; arrow3; arrow4; arrow5; arrow6; arrow7; arrow8; arrow9] in
  play_run_time [Create program] 0.5 ;;
  play_run_time [Create func_decl; Create arrow1] 0.5 ;;
  play_run_time [Create block_stmt; Create arrow2] 0.5 ;;
  play_run_time [Create var_decl1; Create arrow3;
                 Create var_decl2; Create arrow4] 1 ;;
  play_run_time [Create if_stmt; Create arrow5] 0.5 ;;
  play_run_time [Create condition; Create arrow6;
                 Create then_branch; Create arrow7;
                 Create else_branch; Create arrow8] 1.5 ;;
  play_run_time [Create return_stmt; Create arrow9] 0.5 ;;
  setattr "ast_nodes" (PyList all_nodes) ;;
  setattr "ast_arrows" (PyList all_arrows).

Definition construct : M unit :=
  show_source_code source_code ;;
  wait 2 ;;
  show_tokenization ;;
  wait 2 ;;
  show_parsing ;;
  wait 2 ;;
  show_ast_building ;;
  wait 3.

End ASTGeneration.

(* ================================================================== *)
(** ** Reading a scene                                                 *)
(* ================================================================== *)

Module View.

(** The state in which a method leaves the scene, if it returns. *)
Definition exec {A} (m : M A) (s : scene) : option scene :=
  match m s with
  | Returns _ s' => Some s'
  | Raises _ => None
  end.

(** That state as a scene; a method that raises leaves the scene as it
    was (statements using [after] come with the proof that the method
    returns). *)
Definition after {A} (m : M A) (s : scene) : scene :=
  match m s with
  | Returns _ s' => s'
  | Raises _ => s
  end.

Definition text_of (s : scene) (m : ref) : option string :=
  match heap s !! m with
  | Some (Mobject (TextShape t _ _ _ _) _ _) => Some t
  | _ => None
  end.

Definition members_of (s : scene) (g : ref) : option (list ref) :=
  match heap s !! g with
  | Some o => Some (submobjects o)
  | None => None
  end.

(** The texts of a group of text lines, top to bottom. *)
Definition lines_of (s : scene) (g : ref) : option (list string) :=
  ms ← members_of s g; mapM (text_of s) ms.

(** The members of the group held in attribute [name]. *)
Definition self_group (s : scene) (name : string) : option (list ref) :=
  match attrs s !! name with
  | Some (Obj g) => members_of s g
  | _ => None
  end.

(** The Python list held in attribute [name]. *)
Definition self_pylist (s : scene) (name : string) : option (list ref) :=
  match attrs s !! name with
  | Some (PyList ms) => Some ms
  | _ => None
  end.

(** A block box is the group [title, box, content]. *)
Definition block_title (s : scene) (b : ref) : option string :=
  match members_of s b with
  | Some [title; _; _] => text_of s title
  | _ => None
  end.

Definition block_statements (s : scene) (b : ref) : option (list string) :=
  match members_of s b with
  | Some [_; _; content] => lines_of s content
  | _ => None
  end.

(** The border of a block box: the rectangle and what it surrounds. *)
Definition block_border (s : scene) (b : ref) : option (ref * ref) :=
  match members_of s b with
  | Some [_; box; _] =>
      match heap s !! box with
      | Some (Mobject (RectShape target _ _ _ _) _ _) => Some (box, target)
      | _ => None
      end
  | _ => None
  end.

(** A connector is an arrow, or the group [arrow, label]. *)
Definition is_arrow (s : scene) (m : ref) : bool :=
  match heap s !! m with
  | Some (Mobject (ArrowShape _ _ _ _ _ _) _ _) => true
  | _ => false
  end.

Definition connector_arrow (s : scene) (c : ref) : option ref :=
  if is_arrow s c then Some c
  else match members_of s c with
       | Some [a; _] => if is_arrow s a then Some a else None
       | _ => None
       end.

Definition connector_label (s : scene) (c : ref) : option ref :=
  if is_arrow s c then None
  else match members_of s c with
       | Some [a; l] => if is_arrow s a then Some l else None
       | _ => None
       end.

Definition arrow_points (s : scene) (a : ref) : option (point * point) :=
  match heap s !! a with
  | Some (Mobject (ArrowShape start finish _ _ _ _) _ _) => Some (start, finish)
  | _ => None
  end.

(** The start and end points of a connector. *)
Definition connector_points (s : scene) (c : ref) : option (point * point) :=
  a ← connector_arrow s c; arrow_points s a.

(** The object a point was measured on. *)
Fixpoint measured_on (p : point) : option ref :=
  match p with
  | At _ => None
  | Anchor _ m => Some m
  | Offset p' _ => measured_on p'
  end.

(** The edge of that object the point was taken from. *)
Fixpoint measured_edge (p : point) : option edge :=
  match p with
  | At _ => None
  | Anchor e _ => Some e
  | Offset p' _ => measured_edge p'
  end.

(** The anchor a point was computed from: an edge of an object. *)
Definition anchor_of (p : point) : option (edge * ref) :=
  e ← measured_edge p; m ← measured_on p; Some (e, m).

(** Source and destination objects of a connector. *)
Definition connector_ends (s : scene) (c : ref) : option (ref * ref) :=
  '(start, finish) ← connector_points s c;
  src ← measured_on start;
  dst ← measured_on finish;
  Some (src, dst).

Definition source_of (s : scene) (c : ref) : option ref :=
  fst <$> connector_ends s c.
Definition destination_of (s : scene) (c : ref) : option ref :=
  snd <$> connector_ends s c.

(** A connector is incident to a block when it starts or ends there. *)
Definition incident (s : scene) (bs : list ref) (c : ref) : bool :=
  match connector_ends s c with
  | Some (src, dst) => bool_decide (src ∈ bs) || bool_decide (dst ∈ bs)
  | None => false
  end.

Definition calls_of (s : scene) (m : ref) : list call :=
  match heap s !! m with
  | Some o => calls o
  | None => []
  end.

(** The objects an animation brings onto the scene. *)
Definition introduced (a : animation) : list ref :=
  match a with
  | Write m | Create m => [m]
  | _ => []
  end.

(** The objects an animation fades out. *)
Definition faded (a : animation) : list ref :=
  match a with
  | FadeOut ms => ms
  | _ => []
  end.

(** The batches of the timeline: one list of animations per [play]. *)
Definition batches (tl : list event) : list (list animation) :=
  omap (fun e => match e with Play anims _ => Some anims | _ => None end) tl.

(** The events a stage appended to the timeline. *)
Definition appended (s s' : scene) : list event :=
  drop (length (timeline s)) (timeline s').

End View.
Import View.

(* ================================================================== *)
(** ** Vocabulary of the properties                                    *)
(* ================================================================== *)

(** *** Connectors of the CFG scenes *)

Module Connector.

(** The direction pointing away from a box at one of its edges. *)
Definition outward (e : edge) : vec :=
  match e with
  | Top => UP
  | Bottom => DOWN
  | Left => LEFT
  | Right => RIGHT
  | Center => ORIGIN
  end.

(** The anchor on edge [e] of box [m], moved outward by [d]. *)
Definition anchor_at (e : edge) (m : ref) (d : Q) : point :=
  (Anchor e m + outward e * d)%P.

(** The edge a connector must leave its source box from: the bottom,
    except for the two branches of the condition block. *)
Definition source_edge (condition from_idx : Z) (label : option string) : edge :=
  if (from_idx =? condition)%Z then
    match label with
    | Some text => if String.eqb text "true" then Left else Right
    | None => Bottom
    end
  else Bottom.

(** The side a branch label is moved to. *)
Definition nudge_direction (text : string) : vec :=
  if String.eqb text "true" then LEFT else RIGHT.

(** What connector [c] must look like for the connection tuple [conn]
    between members of [blocks]: [offset] is the scene's
    [OFFSET_DISTANCE], [nudge] the distance its labels are shifted by,
    [condition] the index of its condition block. *)
Definition built_for (s : scene) (offset nudge : Q) (condition : Z)
    (blocks : list ref) (conn : Z * Z * option string) (c : ref) : Prop :=
  let '(from_idx, to_idx, label) := conn in
  exists from_block to_block arrow start finish,
    blocks !! Z.to_nat from_idx = Some from_block /\
    blocks !! Z.to_nat to_idx = Some to_block /\
    connector_arrow s c = Some arrow /\
    arrow_points s arrow = Some (start, finish) /\
    (* the anchors: an edge of the source box, the top edge of the
       destination box *)
    anchor_of start = Some (source_edge condition from_idx label, from_block) /\
    anchor_of finish = Some (Top, to_block) /\
    (* the arrow runs between the anchors moved outward by [offset] *)
    start = anchor_at (source_edge condition from_idx label) from_block offset /\
    finish = anchor_at Top to_block offset /\
    match label with
    | None => connector_label s c = None
    | Some text =>
        exists l,
          connector_label s c = Some l /\
          text_of s l = Some text /\
          calls_of s l = [ Cset_opacity 1.0;
                           Cmove_to (get_center arrow);
                           Cshift (nudge_direction text * nudge) ]
    end.

End Connector.

(** *** Stages of the block-merging scene *)

Module MergeStep.

(** Steps 1 and 2 of [BlockMerging.construct]. *)
Definition before_merging : M unit :=
  BlockMerging.show_initial_blocks ;;
  wait 2 ;;
  BlockMerging.identify_mergeable_blocks ;;
  wait 2.

(** The connections of the merged graph, by position in the new block
    group [entry, merged, condition, then, else, merge, exit]. *)
Definition merged_connections : list (Z * Z * option string) :=
  [ (0, 1, None);
    (1, 2, None);
    (2, 3, Some "true");
    (2, 4, Some "false");
    (3, 5, None);
    (4, 5, None);
    (5, 6, None) ]%Z.

(** The scene after step 1, after step 2 and after the merge step. *)
Definition initial : scene := after BlockMerging.show_initial_blocks empty_scene.
Definition before : scene := after before_merging empty_scene.
Definition merged : scene := after BlockMerging.perform_merging before.

(** The objects a batch fades out. *)
Definition fades (anims : list animation) : list ref := flat_map faded anims.

(** The objects a batch brings in. *)
Definition creates (anims : list animation) : list ref := flat_map introduced anims.

(** The blocks of the store that carry a given title. *)
Definition blocks_titled (s : scene) (name : string) : list ref :=
  List.filter (fun b => bool_decide (block_title s b = Some name))
              (seq 0 (length (heap s))).

End MergeStep.

(** *** The AST scene *)

Module Tree.

(** A tree node is the group [box, text_group]; its label lines. *)
Definition node_label (s : scene) (n : ref) : option (list string) :=
  match members_of s n with
  | Some [_; text_group] => lines_of s text_group
  | _ => None
  end.

(** Stages 1 to 3 of [ASTGeneration.construct]. *)
Definition before_tree : M unit :=
  ASTGeneration.show_source_code ASTGeneration.source_code ;;
  wait 2 ;;
  ASTGeneration.show_tokenization ;;
  wait 2 ;;
  ASTGeneration.show_parsing ;;
  wait 2.

(** The connectors that end at node [n]. *)
Definition arriving (s : scene) (arrows : list ref) (n : ref) : list ref :=
  List.filter (fun a => bool_decide (destination_of s a = Some n)) arrows.

(** The nodes one step below [n]. *)
Definition children (s : scene) (arrows : list ref) (n : ref) : list ref :=
  omap (fun a => match connector_ends s a with
                 | Some (src, dst) => if bool_decide (src = n) then Some dst else None
                 | None => None
                 end) arrows.

(** The nodes each [play] of a stage reveals, leaving out the batches that
    reveal none. *)
Definition reveals (nodes : list ref) (tl : list event) : list (list ref) :=
  List.filter (fun b => Py.truthy_list b)
    (map (fun anims => List.filter (fun m => bool_decide (m ∈ nodes))
                                   (flat_map introduced anims))
         (batches tl)).

(** Everything each [play] of a stage reveals: nodes and connectors. *)
Definition reveals_all (tl : list event) : list (list ref) :=
  List.filter (fun b => Py.truthy_list b)
    (map (fun anims => flat_map introduced anims) (batches tl)).

End Tree.

(** *** Tokens *)

Module Token.

(** Stage 1 of [ASTGeneration.construct]. *)
Definition before_tokens : M unit :=
  ASTGeneration.show_source_code ASTGeneration.source_code ;;
  wait 2.

Inductive category := keyword | identifier | delimiter | operator | literal.

(** The category labels the scene prints under the tokens. *)
Definition category_of (token_type : string) : option category :=
  if String.eqb token_type "关键字" then Some keyword
  else if String.eqb token_type "标识符" then Some identifier
  else if String.eqb token_type "分隔符" then Some delimiter
  else if String.eqb token_type "运算符" then Some operator
  else if String.eqb token_type "字面量" then Some literal
  else None.

(** A displayed token is the group [token_text, type_text]. *)
Definition token_of (s : scene) (g : ref) : option (string * string) :=
  match members_of s g with
  | Some [token_text; type_text] =>
      t ← text_of s token_text; ty ← text_of s type_text; Some (t, ty)
  | _ => None
  end.

(** The tokens a stage writes onto the scene, in the order of its
    [play] calls and, within one call, of its arguments. *)
Definition displayed (s : scene) (tl : list event) : option (list (string * string)) :=
  mapM (token_of s) (flat_map (flat_map introduced) (batches tl)).

(** The source text stage 1 shows: the lines of [self.code_group]. *)
Definition shown_source (s : scene) : option (list string) :=
  match attrs s !! "code_group" with
  | Some (Obj g) => lines_of s g
  | _ => None
  end.

End Token.

(** *** A reference tokenisation

    The repository has no lexer: the token list of the scene is a literal.
    To compare that literal with "the tokenisation of the source program"
    this is the tokenisation meant, with the lexical conventions of the
    example language: blanks separate lexemes; a maximal run of letters,
    digits and underscores is one lexeme; a comparison operator followed
    by [=] is one lexeme; any other character is a lexeme of its own.
    Lexemes come out in reading order. *)

Module Lexer.

Definition is_word (c : ascii) : bool :=
  let n := nat_of_ascii c in
  ((48 <=? n) && (n <=? 57) || (65 <=? n) && (n <=? 90) ||
   (97 <=? n) && (n <=? 122) || (n =? 95))%nat.

(** Characters that form a two-character operator with a following [=]. *)
Definition takes_eq (c : ascii) : bool :=
  let n := nat_of_ascii c in
  ((n =? 60) || (n =? 62) || (n =? 61) || (n =? 33))%nat.

Definition flush (word : string) (rest : list string) : list string :=
  match word with
  | EmptyString => rest
  | _ => Py.reversed word :: rest
  end.

(** [word] is the run of word characters read so far, reversed. *)
Fixpoint scan (s word : string) : list string :=
  match s with
  | EmptyString => flush word []
  | String c s' =>
      if is_word c then scan s' (String c word)
      else flush word
        (if Py.is_space c then scan s' ""
         else match s' with
              | String d s'' =>
                  if takes_eq c && Ascii.eqb d "="
                  then String c (String d "") :: scan s'' ""
                  else String c "" :: scan s' ""
              | EmptyString => [String c ""]
              end)
  end.

Definition lexemes (src : string) : list string := scan src "".

(** The lexemes of a text given as its lines. *)
Definition lexemes_of_lines (lines : list string) : list string :=
  lexemes (String.concat ASTGeneration.nl lines).

End Lexer.

(** *** The stages the closed statements are about *)

Module Stage.

(** The scene before and after the token stage, and before and after
    the tree stage. *)
Definition tokens_before : scene := after Token.before_tokens empty_scene.
Definition tokens_after : scene :=
  after ASTGeneration.show_tokenization tokens_before.
Definition tree_before : scene := after Tree.before_tree empty_scene.
Definition tree_after : scene :=
  after ASTGeneration.show_ast_building tree_before.

(** The same, as far as the stages return. *)
Definition token_stage : option (scene * scene) :=
  s1 ← exec Token.before_tokens empty_scene;
  s2 ← exec ASTGeneration.show_tokenization s1;
  Some (s1, s2).

(** The lexemes the token stage writes, in order. *)
Definition displayed_lexemes : option (list string) :=
  '(s1, s2) ← token_stage;
  toks ← Token.displayed s2 (appended s1 s2);
  Some (map fst toks).

(** The lexemes of the source program stage 1 shows, in reading order. *)
Definition source_lexemes : option (list string) :=
  '(s1, _) ← token_stage;
  lines ← Token.shown_source s1;
  Some (Lexer.lexemes_of_lines lines).

Definition tree_stage : option (scene * scene) :=
  s3 ← exec Tree.before_tree empty_scene;
  s4 ← exec ASTGeneration.show_ast_building s3;
  Some (s3, s4).

(** The nodes the tree stage reveals, one list per [play]. *)
Definition node_reveals : option (list (list ref)) :=
  '(s3, s4) ← tree_stage;
  nodes ← self_pylist s4 "ast_nodes";
  Some (Tree.reveals nodes (appended s3 s4)).

(** The children of the block statement (the third node). *)
Definition block_statement_children : option (list ref) :=
  '(_, s4) ← tree_stage;
  nodes ← self_pylist s4 "ast_nodes";
  arrows ← self_pylist s4 "ast_arrows";
  block_stmt ← nodes !! 2%nat;
  Some (Tree.children s4 arrows block_stmt).

End Stage.

(** *** Block boxes *)

Module Box.

(** Block [b] is a titled box drawn around a single line reading
    ["(empty)"]. *)
Definition placeholder_box (s : scene) (b : ref) : Prop :=
  exists title box content line,
    members_of s b = Some [title; box; content] /\
    block_border s b = Some (box, content) /\
    members_of s content = Some [line] /\
    text_of s line = Some "(empty)".

(** The text a text object was built with. *)
Definition object_text (o : mobject) : option string :=
  match shape_of o with
  | TextShape text _ _ _ _ => Some text
  | _ => None
  end.

(** The line objects of a box: one per statement, or the placeholder. *)
Definition line_text (stmt : string) : mobject :=
  Mobject (TextShape stmt 20 "" WHITE NORMAL) [] [].

Definition placeholder_text : mobject :=
  Mobject (TextShape "(empty)" 20 "" GRAY NORMAL) [] [].

Definition box_lines (statements : list string) : list mobject :=
  if Py.truthy_list statements then map line_text statements
  else [placeholder_text].

(** The texts those lines show. *)
Definition box_texts (statements : list string) : list string :=
  if Py.truthy_list statements then statements else ["(empty)"].

(** The layout calls made on the group of lines. *)
Definition box_calls (statements : list string) : list call :=
  if Py.truthy_list statements then [Carrange DOWN LEFT 0.15] else [].

(** The objects one call of a box builder leaves behind, when the first of
    them lives at [base]: the title, placed above the rectangle; the group
    of lines; the lines; the rectangle around the group; the block. *)
Definition box_objects (base : nat) (block_id : string) (color : color)
    (statements : list string) : list mobject :=
  let lines := box_lines statements in
  let n := length lines in
  [ Mobject (TextShape block_id 24 "" color BOLD) []
            [Cnext_to (base + (2 + n))%nat UP 0.2];
    Mobject VGroupShape (map (fun i => base + (2 + i))%nat (seq 0 n))
            (box_calls statements) ]
  ++ lines ++
  [ Mobject (RectShape (base + 1)%nat color 0.3 0.3 3) [] [];
    Mobject VGroupShape [(base + 0)%nat; (base + (2 + n))%nat; (base + 1)%nat] [] ].

(** The objects of a builder call that has added the lines [done] and has
    not yet drawn the rectangle. *)
Definition lines_added (base : nat) (block_id : string) (color : color)
    (done : list string) : list mobject :=
  Mobject (TextShape block_id 24 "" color BOLD) [] []
  :: Mobject VGroupShape
       (map (fun i => base + (2 + i))%nat (seq 0 (length done))) []
  :: map line_text done.

End Box.

(** *** What a scene shows *)

Module Shown.

(** A block box: the group [title, box, content] of a text, a rectangle
    around the content and a group of text lines. *)
Definition is_block (s : scene) (b : ref) : bool :=
  match members_of s b with
  | Some [title; box; content] =>
      match text_of s title, heap s !! box, lines_of s content with
      | Some _, Some (Mobject (RectShape target _ _ _ _) _ _), Some _ =>
          bool_decide (target = content)
      | _, _, _ => false
      end
  | _ => false
  end.

(** A connector: an arrow, alone or grouped with its label, that runs
    from one object to another. *)
Definition is_connector (s : scene) (c : ref) : bool :=
  match connector_ends s c with
  | Some _ => true
  | None => false
  end.

(** A connector that joins two of the objects [bs]. *)
Definition joins (s : scene) (bs : list ref) (c : ref) : bool :=
  match connector_ends s c with
  | Some (src, dst) => bool_decide (src ∈ bs) && bool_decide (dst ∈ bs)
  | None => false
  end.

(** The objects the plays of a timeline have created or written and
    none of them has faded out, in the order in which they came. *)
Definition kept (tl : list event) : list ref :=
  let came := flat_map (flat_map introduced) (batches tl) in
  let went := flat_map (flat_map faded) (batches tl) in
  List.filter (fun m => negb (bool_decide (m ∈ went))) came.

(** The blocks and the connectors among them. *)
Definition blocks_shown (s : scene) : list ref :=
  List.filter (is_block s) (kept (timeline s)).
Definition connectors_shown (s : scene) : list ref :=
  List.filter (is_connector s) (kept (timeline s)).

(** Two lists with the same members, decided. *)
Definition same_membersb (xs ys : list ref) : bool :=
  forallb (fun x => bool_decide (x ∈ ys)) xs && forallb (fun y => bool_decide (y ∈ xs)) ys.

End Shown.

(* ================================================================== *)
(** ** Vocabulary of the builders and stages on any input              *)
(* ================================================================== *)

Module PyFacts.

(** [c in s] *)
Fixpoint contains (c : ascii) (s : string) : bool :=
  match s with
  | EmptyString => false
  | String d s' => Ascii.eqb d c || contains c s'
  end.

(** Every character is in the ASCII range. *)
Fixpoint ascii_only (s : string) : bool :=
  match s with
  | EmptyString => true
  | String c s' => (nat_of_ascii c <? 128)%nat && ascii_only s'
  end.

(** Every character is a blank. *)
Fixpoint all_space (s : string) : bool :=
  match s with
  | EmptyString => true
  | String c s' => Py.is_space c && all_space s'
  end.

End PyFacts.

(** *** The objects [create_ast_node] makes *)

Module Node.
Definition node_line (line : string) : mobject :=
  Mobject (TextShape line 18 "monospace" WHITE NORMAL) [] [].

(** The objects one call of [create_ast_node] leaves behind, the first of
    them at [base]: the group of label lines, the lines, the rectangle
    around the group, the node. *)
Definition node_objects (base : nat) (lines : list string) (color : color)
    (position : vec) : list mobject :=
  let n := length lines in
  [ Mobject VGroupShape (map (fun i => base + (1 + i))%nat (seq 0 n))
            [Carrange DOWN LEFT 0.12] ]
  ++ map node_line lines ++
  [ Mobject (RectShape (base + 0)%nat color 0.25 0.25 2.5) [] [];
    Mobject VGroupShape [(base + (1 + n))%nat; (base + 0)%nat]
            [Cmove_to (At position); Cscale 0.55] ].

(** The objects of a call that has added the lines [done]. *)
Definition lines_added (base : nat) (done : list string) : list mobject :=
  Mobject VGroupShape (map (fun i => base + (1 + i))%nat (seq 0 (length done))) []
  :: map node_line done.
End Node.

(** *** The objects [show_source_code] makes *)

Module Source.
(** The text [show_source_code] writes for one line of the program. *)
Definition shown_text (min_indent : Z) (line : string) : string :=
  if negb (ASTGeneration.truthy (Py.strip line)) then ""
  else Py.repeat_str "    "
         ((Py.len line - Py.len (Py.lstrip line) - min_indent) / 4)%Z
       +:+ Py.lstrip line.

Definition indent (line : string) : Z := (Py.len line - Py.len (Py.lstrip line))%Z.

Definition min_indent (code_lines : list string) : Z :=
  Py.min_default
    (map indent
         (List.filter (fun line => ASTGeneration.truthy (Py.strip line)) code_lines))
    0%Z.

Definition line_object (text : string) : mobject :=
  Mobject (TextShape text 22 "monospace" WHITE NORMAL) [] [].

Definition title_object : mobject :=
  Mobject (TextShape "步骤 1: 源代码" 36 "" BLUE NORMAL) [] [Cto_corner UL 0.5].

(** The objects of the stage once it has added the lines [done]. *)
Definition lines_added (base : nat) (done : list string) : list mobject :=
  title_object
  :: Mobject VGroupShape (map (fun i => base + (2 + i))%nat (seq 0 (length done))) []
  :: map line_object done.

(** The objects the stage leaves behind: title, group of lines, lines,
    frame. *)
Definition source_objects (base : nat) (shown : list string) : list mobject :=
  [ title_object;
    Mobject VGroupShape (map (fun i => base + (2 + i))%nat (seq 0 (length shown)))
            [Carrange DOWN LEFT 0.25; Cscale 0.8; Cmove_to (At (ORIGIN + DOWN * 0.3))] ]
  ++ map line_object shown ++
  [ Mobject (RectShape (base + 1)%nat BLUE 0.3 0.2 2) [] [] ].
End Source.

(** *** The objects the token loop makes *)

Module TokenView.
(** Where a displayed token was moved to: the [move_to] of its text. *)
Definition place_of (s : scene) (g : ref) : option point :=
  match members_of s g with
  | Some [token_text; _] =>
      match calls_of s token_text with
      | [Cmove_to p] => Some p
      | _ => None
      end
  | _ => None
  end.
End TokenView.

Module Rows.
(** Where the token loop puts the [i]-th token of a line and the [j]-th
    line: the values [x_pos] and [y_pos] take. *)
Definition col_x (i : nat) : Q := Nat.iter i (fun x : Q => fadd x 2.0) ASTGeneration.x_start.
Definition row_y (j : nat) : Q := Nat.iter j (fun y : Q => fsub y 1.2) 2.5%Q.

(** The three objects of one token, the first of them at [b]. *)
Definition token_objects (b : nat) (x y : Q) (tk : string * string) : list mobject :=
  [ Mobject (TextShape tk.1 24 "monospace" (ASTGeneration.token_color tk.2) NORMAL) []
            [Cmove_to (At (x, y, 0%Q))];
    Mobject (TextShape tk.2 14 "" GRAY NORMAL) [] [Cnext_to b DOWN 0.1];
    Mobject VGroupShape [b; (b + 1)%nat] [] ].

(** The token groups of a line whose group lives at [g]. *)
Definition row_members (g n : nat) : list ref :=
  map (fun i => g + (3 + 3 * i))%nat (seq 0 n).

Fixpoint row_tokens (g j i : nat) (toks : list (string * string)) : list mobject :=
  match toks with
  | [] => []
  | tk :: toks' =>
      token_objects (g + (1 + 3 * i)) (col_x i) (row_y j) tk
      ++ row_tokens g j (S i) toks'
  end.

(** The objects of line [j], its group at [g]: the group, then three
    objects per token. *)
Definition row_objects (g j : nat) (toks : list (string * string)) : list mobject :=
  Mobject VGroupShape (row_members g (length toks)) [] :: row_tokens g j 0 toks.

(** The objects [objs] sit in the store from reference [g] on. *)
Definition sub_at (store_ : list mobject) (g : nat) (objs : list mobject) : Prop :=
  forall k o, objs !! k = Some o -> store_ !! (g + k)%nat = Some o.

(** The full lines [rows], from line [j] on, each with the reference of
    its group, sit in the store. *)
Fixpoint rows_in (store_ : list mobject) (j : nat)
    (rows : list (ref * list (string * string))) : Prop :=
  match rows with
  | [] => True
  | (g, toks) :: rows' =>
      length toks = 6%nat /\ sub_at store_ g (row_objects g j toks) /\
      rows_in store_ (S j) rows'
  end.

(** The lines [rows], from line [j] on, each with the reference of its
    group, sit in the store. *)
Fixpoint rows_at (store_ : list mobject) (j : nat)
    (rows : list (ref * list (string * string))) : Prop :=
  match rows with
  | [] => True
  | (g, toks) :: rows' =>
      sub_at store_ g (row_objects g j toks) /\ rows_at store_ (S j) rows'
  end.

(** The tokens of line [j] are where the loop puts them. *)
Definition row_placed (s : scene) (j : nat) (ms : list ref) : Prop :=
  Forall2 (fun i m => TokenView.place_of s m = Some (At (col_x i, row_y j, 0%Q)))
          (seq 0 (length ms)) ms.

(** The loop's locals when line [j], at [g], holds [n] tokens. *)
Definition loop_state (groups : list ref) (g j n : nat) : ASTGeneration.token_loop :=
  ASTGeneration.TokenLoop groups g (col_x n) (row_y j) (Z.of_nat n).
End Rows.

Module Grid.
(** The tokens [ms] of a line sit at height [y], token [i] of them at
    [(2 i - 6, y, 0)]. *)
Definition in_columns (s : scene) (y : Q) (ms : list ref) : Prop :=
  Forall2 (fun i m => exists x : Q,
             TokenView.place_of s m = Some (At (x, y, 0%Q)) /\
             x == inject_Z (2 * Z.of_nat i) - 6)
          (seq 0 (length ms)) ms.

(** The sizes of the lines of [n] tokens, six to a line. *)
Definition line_sizes (n : nat) : list nat :=
  replicate (n / 6) 6%nat ++ (if (n mod 6 =? 0)%nat then [] else [(n mod 6)%nat]).
End Grid.

(** *** The parsing stage *)

Module Parsing.
(** The grammar rules stage 3 writes. *)
Definition rule_lines : list string :=
  [ "解析规则：";
    "1. FunctionDeclaration → int IDENTIFIER ( ) { BlockStatement }";
    "2. BlockStatement → Statement*";
    "3. Statement → VariableDeclaration | IfStatement | ReturnStatement";
    "4. VariableDeclaration → int IDENTIFIER [= Expression];";
    "5. IfStatement → if ( Expression ) Statement [else Statement]";
    "6. ReturnStatement → return [Expression];" ].

(** The text objects of the rules: a heading and six rules. *)
Definition rule_objects : list mobject :=
  match rule_lines with
  | [] => []
  | heading :: rules =>
      Mobject (TextShape heading 28 "" GREEN NORMAL) [] []
      :: map (fun line => Mobject (TextShape line 24 "" WHITE NORMAL) [] []) rules
  end.

(** The objects a stage fades out, in the order of its [play] calls. *)
Definition faded_by (tl : list event) : list ref :=
  flat_map (flat_map faded) (batches tl).

(** The objects a stage brings onto the scene, in that order. *)
Definition introduced_by (tl : list event) : list ref :=
  flat_map (flat_map introduced) (batches tl).
End Parsing.

(** *** The tree stage on any scene *)

Module Grown.
(** The connector [connect_nodes] makes. *)
Definition link (parent child : ref) : mobject :=
  Mobject (ArrowShape (get_bottom parent) (get_top child) GRAY 0.1 1.5 0.15) [] [].

(** The objects stage 4 makes, the first of them at [base]: the new
    title, then node after node with the connector from its parent. *)
Definition built (base : nat) : list mobject :=
  [ Mobject (TextShape "步骤 4: AST 构建" 36 "" PURPLE NORMAL) [] [Cto_corner UL 0.5] ]
  ++ Node.node_objects (base + 1) ["Program"] BLUE (UP * 3.5)
  ++ Node.node_objects (base + 5) ["FunctionDeclaration"; "checkGrade"] GREEN (UP * 2.5)
  ++ [ link (base + 4) (base + 9) ]
  ++ Node.node_objects (base + 11) ["BlockStatement"] YELLOW (UP * 1.5)
  ++ [ link (base + 9) (base + 14) ]
  ++ Node.node_objects (base + 16) ["VariableDeclaration"; "int grade = 0"] ORANGE
       (LEFT * 4.5 + DOWN * 0.5)
  ++ [ link (base + 14) (base + 20) ]
  ++ Node.node_objects (base + 22) ["VariableDeclaration"; "int score = 70"] ORANGE
       (LEFT * 1.5 + DOWN * 0.5)
  ++ [ link (base + 14) (base + 26) ]
  ++ Node.node_objects (base + 28) ["IfStatement"] RED (RIGHT * 1.5 + DOWN * 0.5)
  ++ [ link (base + 14) (base + 31) ]
  ++ Node.node_objects (base + 33) ["ReturnStatement"; "return grade"] BLUE
       (RIGHT * 4.5 + DOWN * 0.5)
  ++ [ link (base + 14) (base + 37) ]
  ++ Node.node_objects (base + 39) ["BinaryExpression"; ">="; "score, 90"] PURPLE
       (RIGHT * 1.5 + DOWN * 1.8)
  ++ [ link (base + 31) (base + 44) ]
  ++ Node.node_objects (base + 46) ["AssignmentStatement"; "grade = 1"] GREEN
       (RIGHT * 0.3 + DOWN * 3.2)
  ++ [ link (base + 31) (base + 50) ]
  ++ Node.node_objects (base + 52) ["AssignmentStatement"; "grade = 2"] GREEN
       (RIGHT * 2.7 + DOWN * 3.2)
  ++ [ link (base + 31) (base + 56) ].

(** The references [base + k] for the offsets [ks], and the animations
    that create them. *)
Definition at_offsets (base : nat) (ks : list nat) : list ref :=
  map (fun k => base + k)%nat ks.
Definition created (base : nat) (ks : list nat) : list animation :=
  map Create (at_offsets base ks).

(** The labels of the ten nodes, in the order of [self.ast_nodes]. *)
Definition labels : list (list string) :=
  [ ["Program"];
    ["FunctionDeclaration"; "checkGrade"];
    ["BlockStatement"];
    ["VariableDeclaration"; "int grade = 0"];
    ["VariableDeclaration"; "int score = 70"];
    ["IfStatement"];
    ["BinaryExpression"; ">="; "score, 90"];
    ["AssignmentStatement"; "grade = 1"];
    ["AssignmentStatement"; "grade = 2"];
    ["ReturnStatement"; "return grade"] ].

(** The scene holds the tree of stage 4: ten distinct nodes with these
    labels and nine connectors, from the program to the function, from
    the function to its block, from the block to its four statements and
    from the conditional to its three parts. *)
Definition fixed_tree (s : scene) : Prop :=
  exists program func_decl block_stmt var_decl1 var_decl2 if_stmt
         condition then_branch else_branch return_stmt arrows,
    let nodes := [ program; func_decl; block_stmt; var_decl1; var_decl2; if_stmt;
                   condition; then_branch; else_branch; return_stmt ] in
    self_pylist s "ast_nodes" = Some nodes /\
    self_pylist s "ast_arrows" = Some arrows /\
    NoDup nodes /\
    mapM (Tree.node_label s) nodes = Some labels /\
    mapM (connector_ends s) arrows
      = Some [ (program, func_decl); (func_decl, block_stmt);
               (block_stmt, var_decl1); (block_stmt, var_decl2);
               (block_stmt, if_stmt);
               (if_stmt, condition); (if_stmt, then_branch); (if_stmt, else_branch);
               (block_stmt, return_stmt) ].
End Grown.

Module Pipeline.
(** [construct] with its two literals, the source text and the token
    list, as parameters. *)
Definition run (code : string) (toks : list (string * string)) : M unit :=
  ASTGeneration.show_source_code code ;;
  wait 2 ;;
  ASTGeneration.show_tokens toks ;;
  wait 2 ;;
  ASTGeneration.show_parsing ;;
  wait 2 ;;
  ASTGeneration.show_ast_building ;;
  wait 3.
End Pipeline.

(** *** The block-merging stages on any scene *)

Module Merging.
(** The rule lines stage 2 of the block-merging scene writes. *)
Definition rule_lines : list string :=
  [ "合并规则："; "• 块A只有一个后继块B"; "• 块B只有一个前驱块A"; "• 满足条件即可合并" ].

(** The frame drawn around a mergeable block, and the note under it. *)
Definition highlight_of (block : ref) : mobject :=
  Mobject (RectShape block YELLOW 0.1 0 4) [] [].
Definition annotation_of (block : ref) : mobject :=
  Mobject (TextShape "可合并" 16 "" YELLOW BOLD) [] [Cnext_to block DOWN 0.3].

(** The objects stage 2 makes, the first of them at [base]: the new
    title, the rule lines and their group, the highlights and their
    group, the annotations and their group. *)
Definition identified (base : nat) (b1 b2 b3 : ref) : list mobject :=
  [ Mobject (TextShape "步骤 2: 识别可合并的块" 36 "" BLUE NORMAL) [] [Cto_corner UL 0.5];
    Mobject (TextShape "合并规则：" 24 "" GREEN NORMAL) [] [];
    Mobject (TextShape "• 块A只有一个后继块B" 20 "" WHITE NORMAL) [] [];
    Mobject (TextShape "• 块B只有一个前驱块A" 20 "" WHITE NORMAL) [] [];
    Mobject (TextShape "• 满足条件即可合并" 20 "" WHITE NORMAL) [] [];
    Mobject VGroupShape [base + 1; base + 2; base + 3; base + 4]%nat
            [Carrange DOWN LEFT 0.3; Cscale 0.7; Cto_edge RIGHT (Some 0.5%Q)];
    Mobject VGroupShape [base + 7; base + 8; base + 9]%nat [] ]
  ++ map highlight_of [b1; b2; b3]
  ++ [ Mobject VGroupShape [base + 11; base + 12; base + 13]%nat [] ]
  ++ map annotation_of [b1; b2; b3].

(** The objects stage 3 makes, the first of them at [base]: the new
    title, the merged block (title, lines, frame, group), the two new
    connectors, the new [self.blocks] and [self.arrows]. *)
Definition merged_statements : list string :=
  ["x = x + 1;"; "y = y * 2;"; "int z = x + y;"].

Definition merged (base : nat) (b0 b4 : ref) (new_blocks new_arrows : list ref)
    : list mobject :=
  [ Mobject (TextShape "步骤 3: 执行块合并" 36 "" BLUE NORMAL) [] [Cto_corner UL 0.5];
    Mobject (TextShape "merged_block" 24 "" GREEN BOLD) [] [Cnext_to (base + 6)%nat UP 0.2];
    Mobject VGroupShape [base + 3; base + 4; base + 5]%nat [Carrange DOWN LEFT 0.15] ]
  ++ map Box.line_text merged_statements
  ++ [ Mobject (RectShape (base + 2)%nat GREEN 0.3 0.3 3) [] [];
       Mobject VGroupShape [base + 1; base + 6; base + 2]%nat
               [Cmove_to (At (UP * 3.0)); Cscale 0.5];
       Mobject (ArrowShape
                  (Connector.anchor_at Bottom b0 BlockMerging.OFFSET_DISTANCE)
                  (Connector.anchor_at Top (base + 7)%nat BlockMerging.OFFSET_DISTANCE)
                  BLUE 0.15 2.5 0.2)
               [] [Cset_stroke 2.5 1.0; Cset_color BLUE];
       Mobject (ArrowShape
                  (Connector.anchor_at Bottom (base + 7)%nat BlockMerging.OFFSET_DISTANCE)
                  (Connector.anchor_at Top b4 BlockMerging.OFFSET_DISTANCE)
                  BLUE 0.15 2.5 0.2)
               [] [Cset_stroke 2.5 1.0; Cset_color BLUE];
       Mobject VGroupShape new_blocks [];
       Mobject VGroupShape new_arrows [] ].

(** A scene whose [self.blocks] is an empty group. *)
Definition short_scene : scene :=
  Scene [Mobject VGroupShape [] []] (<["blocks" := Obj 0%nat]> ∅) [].

(** The objects behind a list of references. *)
Definition objects_of (s : scene) (ms : list ref) : option (list mobject) :=
  mapM (fun m => heap s !! m) ms.
End Merging.

Module Final.
(** The note stage 4 of the block-merging scene writes. *)
Definition note_lines : list string :=
  [ "合并完成："; "block_1, block_2, block_3"; "已合并为一个块" ].
End Final.

(* ================================================================== *)
(** ** Running a method on a store with an unknown past                *)
(* ================================================================== *)

(** A builder can be called at any point of a scene.  The store it is
    called on is then [h ++ l]: an arbitrary past [h] and the objects [l]
    the call has made so far, which live at [length h + k]. *)

Section Framed.
Context (h : list mobject) (a : gmap string value) (t : list event).

Lemma alloc_framed o l :
  alloc o (Scene (h ++ l) a t)
  = Returns (length h + length l)%nat (Scene (h ++ (l ++ [o])) a t).
Proof. unfold alloc; cbn. by rewrite length_app, <- app_assoc. Qed.

Lemma deref_framed k l :
  deref (length h + k)%nat (Scene (h ++ l) a t)
  = match l !! k with
    | Some o => Returns o (Scene (h ++ l) a t)
    | None => Raises (DanglingRef (length h + k)%nat)
    end.
Proof.
  unfold deref; cbn. rewrite lookup_app_r by lia.
  by replace (length h + k - length h)%nat with k by lia.
Qed.

Lemma store_framed k o l :
  store (length h + k)%nat o (Scene (h ++ l) a t)
  = Returns tt (Scene (h ++ <[k := o]> l) a t).
Proof.
  unfold store; cbn. rewrite insert_app_r_alt by lia.
  by replace (length h + k - length h)%nat with k by lia.
Qed.

Lemma lookup_framed (l : list mobject) k :
  (h ++ l) !! (length h + k)%nat = l !! k.
Proof. rewrite lookup_app_r by lia. f_equal; lia. Qed.
End Framed.

#[local] Arguments alloc : simpl never.
#[local] Arguments deref : simpl never.
#[local] Arguments store : simpl never.
#[local] Arguments for_each : simpl never.

(** Runs the store primitives of the goal on a framed store. *)
Ltac run_framed :=
  repeat first
    [ rewrite alloc_framed
    | rewrite deref_framed
    | rewrite store_framed
    | progress cbn ].

(** Decides the membership tests [add] makes on fresh references. *)
Ltac fresh_members :=
  repeat match goal with
  | |- context [bool_decide (?x ∈ ?l)] =>
      rewrite (bool_decide_eq_false_2 (x ∈ l))
        by (rewrite ?elem_of_cons, ?elem_of_nil; lia)
  end.

(** Reads objects of a framed store. *)
Ltac read_framed := repeat (rewrite !lookup_framed; cbn).

(** *** The library model on fresh and distinct references *)

Lemma filter_fresh (m : ref) (old : list ref) :
  m ∉ old -> filter (fun x => x ∉ [m]) old = old.
Proof.
  intros Hm. induction old as [|x old IH]; [done|].
  apply not_elem_of_cons in Hm as [Hx Hm].
  rewrite filter_cons, decide_True.
  - f_equal. by apply IH.
  - rewrite elem_of_cons, elem_of_nil. intros [->|[]]. done.
Qed.

Lemma remove_list_redundancies_fresh (ms acc : list ref) :
  NoDup (ms ++ acc) ->
  fold_left (fun acc m => if bool_decide (m ∈ acc) then acc else m :: acc)
            (rev ms) acc = ms ++ acc.
Proof.
  revert acc. induction ms as [|m ms IH]; intros acc Hnd; [done|].
  cbn [rev]. rewrite fold_left_app. cbn [fold_left].
  apply NoDup_cons in Hnd as [Hm Hnd]. rewrite IH by done.
  by rewrite bool_decide_eq_false_2.
Qed.

Lemma remove_list_redundancies_NoDup (ms : list ref) :
  NoDup ms -> remove_list_redundancies ms = ms.
Proof.
  intros Hnd. unfold remove_list_redundancies.
  rewrite remove_list_redundancies_fresh; rewrite app_nil_r; done.
Qed.

Lemma bind_bind {A B C} (m : M A) (f : A -> M B) (k : B -> M C) s :
  bind (bind m f) k s = bind m (fun x => bind (f x) k) s.
Proof. unfold bind. by destruct (m s). Qed.

(** Composite calls on a framed store. *)

Section FramedCalls.
Context (h : list mobject) (a : gmap string value) (t : list event).

Lemma Text_framed text font_size font col wt l :
  Text text font_size font col wt (Scene (h ++ l) a t)
  = Returns (length h + length l)%nat
      (Scene (h ++ (l ++ [Mobject (TextShape text font_size font col wt) [] []])) a t).
Proof. apply alloc_framed. Qed.

Lemma SurroundingRectangle_framed target col buff corner_radius stroke_width l :
  SurroundingRectangle target col buff corner_radius stroke_width (Scene (h ++ l) a t)
  = Returns (length h + length l)%nat
      (Scene (h ++ (l ++ [Mobject (RectShape target col buff corner_radius stroke_width) [] []])) a t).
Proof. apply alloc_framed. Qed.

Lemma invoke_framed k c o l :
  l !! k = Some o ->
  invoke (length h + k)%nat c (Scene (h ++ l) a t)
  = Returns tt (Scene (h ++ <[k := Mobject (shape_of o) (submobjects o) (calls o ++ [c])]> l) a t).
Proof.
  intros E. unfold invoke, bind. rewrite deref_framed, E. apply store_framed.
Qed.

Lemma VGroup_framed ms l :
  NoDup ms ->
  VGroup ms (Scene (h ++ l) a t)
  = Returns (length h + length l)%nat
      (Scene (h ++ (l ++ [Mobject VGroupShape ms []])) a t).
Proof.
  intros Hnd. unfold VGroup, add, bind, ret.
  rewrite alloc_framed, deref_framed.
  rewrite lookup_app_r by lia. rewrite Nat.sub_diag. cbn [lookup list_lookup].
  rewrite store_framed. cbn [shape_of submobjects calls].
  rewrite remove_list_redundancies_NoDup by done.
  unfold list_update. cbn [filter list_filter app].
  rewrite insert_app_r_alt by lia. rewrite Nat.sub_diag. done.
Qed.
End FramedCalls.

(** Runs the first call of a sequence with its framed equation. *)
Ltac step_with lem := unfold bind at 1; rewrite lem; cbv beta iota.

(* ================================================================== *)
(** ** The block box builders                                          *)
(* ================================================================== *)

(** One turn of the statement loop, and the whole loop. *)

Lemma add_line_framed h a t block_id color stmt done :
  (stmt_text <- Text stmt 20 "" WHITE NORMAL ;;
   add (length h + 1)%nat [stmt_text])
    (Scene (h ++ Box.lines_added (length h) block_id color done) a t)
  = Returns tt (Scene (h ++ Box.lines_added (length h) block_id color (done ++ [stmt])) a t).
Proof.
  unfold Text, add, bind. rewrite alloc_framed, deref_framed.
  cbn. fresh_members. rewrite store_framed.
  rewrite filter_fresh.
  2:{ rewrite list_elem_of_fmap. intros (i & E & Hi). apply elem_of_seq in Hi.
      rewrite length_map in E. lia. }
  unfold Box.lines_added. cbn.
  by rewrite length_app, length_map, Nat.add_1_r, seq_S, !map_app.
Qed.

Lemma add_lines_framed h a t block_id color stmts : forall done,
  for_each stmts (fun stmt =>
       stmt_text <- Text stmt 20 "" WHITE NORMAL ;;
       add (length h + 1)%nat [stmt_text])
    (Scene (h ++ Box.lines_added (length h) block_id color done) a t)
  = Returns tt (Scene (h ++ Box.lines_added (length h) block_id color (done ++ stmts)) a t).
Proof.
  induction stmts as [|stmt stmts IH]; intros done.
  - unfold for_each, ret. by rewrite app_nil_r.
  - change (for_each (stmt :: stmts) ?f) with (bind (f stmt) (fun _ => for_each stmts f)).
    unfold bind at 1. rewrite add_line_framed, IH. by rewrite <- app_assoc.
Qed.

(** What a builder call returns and leaves behind, for every identifier,
    statement list, colour and store. *)

Lemma create_block_box_framed block_id statements color h a t :
  BuildBasicBlocks.create_block_box block_id statements color (Scene h a t)
  = Returns (length h + (3 + length (Box.box_lines statements)))%nat
      (Scene (h ++ Box.box_objects (length h) block_id color statements) a t).
Proof.
  replace (Scene h a t) with (Scene (h ++ []) a t) by (by rewrite app_nil_r).
  unfold BuildBasicBlocks.create_block_box.
  step_with Text_framed.
  step_with VGroup_framed; [|constructor].
  cbn [length app].
  destruct statements as [|stmt stmts].
  - cbn [Py.truthy_list].
    rewrite bind_bind. step_with Text_framed.
    unfold add, bind, ret. rewrite deref_framed. cbn. fresh_members.
    rewrite store_framed. cbn.
    rewrite SurroundingRectangle_framed. cbn.
    unfold next_to. erewrite invoke_framed by reflexivity. cbn.
    rewrite VGroup_framed.
    2:{ repeat (apply NoDup_cons; split; [rewrite ?elem_of_cons, ?elem_of_nil; lia|]).
        constructor. }
    reflexivity.
  - cbn [Py.truthy_list].
    rewrite bind_bind.
    change (h ++ [?T; ?G]) with (h ++ Box.lines_added (length h) block_id color []).
    step_with add_lines_framed. cbn [app].
    unfold arrange. unfold bind at 1; erewrite invoke_framed by reflexivity; cbv beta iota.
    cbn [Box.lines_added insert list_insert shape_of submobjects calls app length].
    step_with SurroundingRectangle_framed.
    cbn [length]. rewrite length_map.
    unfold next_to. unfold bind at 1; erewrite invoke_framed by reflexivity; cbv beta iota.
    cbn [insert list_insert shape_of submobjects calls app].
    step_with VGroup_framed.
    2:{ repeat (apply NoDup_cons; split; [rewrite ?elem_of_cons, ?elem_of_nil; lia|]).
        constructor. }
    unfold ret, Box.box_objects, Box.box_lines, Box.box_calls. cbn [Py.truthy_list].
    rewrite !length_map.
    set (L := map Box.line_text (stmt :: stmts)). set (n := length (stmt :: stmts)).
    cbn [app length]. rewrite length_app. subst L. rewrite length_map. fold n.
    cbn [length]. rewrite <- app_assoc. cbn [app].
    f_equal. lia.
Qed.

(** Reading the box back from the store. *)

Lemma text_of_object s m :
  text_of s m = heap s !! m ≫= Box.object_text.
Proof.
  unfold text_of, Box.object_text.
  destruct (heap s !! m) as [[[] ? ?]|]; reflexivity.
Qed.

Lemma box_lines_texts statements :
  Forall2 (fun o text => Box.object_text o = Some text)
          (Box.box_lines statements) (Box.box_texts statements).
Proof.
  unfold Box.box_lines, Box.box_texts. destruct statements as [|stmt stmts].
  - by repeat constructor.
  - cbn [Py.truthy_list]. apply Forall2_fmap_l.
    apply Forall_Forall2_diag, Forall_forall. done.
Qed.

Section BoxObjects.
Context (base : nat) (block_id : string) (color : color) (statements : list string).
Let n := length (Box.box_lines statements).

Lemma box_objects_line i o :
  Box.box_lines statements !! i = Some o ->
  Box.box_objects base block_id color statements !! (2 + i)%nat = Some o.
Proof.
  intros E. unfold Box.box_objects. cbv zeta.
  rewrite lookup_app_r by (cbn [length]; lia).
  apply lookup_app_l_Some. by replace (2 + i - length [_; _])%nat with i by (cbn; lia).
Qed.

Lemma box_objects_box :
  Box.box_objects base block_id color statements !! (2 + n)%nat
  = Some (Mobject (RectShape (base + 1)%nat color 0.3 0.3 3) [] []).
Proof.
  unfold Box.box_objects. cbv zeta. rewrite app_assoc.
  apply list_lookup_middle. by rewrite length_app.
Qed.

Lemma box_objects_block :
  Box.box_objects base block_id color statements !! (3 + n)%nat
  = Some (Mobject VGroupShape [(base + 0)%nat; (base + (2 + n))%nat; (base + 1)%nat] []).
Proof.
  unfold Box.box_objects. cbv zeta. rewrite app_assoc.
  rewrite lookup_app_r by (rewrite length_app; cbn [length]; unfold n; lia).
  by replace (3 + n - length ([_; _] ++ Box.box_lines statements))%nat with 1%nat
    by (rewrite length_app; cbn [length]; unfold n; lia).
Qed.
End BoxObjects.

Lemma box_structure h a t block_id color statements :
  let s' := Scene (h ++ Box.box_objects (length h) block_id color statements) a t in
  let n := length (Box.box_lines statements) in
  let b := (length h + (3 + n))%nat in
  members_of s' b = Some [(length h + 0)%nat; (length h + (2 + n))%nat; (length h + 1)%nat] /\
  block_title s' b = Some block_id /\
  block_border s' b = Some ((length h + (2 + n))%nat, (length h + 1)%nat) /\
  calls_of s' (length h + 1)%nat = Box.box_calls statements /\
  block_statements s' b = Some (Box.box_texts statements).
Proof.
  cbv zeta.
  match goal with |- ?P /\ _ => assert (Hb : P) end.
  { unfold members_of; cbn [heap]. rewrite lookup_framed.
    by rewrite box_objects_block. }
  split; [done|].
  split. { unfold block_title. rewrite Hb. unfold text_of; cbn [heap].
           by rewrite lookup_framed. }
  split. { unfold block_border. rewrite Hb. cbn [heap].
           rewrite lookup_framed. by rewrite box_objects_box. }
  split. { unfold calls_of; cbn [heap]. by rewrite lookup_framed. }
  unfold block_statements. rewrite Hb. unfold lines_of, members_of; cbn [heap].
  rewrite lookup_framed.
  change (Box.box_objects (length h) block_id color statements !! 1%nat)
    with (Some (Mobject VGroupShape
                  (map (fun i => length h + (2 + i))%nat
                       (seq 0 (length (Box.box_lines statements))))
                  (Box.box_calls statements))).
  cbn [mbind option_bind submobjects].
  apply mapM_Some. apply Forall2_same_length_lookup_2.
  - rewrite length_map, length_seq. apply (Forall2_length _ _ _ (box_lines_texts statements)).
  - intros i m text Hm Ht.
    apply list_lookup_fmap_Some in Hm as (j & -> & Hj).
    apply lookup_seq in Hj as [-> Hi]. rewrite Nat.add_0_l.
    destruct (lookup_lt_is_Some_2 (Box.box_lines statements) i Hi) as [o Ho].
    rewrite text_of_object. cbn [heap]. rewrite lookup_framed.
    rewrite (box_objects_line _ _ _ _ _ _ Ho). cbn [mbind option_bind].
    by apply (Forall2_lookup_lr _ _ _ _ _ _ (box_lines_texts statements) Ho Ht).
Qed.

(** X9: a box builder, from any store: it returns the group [title, box,
    content]; the title is the bold text [block_id] of size 24 in the
    block's colour, put above the box; the box is the rectangle around
    [content] in the block's colour; [content] is the group of lines,
    which read the statements in order (or the placeholder) and are
    arranged only when statements were given; the call touches no object
    that existed, no attribute and nothing on the timeline. *)
Lemma create_block_box_builds block_id statements color s :
  exists b s' title box content,
    BuildBasicBlocks.create_block_box block_id statements color s = Returns b s' /\
    heap s `prefix_of` heap s' /\
    attrs s' = attrs s /\
    timeline s' = timeline s /\
    members_of s' b = Some [title; box; content] /\
    calls_of s' b = [] /\
    heap s' !! title
      = Some (Mobject (TextShape block_id 24 "" color BOLD) [] [Cnext_to box UP 0.2]) /\
    heap s' !! box = Some (Mobject (RectShape content color 0.3 0.3 3) [] []) /\
    calls_of s' content = Box.box_calls statements /\
    lines_of s' content = Some (Box.box_texts statements) /\
    block_title s' b = Some block_id /\
    block_border s' b = Some (box, content) /\
    block_statements s' b = Some (Box.box_texts statements).
Proof.
  destruct s as [h a t].
  destruct (box_structure h a t block_id color statements)
    as (Hmem & Htitle & Hborder & Hcalls & Hstmts).
  eexists _, _, _, _, _. split; [apply create_block_box_framed|].
  split; [by eexists|]. split; [done|]. split; [done|].
  split; [exact Hmem|].
  split. { unfold calls_of; cbn [heap]. rewrite lookup_framed.
           by rewrite box_objects_block. }
  split. { cbn [heap]. by rewrite lookup_framed. }
  split. { cbn [heap]. rewrite lookup_framed. by rewrite box_objects_box. }
  split; [exact Hcalls|].
  split. { unfold block_statements in Hstmts. by rewrite Hmem in Hstmts. }
  split; [exact Htitle|]. split; [exact Hborder|]. exact Hstmts.
Qed.

Lemma create_block_box_empty block_id color s :
  exists b s',
    BuildBasicBlocks.create_block_box block_id [] color s = Returns b s' /\
    Box.placeholder_box s' b /\
    heap s `prefix_of` heap s'.
Proof.
  destruct s as [h a t]. rewrite <- (app_nil_r h).
  unfold BuildBasicBlocks.create_block_box, VGroup, Text, SurroundingRectangle,
    next_to, add, invoke, bind, ret.
  run_framed. fresh_members.
  eexists _, _. split; [reflexivity|]. split.
  - exists (length h + 0)%nat, (length h + 3)%nat, (length h + 1)%nat,
      (length h + 2)%nat.
    unfold block_border, members_of, text_of; cbn. read_framed. done.
  - cbn. rewrite app_nil_r. by eexists.
Qed.

(** Solves [placeholder_box] on a computed scene. *)
Ltac placeholder_by_computation :=
  do 4 eexists; (split; [|split; [|split]]); vm_compute; reflexivity.

(** C9: given an empty statement list, each block box builder returns a
    box drawn around exactly one line, the placeholder ["(empty)"], from
    any store; and the exit block of each of the three scenes, built from
    an empty list, is such a box. *)
Theorem empty_statement_list_renders_placeholder :
  (forall block_id color s, exists b s',
      BuildBasicBlocks.create_block_box block_id [] color s = Returns b s' /\
      Box.placeholder_box s' b) /\
  (forall block_id color s, exists b s',
      FinalCFG.create_block_box block_id [] color s = Returns b s' /\
      Box.placeholder_box s' b) /\
  (forall block_id color s, exists b s',
      BlockMerging.create_block_box block_id [] color s = Returns b s' /\
      Box.placeholder_box s' b) /\
  (let s := after BuildBasicBlocks.construct empty_scene in
   exec BuildBasicBlocks.construct empty_scene = Some s /\
   exists b, MergeStep.blocks_titled s "exit_block" = [b] /\
             Box.placeholder_box s b) /\
  (let s := after FinalCFG.construct empty_scene in
   exec FinalCFG.construct empty_scene = Some s /\
   exists b, MergeStep.blocks_titled s "exit_block" = [b] /\
             Box.placeholder_box s b) /\
  (let s := MergeStep.initial in
   exec BlockMerging.show_initial_blocks empty_scene = Some s /\
   exists b, MergeStep.blocks_titled s "exit_block" = [b] /\
             Box.placeholder_box s b).
Proof.
  assert (G : forall block_id color s, exists b s',
      BuildBasicBlocks.create_block_box block_id [] color s = Returns b s' /\
      Box.placeholder_box s' b).
  { intros block_id color s.
    destruct (create_block_box_empty block_id color s) as (b & s' & E & P & _).
    by exists b, s'. }
  split; [exact G|]. split; [exact G|]. split; [exact G|].
  cbv zeta. split; [|split].
  - split; [vm_compute; reflexivity|]. eexists.
    split; [vm_compute; reflexivity|]. placeholder_by_computation.
  - split; [vm_compute; reflexivity|]. eexists.
    split; [vm_compute; reflexivity|]. placeholder_by_computation.
  - split; [vm_compute; reflexivity|]. eexists.
    split; [vm_compute; reflexivity|]. placeholder_by_computation.
Qed.

(** C10: the three copies of the block box builder are extensionally
    equal.  On every block identifier, statement list and colour, and from
    every store, each of them returns the same block and leaves the same
    objects behind: the bold title of size 24 in the block's colour, placed
    above the rectangle at distance 0.2; the statement lines of size 20,
    arranged downwards, left-aligned, 0.15 apart (or the one placeholder
    line); the rectangle around them, in the block's colour, with buff 0.3,
    corner radius 0.3 and stroke width 3; and the group [title, box,
    content]. *)
Theorem block_box_builders_agree :
  forall block_id statements color s,
    let built :=
      Returns (length (heap s) + (3 + length (Box.box_lines statements)))%nat
              (Scene (heap s ++ Box.box_objects (length (heap s)) block_id color
                                                statements)
                     (attrs s) (timeline s)) in
    BuildBasicBlocks.create_block_box block_id statements color s = built /\
    FinalCFG.create_block_box block_id statements color s = built /\
    BlockMerging.create_block_box block_id statements color s = built /\
    BuildBasicBlocks.create_block_box block_id statements color s
      = FinalCFG.create_block_box block_id statements color s /\
    FinalCFG.create_block_box block_id statements color s
      = BlockMerging.create_block_box block_id statements color s.
Proof.
  intros block_id statements color [h a t]. cbv zeta. cbn [heap attrs timeline].
  pose proof (create_block_box_framed block_id statements color h a t) as E.
  split; [exact E|]. split; [exact E|]. split; [exact E|].
  split; reflexivity.
Qed.

(* ================================================================== *)
(** ** The block-merging scene                                         *)
(* ================================================================== *)

(** Closes a goal about computed scenes. *)
Ltac by_computation := vm_compute; reflexivity.

(** Closes a decidable goal about computed sets and lists. *)
Ltac by_decision := apply (bool_decide_unpack _); vm_compute; exact I.

(** C7: in the initial connection list every index is below the number of
    blocks the stage builds (9); one edge is labelled "true" and one
    "false", both leaving the condition block (index 4, [block_4]);
    every other edge has no label. *)
Theorem initial_connections_well_formed :
  let s := MergeStep.initial in
  exists blocks condition,
    exec BlockMerging.show_initial_blocks empty_scene = Some s /\
    self_group s "blocks" = Some blocks /\
    length blocks = 9%nat /\
    Forall (fun '(from_idx, to_idx, _) =>
              (0 <= from_idx < Z.of_nat (length blocks))%Z /\
              (0 <= to_idx < Z.of_nat (length blocks))%Z)
           BlockMerging.connections /\
    List.filter (fun c => bool_decide (c.2 = Some "true"))
                BlockMerging.connections = [(4, 5, Some "true")]%Z /\
    List.filter (fun c => bool_decide (c.2 = Some "false"))
                BlockMerging.connections = [(4, 6, Some "false")]%Z /\
    Forall (fun c => c.2 = None)
           (List.filter (fun c => negb (bool_decide (c.2 = Some "true")) &&
                                  negb (bool_decide (c.2 = Some "false")))
                        BlockMerging.connections) /\
    blocks !! 4%nat = Some condition /\
    block_title s condition = Some "block_4" /\
    block_statements s condition = Some ["if (z > 10)"].
Proof.
  cbv zeta. eexists _, _.
  split; [by_computation|]. split; [by_computation|]. split; [by_computation|].
  split. { repeat (apply List.Forall_cons; [cbn; lia|]). apply List.Forall_nil. }
  split; [by_computation|]. split; [by_computation|].
  split. { repeat (apply List.Forall_cons; [reflexivity|]). apply List.Forall_nil. }
  split; [by_computation|]. split; by_computation.
Qed.

(** Lists that pass [Shown.same_membersb] have the same members. *)
Lemma same_members (xs ys : list ref) :
  Shown.same_membersb xs ys = true -> forall x, x ∈ xs <-> x ∈ ys.
Proof.
  unfold Shown.same_membersb. intros H x.
  apply andb_prop in H as [Hxy Hyx].
  rewrite forallb_forall in Hxy. rewrite forallb_forall in Hyx. split; intros Hin.
  - apply list_elem_of_In in Hin. apply Hxy in Hin. by apply bool_decide_eq_true in Hin.
  - apply list_elem_of_In in Hin. apply Hyx in Hin. by apply bool_decide_eq_true in Hin.
Qed.

(** C2: the initial stage builds and plays exactly 9 blocks and 9
    connectors; after the merge step the block group holds exactly 7
    blocks and the connector group exactly 7 connectors.  The nine and
    the seven are block boxes with these identifiers, and connectors
    between them; they are all the blocks and all the connectors that
    the plays so far have brought onto the scene and not faded out. *)
Theorem block_and_connector_counts :
  let s0 := MergeStep.initial in
  let s1 := MergeStep.before in
  let s2 := MergeStep.merged in
  exists title blocks arrows blocks' arrows',
    exec BlockMerging.show_initial_blocks empty_scene = Some s0 /\
    self_group s0 "blocks" = Some blocks /\
    self_group s0 "arrows" = Some arrows /\
    length blocks = 9%nat /\ NoDup blocks /\
    length arrows = 9%nat /\ NoDup arrows /\
    batches (timeline s0) = [[Write title]; map Create blocks; map Create arrows] /\
    exec MergeStep.before_merging empty_scene = Some s1 /\
    self_group s1 "blocks" = Some blocks /\
    self_group s1 "arrows" = Some arrows /\
    exec BlockMerging.perform_merging s1 = Some s2 /\
    self_group s2 "blocks" = Some blocks' /\
    self_group s2 "arrows" = Some arrows' /\
    length blocks' = 7%nat /\ NoDup blocks' /\
    length arrows' = 7%nat /\ NoDup arrows' /\
    (* the nine are blocks and connectors, and nothing else is *)
    forallb (Shown.is_block s0) blocks = true /\
    mapM (block_title s0) blocks
      = Some [ "entry_block"; "block_1"; "block_2"; "block_3"; "block_4";
               "block_5"; "block_6"; "block_7"; "exit_block" ] /\
    forallb (Shown.joins s0 blocks) arrows = true /\
    Shown.blocks_shown s0 = blocks /\
    Shown.connectors_shown s0 = arrows /\
    (* the seven are blocks and connectors, and nothing else is *)
    forallb (Shown.is_block s2) blocks' = true /\
    mapM (block_title s2) blocks'
      = Some [ "entry_block"; "merged_block"; "block_4";
               "block_5"; "block_6"; "block_7"; "exit_block" ] /\
    forallb (Shown.joins s2 blocks') arrows' = true /\
    length (Shown.blocks_shown s2) = 7%nat /\
    (forall b, b ∈ Shown.blocks_shown s2 <-> b ∈ blocks') /\
    length (Shown.connectors_shown s2) = 7%nat /\
    (forall c, c ∈ Shown.connectors_shown s2 <-> c ∈ arrows').
Proof.
  cbv zeta. eexists _, _, _, _, _.
  split; [by_computation|]. split; [by_computation|]. split; [by_computation|].
  split; [by_computation|]. split; [by_decision|].
  split; [by_computation|]. split; [by_decision|].
  split; [by_computation|].
  split; [by_computation|]. split; [by_computation|]. split; [by_computation|].
  split; [by_computation|]. split; [by_computation|]. split; [by_computation|].
  split; [by_computation|]. split; [by_decision|].
  split; [by_computation|]. split; [by_decision|].
  split; [by_computation|]. split; [by_computation|]. split; [by_computation|].
  split; [by_computation|]. split; [by_computation|].
  split; [by_computation|]. split; [by_computation|]. split; [by_computation|].
  split; [by_computation|].
  split; [apply (same_members _ _); by_computation|].
  split; [by_computation|].
  apply (same_members _ _); by_computation.
Qed.

(** C1: the merge step leaves exactly this state.  Blocks: the nine
    original ones without [block_1], [block_2], [block_3], plus one new
    block whose statements are theirs, concatenated in chain order.
    Connectors: the nine original ones without the four that touch a
    merged block (entry->block_1, block_1->block_2, block_2->block_3,
    block_3->condition), plus two new ones (entry->merged,
    merged->condition); the five downstream connectors are the original
    objects, and no object that existed before the step was changed. *)
Theorem perform_merging_post_state :
  let s1 := MergeStep.before in
  let s2 := MergeStep.merged in
  exists entry block_1 block_2 block_3 condition then_block else_block merge
         exit_block merged
         a0 a1 a2 a3 a4 a5 a6 a7 a8 new_arrow1 new_arrow2
         stmts1 stmts2 stmts3,
    let blocks := [entry; block_1; block_2; block_3; condition; then_block;
                   else_block; merge; exit_block] in
    let arrows := [a0; a1; a2; a3; a4; a5; a6; a7; a8] in
    let merged_away := [block_1; block_2; block_3] in
    let blocks' := [entry; merged; condition; then_block; else_block; merge;
                    exit_block] in
    let arrows' := [new_arrow1; new_arrow2; a4; a5; a6; a7; a8] in
    exec MergeStep.before_merging empty_scene = Some s1 /\
    exec BlockMerging.perform_merging s1 = Some s2 /\
    (* before *)
    self_group s1 "blocks" = Some blocks /\
    self_group s1 "arrows" = Some arrows /\
    map (block_title s1) merged_away
      = [Some "block_1"; Some "block_2"; Some "block_3"] /\
    map (connector_ends s1) arrows
      = [ Some (entry, block_1); Some (block_1, block_2);
          Some (block_2, block_3); Some (block_3, condition);
          Some (condition, then_block); Some (condition, else_block);
          Some (then_block, merge); Some (else_block, merge);
          Some (merge, exit_block) ] /\
    (* blocks after *)
    self_group s2 "blocks" = Some blocks' /\
    (list_to_set blocks' : gset ref)
      = list_to_set blocks ∖ list_to_set merged_away ∪ {[ merged ]} /\
    (length (heap s1) <= merged)%nat /\
    block_title s2 merged = Some "merged_block" /\
    block_statements s1 block_1 = Some stmts1 /\
    block_statements s1 block_2 = Some stmts2 /\
    block_statements s1 block_3 = Some stmts3 /\
    block_statements s2 merged = Some (stmts1 ++ stmts2 ++ stmts3) /\
    stmts1 ++ stmts2 ++ stmts3 = ["x = x + 1;"; "y = y * 2;"; "int z = x + y;"] /\
    (* connectors after *)
    self_group s2 "arrows" = Some arrows' /\
    List.filter (incident s1 merged_away) arrows = [a0; a1; a2; a3] /\
    (list_to_set arrows' : gset ref)
      = list_to_set arrows
          ∖ list_to_set (List.filter (incident s1 merged_away) arrows)
          ∪ {[ new_arrow1; new_arrow2 ]} /\
    new_arrow1 <> new_arrow2 /\
    (length (heap s1) <= new_arrow1)%nat /\
    (length (heap s1) <= new_arrow2)%nat /\
    connector_ends s2 new_arrow1 = Some (entry, merged) /\
    connector_ends s2 new_arrow2 = Some (merged, condition) /\
    map (connector_ends s2) [a4; a5; a6; a7; a8]
      = [ Some (condition, then_block); Some (condition, else_block);
          Some (then_block, merge); Some (else_block, merge);
          Some (merge, exit_block) ] /\
    (* what the step fades out *)
    (exists anims, batches (appended s1 s2) !! 2%nat = Some anims /\
                   MergeStep.fades anims = merged_away ++ [a0; a1; a2; a3]) /\
    (* nothing that existed was touched *)
    heap s1 `prefix_of` heap s2.
Proof.
  cbv zeta. do 24 eexists. cbv zeta.
  split; [by_computation|]. split; [by_computation|].
  split; [by_computation|]. split; [by_computation|].
  split; [by_computation|]. split; [by_computation|].
  split; [by_computation|]. split; [by_decision|].
  split; [vm_compute; lia|].
  split; [by_computation|].
  split; [by_computation|]. split; [by_computation|]. split; [by_computation|].
  split; [by_computation|]. split; [by_computation|].
  split; [by_computation|]. split; [by_computation|].
  split; [by_decision|].
  split; [done|].
  split; [vm_compute; lia|]. split; [vm_compute; lia|].
  split; [by_computation|]. split; [by_computation|]. split; [by_computation|].
  split. { eexists. split; by_computation. }
  eexists. by_computation.
Qed.

(* ================================================================== *)
(** ** Connectors                                                      *)
(* ================================================================== *)

(** Where [create_arrow] starts an arrow, by cases on the indices. *)
Lemma create_arrow_start_edge (from_idx to_idx : Z) (from_block : ref) :
  (if (from_idx =? 0)%Z then
     get_bottom from_block + DOWN * BlockMerging.OFFSET_DISTANCE
   else if ((from_idx =? 1) || (from_idx =? -1))%Z then
     get_bottom from_block + DOWN * BlockMerging.OFFSET_DISTANCE
   else if (from_idx =? 4)%Z then
     (if (to_idx =? 5)%Z then
        get_left from_block + LEFT * BlockMerging.OFFSET_DISTANCE
      else
        get_right from_block + RIGHT * BlockMerging.OFFSET_DISTANCE)
   else if ((from_idx =? 5) || (from_idx =? 6))%Z then
     get_bottom from_block + DOWN * BlockMerging.OFFSET_DISTANCE
   else
     get_bottom from_block + DOWN * BlockMerging.OFFSET_DISTANCE)%P
  = Connector.anchor_at
      (if (from_idx =? 4)%Z then if (to_idx =? 5)%Z then Left else Right
       else Bottom)
      from_block BlockMerging.OFFSET_DISTANCE.
Proof.
  destruct (Z.eqb_spec from_idx 4) as [->|Hne]; [by destruct (to_idx =? 5)%Z|].
  by repeat case_match.
Qed.

(** Where it ends one: always above the top edge. *)
Lemma create_arrow_finish_edge (to_idx : Z) (to_block : ref) :
  (if (to_idx =? 4)%Z then
     get_top to_block + UP * BlockMerging.OFFSET_DISTANCE
   else if ((to_idx =? 5) || (to_idx =? 6))%Z then
     get_top to_block + UP * BlockMerging.OFFSET_DISTANCE
   else if (to_idx =? 7)%Z then
     get_top to_block + UP * BlockMerging.OFFSET_DISTANCE
   else if (to_idx =? 8)%Z then
     get_top to_block + UP * BlockMerging.OFFSET_DISTANCE
   else
     get_top to_block + UP * BlockMerging.OFFSET_DISTANCE)%P
  = Connector.anchor_at Top to_block BlockMerging.OFFSET_DISTANCE.
Proof. by repeat case_match. Qed.

(** X10: [create_arrow] on any store and any arguments: the arrow ends above
    the top edge of [to_block]; it starts below the bottom edge of
    [from_block] unless [from_idx] is the condition block's index, and then
    left of it towards index 5 and right of it otherwise; a label, if
    given, is centred on the arrow and shifted to the same side. *)
Lemma create_arrow_anchors from_block to_block label from_idx to_idx s :
  exists c s' arrow,
    BlockMerging.create_arrow from_block to_block label from_idx to_idx s
      = Returns c s' /\
    heap s `prefix_of` heap s' /\
    connector_arrow s' c = Some arrow /\
    arrow_points s' arrow =
      Some (Connector.anchor_at
              (if (from_idx =? 4)%Z then if (to_idx =? 5)%Z then Left else Right
               else Bottom)
              from_block BlockMerging.OFFSET_DISTANCE,
            Connector.anchor_at Top to_block BlockMerging.OFFSET_DISTANCE) /\
    if Py.truthy_str label then
      exists l,
        connector_label s' c = Some l /\
        text_of s' l = label /\
        calls_of s' l =
          [ Cset_opacity 1.0;
            Cmove_to (get_center arrow);
            Cshift ((if (to_idx =? 5)%Z then LEFT else RIGHT) * 0.25) ]
    else connector_label s' c = None.
Proof.
  destruct s as [h a t]. rewrite <- (app_nil_r h).
  unfold BlockMerging.create_arrow.
  rewrite create_arrow_start_edge, create_arrow_finish_edge.
  unfold Arrow, VGroup, Text, set_stroke, set_color, set_opacity, move_to,
    add, invoke, bind, ret.
  destruct label as [[|ch text]|]; cbn [Py.truthy_str].
  - run_framed. exists (length h + 0)%nat. eexists _, (length h + 0)%nat.
    split; [reflexivity|]. split; [cbn; rewrite app_nil_r; by eexists|].
    unfold connector_arrow, connector_label, arrow_points, is_arrow; cbn.
    read_framed. done.
  - destruct (to_idx =? 5)%Z; unfold shift, invoke, bind;
      run_framed; fresh_members;
      exists (length h + 2)%nat; eexists _, (length h + 0)%nat;
      (split; [reflexivity|]); (split; [cbn; rewrite app_nil_r; by eexists|]);
      unfold connector_arrow, connector_label, arrow_points, is_arrow,
        members_of, text_of, calls_of; cbn; read_framed;
      (split; [done|]); (split; [done|]);
      exists (length h + 1)%nat; read_framed; done.
  - run_framed. exists (length h + 0)%nat. eexists _, (length h + 0)%nat.
    split; [reflexivity|]. split; [cbn; rewrite app_nil_r; by eexists|].
    unfold connector_arrow, connector_label, arrow_points, is_arrow; cbn.
    read_framed. done.
Qed.

(** Checks [Connector.built_for] on a computed scene. *)
Ltac built_by_computation :=
  do 5 eexists;
  (split; [by_computation|]); (split; [by_computation|]);
  (split; [by_computation|]); (split; [by_computation|]);
  (split; [by_computation|]); (split; [by_computation|]);
  (split; [by_computation|]); (split; [by_computation|]);
  first [ by_computation
        | eexists; (split; [by_computation|]); split; by_computation ].

Ltac all_built_by_computation :=
  repeat (apply List.Forall2_cons; [built_by_computation|]);
  apply List.Forall2_nil.

(** C8: every connector the CFG scenes build ends at the top-edge anchor
    of its destination box and starts at the bottom-edge anchor of its
    source box, except the two branches of the condition block, which
    start at its left-edge anchor (true) and right-edge anchor (false);
    each end point is that anchor moved outward by the scene's
    [OFFSET_DISTANCE].  A label, when given, is centred on the arrow and
    then shifted by a fixed distance, left for "true" and right for
    "false".  This holds for the six connectors of [FinalCFG], for the
    nine initial connectors of [BlockMerging] and for the seven of its
    merged graph, two of them new. *)
Theorem connectors_anchor_on_edges :
  (let s := after FinalCFG.construct empty_scene in
   exists blocks arrows bs ars,
     FinalCFG.construct_body empty_scene = Returns (blocks, arrows) s /\
     exec FinalCFG.construct empty_scene = Some s /\
     members_of s blocks = Some bs /\
     members_of s arrows = Some ars /\
     Forall2 (Connector.built_for s FinalCFG.OFFSET_DISTANCE 0.3 1 bs)
             FinalCFG.connections ars) /\
  (let s := MergeStep.initial in
   exists bs ars,
     exec BlockMerging.show_initial_blocks empty_scene = Some s /\
     self_group s "blocks" = Some bs /\
     self_group s "arrows" = Some ars /\
     Forall2 (Connector.built_for s BlockMerging.OFFSET_DISTANCE 0.25 4 bs)
             BlockMerging.connections ars) /\
  (let s := MergeStep.merged in
   exists bs ars,
     exec BlockMerging.perform_merging MergeStep.before = Some s /\
     self_group s "blocks" = Some bs /\
     self_group s "arrows" = Some ars /\
     Forall2 (Connector.built_for s BlockMerging.OFFSET_DISTANCE 0.25 2 bs)
             MergeStep.merged_connections ars).
Proof.
  cbv zeta. split; [|split].
  - eexists _, _, _, _.
    split; [by_computation|]. split; [by_computation|].
    split; [by_computation|]. split; [by_computation|].
    all_built_by_computation.
  - eexists _, _.
    split; [by_computation|]. split; [by_computation|].
    split; [by_computation|].
    all_built_by_computation.
  - eexists _, _.
    split; [by_computation|]. split; [by_computation|].
    split; [by_computation|].
    all_built_by_computation.
Qed.

(* ================================================================== *)
(** ** The AST scene: tokens                                           *)
(* ================================================================== *)

Import Token.

(** C3: the token stage writes exactly 33 tokens, in the order of the
    literal list: the first is the keyword [int], the categories run
    keyword, identifier, delimiter, ... and the last token is the
    delimiter [}]. *)
Theorem token_stage_displays_33_tokens :
  let s1 := Stage.tokens_before in
  let s2 := Stage.tokens_after in
  exec Token.before_tokens empty_scene = Some s1 /\
  exec ASTGeneration.show_tokenization s1 = Some s2 /\
  exists toks,
    Token.displayed s2 (appended s1 s2) = Some toks /\
    length toks = 33%nat /\
    toks = ASTGeneration.tokens /\
    mapM (fun tk => Token.category_of tk.2) toks
      = Some [ keyword; identifier; delimiter; delimiter; delimiter;
               keyword; identifier; operator; literal; delimiter;
               keyword; delimiter; identifier; operator; literal;
               delimiter; delimiter;
               identifier; operator; literal; delimiter;
               delimiter; keyword; delimiter;
               identifier; operator; literal; delimiter;
               delimiter;
               keyword; identifier; delimiter;
               delimiter ] /\
    head toks = Some ("int", "关键字") /\
    last toks = Some ("}", "分隔符") /\
    Token.category_of "关键字" = Some keyword /\
    Token.category_of "分隔符" = Some delimiter.
Proof.
  cbv zeta. split; [by_computation|]. split; [by_computation|].
  eexists. split; [by_computation|].
  split; [by_computation|]. split; [by_computation|]. split; [by_computation|].
  split; [by_computation|]. split; [by_computation|]. split; by_computation.
Qed.

(** C4 as stated fails.  The token list is not the tokenisation of the
    source program: the source has 38 lexemes, the stage writes 33, and
    they part at position 10, where the source goes on with
    [int score = 70;] and the token list with [if]. *)
Lemma token_list_skips_source_lexemes :
  Stage.displayed_lexemes <> Stage.source_lexemes /\
  exists shown src,
    Stage.displayed_lexemes = Some shown /\
    Stage.source_lexemes = Some src /\
    length shown = 33%nat /\
    length src = 38%nat /\
    shown !! 10%nat = Some "if" /\
    src !! 10%nat = Some "int".
Proof.
  split.
  - intros H. vm_compute in H. discriminate H.
  - eexists _, _. split; [by_computation|]. split; [by_computation|].
    split; [by_computation|]. split; [by_computation|]. split; by_computation.
Qed.

(** C4, amended: the token list the stage writes is, in reading order,
    the tokenisation of the source program shown in stage 1 with its third
    line ([int score = 70;]) left out.  Every token written is a lexeme of
    the source, in the source's order; the five lexemes of the third line
    are the only ones of the source that are not written. *)
Theorem token_list_is_source_without_third_line :
  let s1 := Stage.tokens_before in
  let s2 := Stage.tokens_after in
  exec Token.before_tokens empty_scene = Some s1 /\
  exec ASTGeneration.show_tokenization s1 = Some s2 /\
  exists lines toks,
    Token.shown_source s1 = Some lines /\
    Token.displayed s2 (appended s1 s2) = Some toks /\
    length lines = 10%nat /\
    lines = Py.split Py.newline ASTGeneration.source_code /\
    lines !! 2%nat = Some "    int score = 70;" /\
    map fst toks = Lexer.lexemes_of_lines (delete 2%nat lines) /\
    Lexer.lexemes_of_lines lines
      = take 10 (map fst toks) ++ ["int"; "score"; "="; "70"; ";"]
        ++ drop 10 (map fst toks) /\
    Lexer.lexemes_of_lines lines = Lexer.lexemes ASTGeneration.source_code.
Proof.
  cbv zeta. split; [by_computation|]. split; [by_computation|].
  eexists _, _. split; [by_computation|]. split; [by_computation|].
  split; [by_computation|]. split; [by_computation|]. split; [by_computation|].
  split; [by_computation|]. split; by_computation.
Qed.

(* ================================================================== *)
(** ** The AST scene: the tree                                         *)
(* ================================================================== *)

(** [connect_nodes] on any store: a new arrow from the bottom anchor of
    the parent to the top anchor of the child, and nothing else. *)
Lemma connect_nodes_ends parent child s :
  exists arrow s',
    ASTGeneration.connect_nodes parent child s = Returns arrow s' /\
    heap s' = heap s ++ [Mobject (ArrowShape (get_bottom parent) (get_top child)
                                              GRAY 0.1 1.5 0.15) [] []] /\
    attrs s' = attrs s /\
    timeline s' = timeline s /\
    connector_ends s' arrow = Some (parent, child).
Proof.
  destruct s as [h a t]. rewrite <- (app_nil_r h).
  unfold ASTGeneration.connect_nodes, Arrow, bind, ret. run_framed.
  eexists _, _. split; [reflexivity|]. cbn. rewrite app_nil_r.
  split; [done|]. split; [done|]. split; [done|].
  unfold connector_ends, connector_points, connector_arrow, is_arrow,
    arrow_points; cbn.
  read_framed. done.
Qed.

(** Checks that a connector joins two of the listed nodes. *)
Ltac joins_by_computation :=
  eexists _, _; split; [by_computation|]; split; by_decision.

(** C5: the tree stage declares 10 nodes and 9 connectors, one fewer;
    every node but the root [Program] is the destination of exactly one
    connector, and the root of none. *)
Theorem ast_connectors_form_a_tree :
  let s3 := Stage.tree_before in
  let s := Stage.tree_after in
  exists nodes arrows root,
    exec Tree.before_tree empty_scene = Some s3 /\
    exec ASTGeneration.show_ast_building s3 = Some s /\
    self_pylist s "ast_nodes" = Some nodes /\
    self_pylist s "ast_arrows" = Some arrows /\
    length nodes = 10%nat /\ NoDup nodes /\
    length arrows = 9%nat /\ NoDup arrows /\
    length arrows = (length nodes - 1)%nat /\
    nodes !! 0%nat = Some root /\
    Tree.node_label s root = Some ["Program"] /\
    Forall (fun n => length (Tree.arriving s arrows n)
                     = if bool_decide (n = root) then 0%nat else 1%nat) nodes /\
    Forall (fun a => exists src dst,
                connector_ends s a = Some (src, dst) /\
                src ∈ nodes /\ dst ∈ nodes) arrows.
Proof.
  cbv zeta. eexists _, _, _.
  split; [by_computation|]. split; [by_computation|].
  split; [by_computation|]. split; [by_computation|].
  split; [by_computation|]. split; [by_decision|].
  split; [by_computation|]. split; [by_decision|].
  split; [by_computation|]. split; [by_computation|]. split; [by_computation|].
  split.
  - repeat (apply List.Forall_cons; [by_computation|]). apply List.Forall_nil.
  - repeat (apply List.Forall_cons; [joins_by_computation|]). apply List.Forall_nil.
Qed.

(** C6 as stated fails.  The four children of the block statement are not
    revealed by one [play]: the stage reveals nodes in seven batches, and
    none of them holds all four. *)
Lemma block_statement_children_not_in_one_batch :
  exists revealed kids,
    Stage.node_reveals = Some revealed /\
    Stage.block_statement_children = Some kids /\
    length kids = 4%nat /\
    length revealed = 7%nat /\
    Forall (fun batch => ~ Forall (fun kid => kid ∈ batch) kids) revealed.
Proof.
  eexists _, _. split; [by_computation|]. split; [by_computation|].
  split; [by_computation|]. split; [by_computation|].
  repeat (apply List.Forall_cons; [by_decision|]). apply List.Forall_nil.
Qed.

(** C6, amended: the tree stage reveals its ten nodes and nine connectors
    in seven [play] calls, each node together with the connector that ends
    at it: the root; the function declaration; the block statement; the
    two variable declarations in one call; the if statement; the three
    children of the if statement (condition, then branch, else branch) in
    one call; the return node last. *)
Theorem tree_reveal_order :
  let s3 := Stage.tree_before in
  let s := Stage.tree_after in
  exists program func_decl block_stmt var_decl1 var_decl2 if_stmt
         condition then_branch else_branch return_stmt
         arrow1 arrow2 arrow3 arrow4 arrow5 arrow6 arrow7 arrow8 arrow9,
    let nodes := [program; func_decl; block_stmt; var_decl1; var_decl2;
                  if_stmt; condition; then_branch; else_branch; return_stmt] in
    let arrows := [arrow1; arrow2; arrow3; arrow4; arrow5; arrow6; arrow7;
                   arrow8; arrow9] in
    exec Tree.before_tree empty_scene = Some s3 /\
    exec ASTGeneration.show_ast_building s3 = Some s /\
    self_pylist s "ast_nodes" = Some nodes /\
    self_pylist s "ast_arrows" = Some arrows /\
    map (Tree.node_label s) nodes
      = [ Some ["Program"];
          Some ["FunctionDeclaration"; "checkGrade"];
          Some ["BlockStatement"];
          Some ["VariableDeclaration"; "int grade = 0"];
          Some ["VariableDeclaration"; "int score = 70"];
          Some ["IfStatement"];
          Some ["BinaryExpression"; ">="; "score, 90"];
          Some ["AssignmentStatement"; "grade = 1"];
          Some ["AssignmentStatement"; "grade = 2"];
          Some ["ReturnStatement"; "return grade"] ] /\
    map (connector_ends s) arrows
      = [ Some (program, func_decl); Some (func_decl, block_stmt);
          Some (block_stmt, var_decl1); Some (block_stmt, var_decl2);
          Some (block_stmt, if_stmt);
          Some (if_stmt, condition); Some (if_stmt, then_branch);
          Some (if_stmt, else_branch);
          Some (block_stmt, return_stmt) ] /\
    Tree.reveals_all (appended s3 s)
      = [ [program];
          [func_decl; arrow1];
          [block_stmt; arrow2];
          [var_decl1; arrow3; var_decl2; arrow4];
          [if_stmt; arrow5];
          [condition; arrow6; then_branch; arrow7; else_branch; arrow8];
          [return_stmt; arrow9] ] /\
    Tree.reveals nodes (appended s3 s)
      = [ [program]; [func_decl]; [block_stmt]; [var_decl1; var_decl2];
          [if_stmt]; [condition; then_branch; else_branch]; [return_stmt] ].
Proof.
  cbv zeta. do 19 eexists.
  split; [by_computation|]. split; [by_computation|].
  split; [by_computation|]. split; [by_computation|].
  split; [by_computation|]. split; [by_computation|].
  split; by_computation.
Qed.

(* ================================================================== *)
(** ** Builders and stages on any input                                *)
(* ================================================================== *)

(** *** Python strings *)

Lemma append_cons c s t : String c s +:+ t = String c (s +:+ t).
Proof. reflexivity. Qed.

Lemma append_nil_r s : s +:+ "" = s.
Proof. induction s as [|c s IH]; [done|]. by rewrite append_cons, IH. Qed.

Lemma append_assoc s t u : (s +:+ t) +:+ u = s +:+ (t +:+ u).
Proof. induction s as [|c s IH]; [done|]. by rewrite !append_cons, IH. Qed.

Lemma rev_onto_app s acc : Py.rev_onto s acc = Py.rev_onto s "" +:+ acc.
Proof.
  revert acc. induction s as [|c s IH]; intros acc; [done|].
  cbn [Py.rev_onto]. rewrite IH, (IH (String c "")).
  by rewrite append_assoc.
Qed.

Lemma reversed_cons c acc :
  Py.reversed (String c acc) = Py.reversed acc +:+ String c "".
Proof. unfold Py.reversed. cbn [Py.rev_onto]. apply rev_onto_app. Qed.

Lemma split_from_nonempty sep s acc : Py.split_from sep s acc <> [].
Proof.
  revert acc. induction s as [|d s IH]; intros acc; cbn [Py.split_from]; [done|].
  destruct (Ascii.eqb d sep); [done|]. apply IH.
Qed.

(** [sep.join(s.split(sep)) == s] *)
Lemma join_split_from sep s acc :
  String.concat (String sep "") (Py.split_from sep s acc) = Py.reversed acc +:+ s.
Proof.
  revert acc. induction s as [|c s IH]; intros acc.
  - cbn. by rewrite append_nil_r.
  - cbn [Py.split_from]. destruct (Ascii.eqb_spec c sep) as [->|Hne].
    + cbn [String.concat].
      destruct (Py.split_from sep s "") as [|p ps] eqn:E.
      { by apply split_from_nonempty in E. }
      rewrite <- E, IH. done.
    + rewrite IH, reversed_cons. by rewrite append_assoc.
Qed.

Lemma join_split sep s : String.concat (String sep "") (Py.split sep s) = s.
Proof. unfold Py.split. by rewrite join_split_from. Qed.

(** No piece of a split holds the separator. *)
Lemma contains_rev_onto c s acc :
  PyFacts.contains c (Py.rev_onto s acc) = PyFacts.contains c s || PyFacts.contains c acc.
Proof.
  revert acc. induction s as [|d s IH]; intros acc; [done|].
  cbn [Py.rev_onto PyFacts.contains]. rewrite IH. cbn [PyFacts.contains].
  destruct (Ascii.eqb d c), (PyFacts.contains c s), (PyFacts.contains c acc); done.
Qed.

Lemma split_from_pieces sep s acc :
  PyFacts.contains sep acc = false ->
  Forall (fun piece => PyFacts.contains sep piece = false) (Py.split_from sep s acc).
Proof.
  revert acc. induction s as [|d s IH]; intros acc Hacc; cbn [Py.split_from].
  - constructor; [|constructor]. unfold Py.reversed.
    by rewrite contains_rev_onto, Hacc.
  - destruct (Ascii.eqb_spec d sep) as [->|Hne].
    + constructor; [|by apply IH]. unfold Py.reversed.
      by rewrite contains_rev_onto, Hacc.
    + apply IH. cbn [PyFacts.contains]. rewrite Hacc.
      by destruct (Ascii.eqb_spec d sep).
Qed.

Lemma split_pieces sep s :
  Forall (fun piece => PyFacts.contains sep piece = false) (Py.split sep s).
Proof. by apply split_from_pieces. Qed.

(** A loop whose every turn takes the scene from [St done] to
    [St (done ++ [f x])]. *)
Lemma lstrip_all_space s : Py.lstrip s = "" <-> PyFacts.all_space s = true.
Proof.
  induction s as [|c s IH]; [done|]. cbn [Py.lstrip PyFacts.all_space].
  destruct (Py.is_space c); [exact IH|]. split; [done|]. cbn. done.
Qed.

Lemma lstrip_idem s : Py.lstrip (Py.lstrip s) = Py.lstrip s.
Proof.
  induction s as [|c s IH]; [done|]. cbn [Py.lstrip].
  destruct (Py.is_space c) eqn:E; [exact IH|]. cbn [Py.lstrip]. by rewrite E.
Qed.

Lemma lstrip_app_space s u :
  PyFacts.all_space s = true -> Py.lstrip (s +:+ u) = Py.lstrip u.
Proof.
  induction s as [|c s IH]; [done|]. cbn [PyFacts.all_space].
  intros [Hc Hs]%andb_prop. rewrite append_cons. cbn [Py.lstrip].
  rewrite Hc. by apply IH.
Qed.

Lemma all_space_app s u :
  PyFacts.all_space (s +:+ u) = PyFacts.all_space s && PyFacts.all_space u.
Proof.
  induction s as [|c s IH]; [done|]. rewrite append_cons. cbn [PyFacts.all_space].
  rewrite IH. by rewrite andb_assoc.
Qed.

Lemma all_space_rev_onto s acc :
  PyFacts.all_space (Py.rev_onto s acc) = PyFacts.all_space s && PyFacts.all_space acc.
Proof.
  revert acc. induction s as [|c s IH]; intros acc; [done|].
  cbn [Py.rev_onto]. rewrite IH. cbn [PyFacts.all_space].
  destruct (Py.is_space c), (PyFacts.all_space s), (PyFacts.all_space acc); done.
Qed.

Lemma all_space_lstrip_inv s :
  PyFacts.all_space (Py.lstrip s) = true -> PyFacts.all_space s = true.
Proof.
  induction s as [|c s IH]; [done|]. cbn [Py.lstrip PyFacts.all_space].
  destruct (Py.is_space c) eqn:E; [exact IH|]. cbn [PyFacts.all_space].
  by rewrite E.
Qed.

(** A line that strips to nothing is blank. *)
Lemma strip_empty s : Py.strip s = "" -> Py.lstrip s = "".
Proof.
  unfold Py.strip, Py.rstrip, Py.reversed. intros E.
  apply lstrip_all_space, all_space_lstrip_inv.
  assert (PyFacts.all_space (Py.rev_onto (Py.lstrip (Py.rev_onto (Py.lstrip s) "")) "") = true)
    as H by (by rewrite E).
  rewrite all_space_rev_onto, andb_true_r in H.
  apply all_space_lstrip_inv in H.
  rewrite all_space_rev_onto, andb_true_r in H. done.
Qed.

Lemma concat_empty_cons x xs :
  String.concat "" (x :: xs) = x +:+ String.concat "" xs.
Proof.
  cbn [String.concat]. destruct xs; [by rewrite append_nil_r|]. done.
Qed.

Lemma all_space_repeat n :
  PyFacts.all_space (String.concat "" (repeat "    " n)) = true.
Proof.
  induction n as [|n IH]; [done|]. cbn [repeat].
  by rewrite concat_empty_cons, all_space_app, IH.
Qed.

Lemma length_append s u :
  String.length (s +:+ u) = (String.length s + String.length u)%nat.
Proof. induction s as [|c s IH]; [done|]. rewrite append_cons. cbn. by rewrite IH. Qed.

Lemma length_repeat_str n :
  String.length (String.concat "" (repeat "    " n)) = (4 * n)%nat.
Proof.
  induction n as [|n IH]; [done|]. cbn [repeat].
  rewrite concat_empty_cons, length_append, IH. cbn. lia.
Qed.

Lemma length_lstrip s : (String.length (Py.lstrip s) <= String.length s)%nat.
Proof.
  induction s as [|c s IH]; [done|]. cbn [Py.lstrip].
  destruct (Py.is_space c); cbn; lia.
Qed.


(** *** Loops and calls on a framed store *)

Lemma for_each_steps {X Y} (St : list Y -> scene) (f : X -> Y)
    (body : X -> M unit) xs :
  (forall done x, body x (St done) = Returns tt (St (done ++ [f x]))) ->
  forall done, for_each xs body (St done) = Returns tt (St (done ++ map f xs)).
Proof.
  intros Hstep. induction xs as [|x xs IH]; intros done.
  - unfold for_each, ret. by rewrite app_nil_r.
  - change (for_each (x :: xs) body) with (bind (body x) (fun _ => for_each xs body)).
    unfold bind. rewrite Hstep, IH. cbn [map]. by rewrite <- app_assoc.
Qed.

(** A method call on the object that was allocated last. *)
Lemma invoke_last_framed h a t c o l :
  invoke (length h + length l)%nat c (Scene (h ++ (l ++ [o])) a t)
  = Returns tt
      (Scene (h ++ (l ++ [Mobject (shape_of o) (submobjects o) (calls o ++ [c])])) a t).
Proof.
  erewrite invoke_framed by (by apply list_lookup_middle).
  rewrite insert_app_r_alt by lia. by rewrite Nat.sub_diag.
Qed.

Lemma play_eq anims s :
  play anims s = Returns tt (Scene (heap s) (attrs s) (timeline s ++ [Play anims None])).
Proof. reflexivity. Qed.
Lemma play_run_time_eq anims rt s :
  play_run_time anims rt s
  = Returns tt (Scene (heap s) (attrs s) (timeline s ++ [Play anims (Some rt)])).
Proof. reflexivity. Qed.
Lemma setattr_eq name v s :
  setattr name v s = Returns tt (Scene (heap s) (<[name := v]> (attrs s)) (timeline s)).
Proof. reflexivity. Qed.

Lemma self_obj_eq name m H a t :
  a !! name = Some (Obj m) ->
  self_obj name (Scene H a t) = Returns m (Scene H a t).
Proof. intros E. unfold self_obj, getattr, bind. cbn [attrs]. by rewrite E. Qed.

Lemma Text_eq text font_size font col wt H a t :
  Text text font_size font col wt (Scene H a t)
  = Returns (length H)
      (Scene (H ++ [Mobject (TextShape text font_size font col wt) [] []]) a t).
Proof. reflexivity. Qed.

Lemma invoke_new c o H a t :
  invoke (length H) c (Scene (H ++ [o]) a t)
  = Returns tt (Scene (H ++ [Mobject (shape_of o) (submobjects o) (calls o ++ [c])]) a t).
Proof.
  unfold invoke, deref, store, bind. cbn [heap attrs timeline].
  rewrite list_lookup_middle by done. cbv beta iota. cbn [heap attrs timeline].
  rewrite insert_app_r_alt by lia. by rewrite Nat.sub_diag.
Qed.

(** A group of any members: a member named twice is kept once. *)
Lemma VGroup_any ms H a t :
  VGroup ms (Scene H a t)
  = Returns (length H)
      (Scene (H ++ [Mobject VGroupShape (remove_list_redundancies ms) []]) a t).
Proof.
  unfold VGroup, add, alloc, deref, store, bind, ret. cbn [heap attrs timeline].
  rewrite list_lookup_middle by done. cbv beta iota.
  cbn [heap attrs timeline shape_of submobjects calls].
  rewrite insert_app_r_alt by lia. rewrite Nat.sub_diag.
  unfold list_update. by rewrite filter_nil.
Qed.

Lemma members_eq s g ms :
  members_of s g = Some ms -> members g s = Returns ms s.
Proof.
  unfold members_of, members, deref, bind, ret.
  destruct (heap s !! g); [|done]. by intros [= <-].
Qed.

Lemma members_of_app H more a t a' t' g ms :
  members_of (Scene H a t) g = Some ms ->
  members_of (Scene (H ++ more) a' t') g = Some ms.
Proof.
  unfold members_of. cbn [heap]. destruct (H !! g) as [o|] eqn:E; [|done].
  by rewrite (lookup_app_l_Some _ _ _ _ E).
Qed.

(** [[item for group in groups for item in group]] *)
Lemma gather_members s groups mss :
  Forall2 (fun g ms => members_of s g = Some ms) groups mss ->
  forall acc,
    for_fold groups acc (fun group acc => xs <- members group ;; ret (acc ++ xs)) s
    = Returns (acc ++ concat mss) s.
Proof.
  induction 1 as [|g ms groups mss Hg _ IH]; intros acc.
  - cbn. by rewrite app_nil_r.
  - cbn [for_fold concat]. unfold bind at 1 2. rewrite (members_eq _ _ _ Hg).
    unfold ret at 1. rewrite IH. by rewrite <- app_assoc.
Qed.

(** The loop that plays one batch of [Write] per line. *)
Lemma play_rows H a groups mss :
  Forall2 (fun g ms => members_of (Scene H a []) g = Some ms) groups mss ->
  forall t,
    for_each groups (fun group =>
        xs <- members group ;; play_run_time (map Write xs) 0.3) (Scene H a t)
    = Returns tt
        (Scene H a (t ++ map (fun ms => Play (map Write ms) (Some 0.3%Q)) mss)).
Proof.
  induction 1 as [|g ms groups mss Hg _ IH]; intros t.
  - unfold for_each, ret. cbn. by rewrite app_nil_r.
  - change (for_each (g :: groups) ?f) with (bind (f g) (fun _ => for_each groups f)).
    unfold bind at 1 2.
    rewrite (members_eq (Scene H a t) g ms) by exact Hg.
    rewrite play_run_time_eq. cbn [heap attrs timeline]. rewrite IH.
    cbn [map]. by rewrite <- app_assoc.
Qed.


(** *** [create_ast_node] *)

Lemma add_node_line_framed h a t line done :
  (line_text <- Text line 18 "monospace" WHITE NORMAL ;;
   add (length h + 0)%nat [line_text])
    (Scene (h ++ Node.lines_added (length h) done) a t)
  = Returns tt (Scene (h ++ Node.lines_added (length h) (done ++ [line])) a t).
Proof.
  unfold Text, add, bind. rewrite alloc_framed, deref_framed.
  cbn. fresh_members. rewrite store_framed.
  rewrite filter_fresh.
  2:{ rewrite list_elem_of_fmap. intros (i & E & Hi). apply elem_of_seq in Hi.
      rewrite length_map in E. lia. }
  unfold Node.lines_added. cbn.
  by rewrite length_app, length_map, Nat.add_1_r, seq_S, !map_app.
Qed.


Lemma create_ast_node_framed text color position h a t :
  let lines := Py.split Py.newline text in
  ASTGeneration.create_ast_node text color position (Scene h a t)
  = Returns (length h + (2 + length lines))%nat
      (Scene (h ++ Node.node_objects (length h) lines color position) a t).
Proof.
  cbv zeta. replace (Scene h a t) with (Scene (h ++ []) a t) by (by rewrite app_nil_r).
  unfold ASTGeneration.create_ast_node.
  step_with VGroup_framed; [|constructor].
  cbn [length app].
  change (h ++ [?G]) with (h ++ Node.lines_added (length h) []).
  unfold bind at 1.
  rewrite (for_each_steps (fun done => Scene (h ++ Node.lines_added (length h) done) a t) id).
  2:{ intros done line. apply add_node_line_framed. }
  cbv beta iota. cbn [app]. rewrite map_id.
  set (lines := Py.split Py.newline text).
  unfold arrange. unfold bind at 1; erewrite invoke_framed by reflexivity; cbv beta iota.
  cbn [Node.lines_added insert list_insert shape_of submobjects calls app].
  step_with SurroundingRectangle_framed.
  step_with VGroup_framed.
  2:{ repeat (apply NoDup_cons; split;
              [rewrite ?elem_of_cons, ?elem_of_nil; cbn [length]; lia|]).
      constructor. }
  unfold move_to, scale.
  unfold bind at 1; rewrite invoke_last_framed; cbv beta iota.
  unfold bind at 1; rewrite invoke_last_framed; cbv beta iota.
  cbn [shape_of submobjects calls app].
  unfold ret, Node.node_objects.
  cbn [length app]. rewrite ?length_app, ?length_map. cbn [length].
  rewrite <- !app_assoc. cbn [app].
  repeat f_equal; lia.
Qed.

Lemma node_objects_group base lines color position :
  Node.node_objects base lines color position !! 0%nat
  = Some (Mobject VGroupShape
            (map (fun i => base + (1 + i))%nat (seq 0 (length lines)))
            [Carrange DOWN LEFT 0.12]).
Proof. reflexivity. Qed.

Lemma node_objects_line base lines color position i line :
  lines !! i = Some line ->
  Node.node_objects base lines color position !! (1 + i)%nat
  = Some (Node.node_line line).
Proof.
  intros E. unfold Node.node_objects. cbv zeta.
  rewrite lookup_app_r by (cbn [length]; lia).
  apply lookup_app_l_Some.
  replace (1 + i - length [_])%nat with i by (cbn; lia).
  by rewrite list_lookup_fmap, E.
Qed.

Lemma node_objects_box base lines color position :
  Node.node_objects base lines color position !! (1 + length lines)%nat
  = Some (Mobject (RectShape (base + 0)%nat color 0.25 0.25 2.5) [] []).
Proof.
  unfold Node.node_objects. cbv zeta. rewrite app_assoc.
  apply list_lookup_middle. rewrite length_app, length_map. done.
Qed.

Lemma node_objects_node base lines color position :
  Node.node_objects base lines color position !! (2 + length lines)%nat
  = Some (Mobject VGroupShape [(base + (1 + length lines))%nat; (base + 0)%nat]
                  [Cmove_to (At position); Cscale 0.55]).
Proof.
  unfold Node.node_objects. cbv zeta. rewrite app_assoc.
  rewrite lookup_app_r by (rewrite length_app, length_map; cbn [length]; lia).
  by replace (2 + length lines - length ([_] ++ map Node.node_line lines))%nat
    with 1%nat by (rewrite length_app, length_map; cbn [length]; lia).
Qed.

(** X4: [create_ast_node], from any store and for any text, colour and
    position: the node is the group of a frame in the given colour and
    the group of label lines, moved to the position and scaled; the label
    lines are the text split at its newlines, so there is at least one,
    none holds a newline, and joined by newlines they give the text
    back. *)
Theorem create_ast_node_builds text color position s :
  exists node s' box text_group lines,
    ASTGeneration.create_ast_node text color position s = Returns node s' /\
    heap s `prefix_of` heap s' /\
    attrs s' = attrs s /\
    timeline s' = timeline s /\
    members_of s' node = Some [box; text_group] /\
    calls_of s' node = [Cmove_to (At position); Cscale 0.55] /\
    heap s' !! box = Some (Mobject (RectShape text_group color 0.25 0.25 2.5) [] []) /\
    calls_of s' text_group = [Carrange DOWN LEFT 0.12] /\
    Tree.node_label s' node = Some lines /\
    lines <> [] /\
    String.concat ASTGeneration.nl lines = text /\
    Forall (fun line => PyFacts.contains Py.newline line = false) lines.
Proof.
  destruct s as [h a t].
  exists (length h + (2 + length (Py.split Py.newline text)))%nat.
  eexists. exists (length h + (1 + length (Py.split Py.newline text)))%nat.
  exists (length h + 0)%nat, (Py.split Py.newline text).
  split; [apply create_ast_node_framed|].
  set (lines := Py.split Py.newline text).
  assert (Hn : members_of (Scene (h ++ Node.node_objects (length h) lines color position) a t)
                 (length h + (2 + length lines))%nat
               = Some [(length h + (1 + length lines))%nat; (length h + 0)%nat]).
  { unfold members_of; cbn [heap]. by rewrite lookup_framed, node_objects_node. }
  split; [by eexists|]. split; [done|]. split; [done|].
  split; [exact Hn|].
  split. { unfold calls_of; cbn [heap]. by rewrite lookup_framed, node_objects_node. }
  split. { cbn [heap]. by rewrite lookup_framed, node_objects_box. }
  split. { unfold calls_of; cbn [heap]. by rewrite lookup_framed, node_objects_group. }
  split.
  { unfold Tree.node_label. rewrite Hn. unfold lines_of, members_of; cbn [heap].
    rewrite lookup_framed, node_objects_group. cbn [mbind option_bind submobjects].
    apply mapM_Some, Forall2_same_length_lookup_2.
    - by rewrite length_map, length_seq.
    - intros i m line Hm Hl.
      apply list_lookup_fmap_Some in Hm as (j & -> & Hj).
      apply lookup_seq in Hj as [-> Hi]. rewrite Nat.add_0_l.
      rewrite text_of_object. cbn [heap].
      by rewrite lookup_framed, (node_objects_line _ _ _ _ _ _ Hl). }
  split. { apply split_from_nonempty. }
  split. { apply join_split. }
  apply split_pieces.
Qed.


(** *** [show_source_code] *)

Lemma add_source_line_framed h a t min_indent line done :
  (line_text <-
     (if negb (ASTGeneration.truthy (Py.strip line)) then
        Text "" 22 "monospace" WHITE NORMAL
      else
        let current_indent := (Py.len line - Py.len (Py.lstrip line))%Z in
        let relative_indent := (current_indent - min_indent)%Z in
        let indent_spaces := Py.repeat_str "    " (relative_indent / 4)%Z in
        let line_content := Py.lstrip line in
        let formatted_line := indent_spaces +:+ line_content in
        Text formatted_line 22 "monospace" WHITE NORMAL) ;;
   add (length h + 1)%nat [line_text])
    (Scene (h ++ Source.lines_added (length h) done) a t)
  = Returns tt
      (Scene (h ++ Source.lines_added (length h)
                     (done ++ [Source.shown_text min_indent line])) a t).
Proof.
  cbv zeta. unfold Source.shown_text.
  destruct (negb (ASTGeneration.truthy (Py.strip line)));
    unfold Text, add, bind; rewrite alloc_framed, deref_framed;
    cbn; fresh_members; rewrite store_framed;
    (rewrite filter_fresh;
     [|rewrite list_elem_of_fmap; intros (i & E & Hi); apply elem_of_seq in Hi;
       rewrite length_map in E; lia]);
    unfold Source.lines_added; cbn;
    by rewrite length_app, length_map, Nat.add_1_r, seq_S, !map_app.
Qed.

Lemma show_source_code_framed code h a t :
  let code_lines := Py.split Py.newline (Py.strip code) in
  let shown := map (Source.shown_text (Source.min_indent code_lines)) code_lines in
  let base := length h in
  ASTGeneration.show_source_code code (Scene h a t)
  = Returns tt
      (Scene (h ++ Source.source_objects base shown)
             (<["code_box" := Obj (base + (2 + length shown))%nat]>
                (<["code_group" := Obj (base + 1)%nat]>
                   (<["title" := Obj (base + 0)%nat]> a)))
             (t ++ [Play [Write (base + 0)%nat] None]
                ++ [Play [Create (base + (2 + length shown))%nat; Write (base + 1)%nat]
                         (Some 2%Q)])).
Proof.
  cbv zeta. replace (Scene h a t) with (Scene (h ++ []) a t) by (by rewrite app_nil_r).
  unfold ASTGeneration.show_source_code.
  step_with Text_framed. cbn [length app].
  unfold to_corner. unfold bind at 1; erewrite invoke_framed by reflexivity; cbv beta iota.
  cbn [shape_of submobjects calls app insert list_insert].
  step_with VGroup_framed; [|constructor]. cbn [length app].
  change (h ++ [?T; ?G]) with (h ++ Source.lines_added (length h) []).
  unfold bind at 1.
  rewrite (for_each_steps (fun done => Scene (h ++ Source.lines_added (length h) done) a t)
             (Source.shown_text (Source.min_indent (Py.split Py.newline (Py.strip code))))).
  2:{ intros done line. apply add_source_line_framed. }
  cbv beta iota. cbn [app].
  set (shown := map _ _).
  unfold arrange, scale, move_to.
  do 3 (unfold bind at 1; erewrite invoke_framed by reflexivity; cbv beta iota;
        cbn [Source.lines_added shape_of submobjects calls app insert list_insert]).
  step_with SurroundingRectangle_framed.
  step_with play_eq. step_with play_run_time_eq. do 2 step_with setattr_eq.
  rewrite setattr_eq. cbn [heap attrs timeline].
  unfold Source.source_objects.
  cbn [length app]. rewrite ?length_map. rewrite <- !app_assoc. cbn [app].
  reflexivity.
Qed.

Lemma indent_nonneg line : (0 <= Source.indent line)%Z.
Proof. unfold Source.indent, Py.len. pose proof (length_lstrip line). lia. Qed.

Lemma fold_min_nonneg xs x :
  (0 <= x)%Z -> Forall (fun y => 0 <= y)%Z xs -> (0 <= fold_left Z.min xs x)%Z.
Proof.
  revert x. induction xs as [|y xs IH]; intros x Hx Hxs; [done|].
  apply Forall_cons in Hxs as [Hy Hxs]. cbn [fold_left]. apply IH; [lia|done].
Qed.

Lemma min_indent_nonneg code_lines : (0 <= Source.min_indent code_lines)%Z.
Proof.
  unfold Source.min_indent, Py.min_default.
  destruct (map _ _) as [|x xs] eqn:E; [done|].
  assert (Forall (fun y => 0 <= y)%Z (x :: xs)) as [Hx Hxs]%Forall_cons.
  { rewrite <- E. apply Forall_fmap, Forall_forall. intros line _. apply indent_nonneg. }
  by apply fold_min_nonneg.
Qed.

(** A shown line keeps the content of its source line and is never longer. *)
Lemma shown_text_keeps min_indent line :
  (0 <= min_indent)%Z ->
  Py.lstrip (Source.shown_text min_indent line) = Py.lstrip line /\
  (Py.len (Source.shown_text min_indent line) <= Py.len line)%Z.
Proof.
  intros Hmin. unfold Source.shown_text.
  destruct (Py.strip line) as [|c r] eqn:E; cbn [ASTGeneration.truthy negb].
  - split; [by rewrite (strip_empty _ E)|]. unfold Py.len. cbn. lia.
  - unfold Py.repeat_str. split.
    + rewrite lstrip_app_space by apply all_space_repeat. apply lstrip_idem.
    + unfold Py.len. rewrite length_append, length_repeat_str.
      pose proof (length_lstrip line) as Hl.
      set (k := ((_ - _ - _) / 4)%Z).
      assert (4 * Z.to_nat k <= String.length line - String.length (Py.lstrip line))%nat; [|lia].
      destruct (Z.le_gt_cases k 0) as [Hk|Hk]; [lia|].
      unfold k, Py.len in *. clearbody k.
      apply Nat2Z.inj_le. rewrite Nat2Z.inj_mul, Z2Nat.id by lia.
      rewrite Nat2Z.inj_sub by lia.
      pose proof (Z.mul_div_le (Z.of_nat (String.length line) - Z.of_nat (String.length (Py.lstrip line)) - min_indent) 4).
      lia.
Qed.

(** X1: stage 1 for any ASCII source text, from any scene: it writes the title,
    then the frame and the lines in one batch of two seconds, and keeps
    the three objects in [self.title], [self.code_group] and
    [self.code_box]; every line shown is the line of the stripped text
    with only its leading blanks changed, and never longer than it. *)
Theorem show_source_code_shows code s :
  PyFacts.ascii_only code = true ->
  let code_lines := Py.split Py.newline (Py.strip code) in
  exists s' title code_group code_box shown,
    ASTGeneration.show_source_code code s = Returns tt s' /\
    heap s `prefix_of` heap s' /\
    attrs s' = <["code_box" := Obj code_box]>
                 (<["code_group" := Obj code_group]>
                    (<["title" := Obj title]> (attrs s))) /\
    timeline s' = timeline s ++ [ Play [Write title] None;
                                  Play [Create code_box; Write code_group] (Some 2%Q) ] /\
    heap s' !! code_box = Some (Mobject (RectShape code_group BLUE 0.3 0.2 2) [] []) /\
    Token.shown_source s' = Some shown /\
    Forall2 (fun shown_line line =>
               Py.lstrip shown_line = Py.lstrip line /\
               (Py.len shown_line <= Py.len line)%Z)
            shown code_lines.
Proof.
  intros _.
  destruct s as [h a t]. cbv zeta.
  set (code_lines := Py.split Py.newline (Py.strip code)).
  set (shown := map (Source.shown_text (Source.min_indent code_lines)) code_lines).
  exists (Scene (h ++ Source.source_objects (length h) shown)
            (<["code_box" := Obj (length h + (2 + length shown))%nat]>
               (<["code_group" := Obj (length h + 1)%nat]>
                  (<["title" := Obj (length h + 0)%nat]> a)))
            (t ++ [Play [Write (length h + 0)%nat] None]
               ++ [Play [Create (length h + (2 + length shown))%nat; Write (length h + 1)%nat]
                        (Some 2%Q)])).
  exists (length h + 0)%nat, (length h + 1)%nat, (length h + (2 + length shown))%nat, shown.
  split; [apply show_source_code_framed|].
  split; [by eexists|]. split; [done|]. split; [done|].
  split.
  { cbn [heap]. rewrite lookup_framed. unfold Source.source_objects.
    rewrite app_assoc. apply list_lookup_middle.
    rewrite length_app, length_map. done. }
  split.
  { unfold Token.shown_source. cbn [attrs].
    rewrite lookup_insert_ne by done. rewrite lookup_insert_eq.
    unfold lines_of, members_of. cbn [heap]. rewrite lookup_framed.
    change (Source.source_objects (length h) shown !! 1%nat)
      with (Some (Mobject VGroupShape
                    (map (fun i => length h + (2 + i))%nat (seq 0 (length shown)))
                    [Carrange DOWN LEFT 0.25; Cscale 0.8; Cmove_to (At (ORIGIN + DOWN * 0.3))])).
    cbn [mbind option_bind submobjects].
    apply mapM_Some, Forall2_same_length_lookup_2.
    - by rewrite length_map, length_seq.
    - intros i m text Hm Ht.
      apply list_lookup_fmap_Some in Hm as (j & -> & Hj).
      apply lookup_seq in Hj as [-> Hi]. rewrite Nat.add_0_l.
      rewrite text_of_object. cbn [heap]. rewrite lookup_framed.
      unfold Source.source_objects.
      rewrite lookup_app_r by (cbn [length]; lia).
      replace (2 + i - length [_; _])%nat with i by (cbn [length]; lia).
      rewrite lookup_app_l by (by rewrite length_map).
      by rewrite list_lookup_fmap, Ht. }
  apply Forall2_fmap_l, Forall_Forall2_diag, Forall_forall.
  intros line _. apply shown_text_keeps, min_indent_nonneg.
Qed.


(** *** The token stage *)

Lemma row_tokens_snoc g j i toks tk :
  Rows.row_tokens g j i (toks ++ [tk])
  = Rows.row_tokens g j i toks
    ++ Rows.token_objects (g + (1 + 3 * (i + length toks))) (Rows.col_x (i + length toks))
                          (Rows.row_y j) tk.
Proof.
  revert i. induction toks as [|tk' toks IH]; intros i; cbn [app Rows.row_tokens length].
  - rewrite app_nil_r, Nat.add_0_r. done.
  - rewrite IH, <- app_assoc. do 2 f_equal. f_equal; [f_equal; lia|f_equal; lia].
Qed.

Lemma length_row_tokens g j i toks :
  length (Rows.row_tokens g j i toks) = (3 * length toks)%nat.
Proof.
  revert i. induction toks as [|tk toks IH]; intros i; [done|].
  cbn [Rows.row_tokens length app Rows.token_objects]. rewrite IH. lia.
Qed.

Lemma length_row_objects g j toks :
  length (Rows.row_objects g j toks) = (1 + 3 * length toks)%nat.
Proof. unfold Rows.row_objects. cbn [length]. by rewrite length_row_tokens. Qed.

Lemma row_members_snoc g n :
  Rows.row_members g (S n) = Rows.row_members g n ++ [(g + (3 + 3 * n))%nat].
Proof. unfold Rows.row_members. by rewrite seq_S, map_app. Qed.

Lemma row_members_fresh g n : (g + (3 + 3 * n))%nat ∉ Rows.row_members g n.
Proof.
  unfold Rows.row_members. rewrite list_elem_of_fmap.
  intros (i & E & Hi). apply elem_of_seq in Hi. lia.
Qed.

(** Replaces the whole expression [x_pos' > 6]: it is false on a line of
    at most five tokens. *)
Lemma col_x_in_frame n : (n < 6)%nat -> Qle_bool (fadd (Rows.col_x n) 2.0) 6 = true.
Proof.
  intros Hn. do 6 (destruct n as [|n]; [vm_compute; reflexivity|]). lia.
Qed.

(** [add] of one fresh member. *)
Lemma list_update_fresh (ms : list ref) (m : ref) :
  m ∉ ms -> list_update ms (remove_list_redundancies [m]) = ms ++ [m].
Proof.
  intros Hm. unfold remove_list_redundancies, list_update. cbn [rev app fold_left].
  rewrite bool_decide_eq_false_2 by apply not_elem_of_nil.
  by rewrite filter_fresh.
Qed.

Lemma wrap_test n :
  (n < 6)%nat ->
  (ASTGeneration.tokens_per_line <=? Z.of_nat n + 1)%Z
  || negb (Qle_bool (fadd (Rows.col_x n) 2.0) 6)
  = (n + 1 =? 6)%nat.
Proof.
  intros Hn. rewrite col_x_in_frame by done. cbn [negb]. rewrite orb_false_r.
  unfold ASTGeneration.tokens_per_line.
  destruct (Nat.eqb_spec (n + 1) 6); [apply Z.leb_le|apply Z.leb_gt]; lia.
Qed.

(** One turn of the token loop on a line that is not full. *)
Lemma place_token_framed H a t groups j cur tk :
  (length cur < 6)%nat ->
  ASTGeneration.place_token tk (Rows.loop_state groups (length H + 0) j (length cur))
    (Scene (H ++ Rows.row_objects (length H) j cur) a t)
  = if (length cur + 1 =? 6)%nat then
      Returns (Rows.loop_state (groups ++ [(length H + 0)%nat])
                               (length H + 19) (S j) 0)
              (Scene (H ++ (Rows.row_objects (length H) j (cur ++ [tk])
                            ++ [Mobject VGroupShape [] []])) a t)
    else
      Returns (Rows.loop_state groups (length H + 0) j (S (length cur)))
              (Scene (H ++ Rows.row_objects (length H) j (cur ++ [tk])) a t).
Proof.
  intros Hn. destruct tk as [token token_type].
  assert (Hrow : Rows.row_objects (length H) j (cur ++ [(token, token_type)])
    = Mobject VGroupShape
        (Rows.row_members (length H) (length cur) ++ [(length H + (3 + 3 * length cur))%nat]) []
      :: Rows.row_tokens (length H) j 0 cur
      ++ Rows.token_objects (length H + (1 + 3 * length cur)) (Rows.col_x (length cur))
                            (Rows.row_y j) (token, token_type)).
  { unfold Rows.row_objects. rewrite length_app, Nat.add_1_r, row_members_snoc.
    by rewrite row_tokens_snoc. }
  rewrite !Hrow. clear Hrow.
  unfold ASTGeneration.place_token, Rows.loop_state.
  cbn [ASTGeneration.x_pos ASTGeneration.y_pos ASTGeneration.tokens_in_line
       ASTGeneration.current_line ASTGeneration.token_groups].
  rewrite wrap_test by done.
  step_with Text_framed.
  unfold move_to. unfold bind at 1; rewrite invoke_last_framed; cbv beta iota.
  step_with Text_framed.
  unfold next_to. unfold bind at 1; rewrite invoke_last_framed; cbv beta iota.
  step_with VGroup_framed.
  2:{ repeat (apply NoDup_cons; split;
              [rewrite ?elem_of_cons, ?elem_of_nil; rewrite ?length_app; cbn [length]; lia|]).
      constructor. }
  cbn [shape_of submobjects calls app].
  rewrite !length_app, length_row_objects. cbn [length].
  replace (length H + (1 + 3 * length cur + 1 + 1))%nat
    with (length H + (3 + 3 * length cur))%nat by lia.
  replace (length H + (1 + 3 * length cur + 1))%nat
    with (length H + (1 + 3 * length cur) + 1)%nat by lia.
  replace (length H + (1 + 3 * length cur))%nat
    with (length H + (1 + 3 * length cur))%nat by lia.
  unfold Rows.row_objects. cbn [app].
  unfold add. unfold bind at 1 2. rewrite deref_framed. cbn [lookup list_lookup].
  rewrite store_framed. cbn [shape_of submobjects calls insert list_insert].
  rewrite list_update_fresh by apply row_members_fresh.
  rewrite <- !app_assoc. cbn [app].
  destruct (length cur + 1 =? 6)%nat eqn:E.
  - step_with VGroup_framed; [|constructor]. unfold ret.
    unfold Rows.token_objects. cbn [fst snd app length].
    rewrite <- !app_assoc. cbn [app].
    f_equal.
    unfold Rows.loop_state. f_equal.
    rewrite length_app, length_row_tokens. cbn [length].
    apply Nat.eqb_eq in E. lia.
  - unfold ret. unfold Rows.token_objects. cbn [fst snd app].
    f_equal. unfold Rows.loop_state. f_equal. lia.
Qed.

Lemma sub_at_app store_ more g objs :
  Rows.sub_at store_ g objs -> Rows.sub_at (store_ ++ more) g objs.
Proof. intros Hs k o Hk. by apply lookup_app_l_Some, Hs. Qed.

Lemma sub_at_here store_ objs more :
  Rows.sub_at (store_ ++ objs ++ more) (length store_) objs.
Proof.
  intros k o Hk. rewrite lookup_app_r by lia.
  replace (length store_ + k - length store_)%nat with k by lia.
  by apply lookup_app_l_Some.
Qed.

Lemma rows_in_app store_ more j rows :
  Rows.rows_in store_ j rows -> Rows.rows_in (store_ ++ more) j rows.
Proof.
  revert j. induction rows as [|[g toks] rows IH]; intros j; [done|].
  cbn [Rows.rows_in]. intros (Hl & Hs & Hr).
  split; [done|]. split; [by apply sub_at_app|by apply IH].
Qed.

(** The token loop, from a line that is not full: it fills lines of six,
    keeps every token in order, and never fails. *)
Lemma token_loop_framed a t toks : forall H j cur groups,
  (length cur < 6)%nat ->
  exists K rows cur',
    for_fold toks (Rows.loop_state groups (length H + 0) j (length cur))
             ASTGeneration.place_token
             (Scene (H ++ Rows.row_objects (length H) j cur) a t)
    = Returns (Rows.loop_state (groups ++ map fst rows) (length (H ++ K) + 0)
                               (j + length rows) (length cur'))
              (Scene ((H ++ K) ++ Rows.row_objects (length (H ++ K)) (j + length rows) cur')
                     a t) /\
    (length cur' < 6)%nat /\
    concat (map snd rows) ++ cur' = cur ++ toks /\
    Rows.rows_in (H ++ K) j rows /\
    (rows = [] -> K = []).
Proof.
  induction toks as [|tk toks IH]; intros H j cur groups Hn.
  - exists [], [], cur. cbn [for_fold map length concat app].
    rewrite !app_nil_r, !Nat.add_0_r. done.
  - cbn [for_fold]. unfold bind at 1. rewrite place_token_framed by done.
    destruct (length cur + 1 =? 6)%nat eqn:E.
    + apply Nat.eqb_eq in E.
      set (row := Rows.row_objects (length H) j (cur ++ [tk])).
      assert (Hlen : length row = 19%nat).
      { unfold row. rewrite length_row_objects, length_app. cbn [length]. lia. }
      destruct (IH (H ++ row) (S j) [] (groups ++ [(length H + 0)%nat]))
        as (K & rows & cur' & Hrun & Hcur' & Hcat & Hrows & Hnil); [cbn; lia|].
      exists (row ++ K), (((length H + 0)%nat, cur ++ [tk]) :: rows), cur'.
      split.
      { rewrite length_app, Hlen in Hrun.
        replace (length H + 19 + 0)%nat with (length H + 19)%nat in Hrun by lia.
        rewrite (app_assoc H row [_]).
        change [Mobject VGroupShape [] []] with (Rows.row_objects (length H + 19) (S j) []).
        cbn [length] in Hrun. rewrite Hrun.
        cbn [map fst length]. rewrite <- !app_assoc. cbn [app].
        by replace (j + S (length rows))%nat with (S j + length rows)%nat by lia. }
      split; [done|]. split.
      { cbn [map snd concat]. rewrite <- !app_assoc. cbn [app]. by rewrite Hcat. }
      split; [|done].
      cbn [Rows.rows_in]. rewrite app_assoc.
      split; [rewrite length_app; cbn [length]; lia|]. split; [|done].
      apply sub_at_app. rewrite Nat.add_0_r.
      rewrite <- (app_nil_r row). apply sub_at_here.
    + apply Nat.eqb_neq in E.
      destruct (IH H j (cur ++ [tk]) groups)
        as (K & rows & cur' & Hrun & Hcur' & Hcat & Hrows & Hnil).
      { rewrite length_app. cbn [length]. lia. }
      exists K, rows, cur'. split.
      { rewrite length_app in Hrun. cbn [length] in Hrun.
        rewrite Nat.add_1_r in Hrun. exact Hrun. }
      split; [done|]. split; [by rewrite Hcat, <- app_assoc|]. done.
Qed.

Lemma row_tokens_lookup g j toks : forall i0 i tk d,
  toks !! i = Some tk -> (d < 3)%nat ->
  Rows.row_tokens g j i0 toks !! (3 * i + d)%nat
  = Rows.token_objects (g + (1 + 3 * (i0 + i))) (Rows.col_x (i0 + i)) (Rows.row_y j) tk !! d.
Proof.
  induction toks as [|tk' toks IH]; intros i0 i tk d Hi Hd; [done|].
  cbn [Rows.row_tokens]. destruct i as [|i].
  - injection Hi as ->. rewrite Nat.add_0_r.
    rewrite lookup_app_l by (cbn [length Rows.token_objects]; lia). done.
  - cbn [lookup list_lookup] in Hi.
    rewrite lookup_app_r by (cbn [length Rows.token_objects]; lia).
    replace (3 * S i + d - length (Rows.token_objects (g + (1 + 3 * i0)) (Rows.col_x i0)
                                     (Rows.row_y j) tk'))%nat
      with (3 * i + d)%nat by (cbn [length Rows.token_objects]; lia).
    rewrite (IH (S i0) i tk d Hi Hd).
    by replace (S i0 + i)%nat with (i0 + S i)%nat by lia.
Qed.

(** Reading a line back from the store. *)
Lemma row_reads s g j toks :
  Rows.sub_at (heap s) g (Rows.row_objects g j toks) ->
  members_of s g = Some (Rows.row_members g (length toks)) /\
  mapM (Token.token_of s) (Rows.row_members g (length toks)) = Some toks /\
  Forall2 (fun i m => TokenView.place_of s m = Some (At (Rows.col_x i, Rows.row_y j, 0%Q)))
          (seq 0 (length toks)) (Rows.row_members g (length toks)).
Proof.
  intros Hsub.
  assert (Hg : heap s !! g
               = Some (Mobject VGroupShape (Rows.row_members g (length toks)) [])).
  { rewrite <- (Nat.add_0_r g) at 1. by apply Hsub. }
  assert (Htok : forall i tk d o, toks !! i = Some tk ->
            Rows.token_objects (g + (1 + 3 * i)) (Rows.col_x i) (Rows.row_y j) tk !! d = Some o ->
            heap s !! (g + (1 + 3 * i) + d)%nat = Some o).
  { intros i tk d o Hi Hd.
    assert (d < 3)%nat by (apply lookup_lt_Some in Hd; cbn [length Rows.token_objects] in Hd; lia).
    replace (g + (1 + 3 * i) + d)%nat with (g + S (3 * i + d))%nat by lia.
    apply Hsub. unfold Rows.row_objects.
    change (Rows.row_tokens g j 0 toks !! (3 * i + d)%nat = Some o).
    by rewrite (row_tokens_lookup g j toks 0 i tk d Hi). }
  assert (Hm : forall i tk, toks !! i = Some tk ->
            members_of s (g + (3 + 3 * i))%nat
            = Some [(g + (1 + 3 * i))%nat; (g + (1 + 3 * i) + 1)%nat]).
  { intros i tk Hi. unfold members_of.
    replace (g + (3 + 3 * i))%nat with (g + (1 + 3 * i) + 2)%nat by lia.
    unfold ref. by rewrite (Htok i tk 2%nat _ Hi eq_refl). }
  split; [unfold members_of, ref; by rewrite Hg|]. split.
  - apply mapM_Some, Forall2_same_length_lookup_2.
    + unfold Rows.row_members. by rewrite length_map, length_seq.
    + intros i m tk Hmi Hi. unfold Rows.row_members in Hmi.
      apply list_lookup_fmap_Some in Hmi as (i' & -> & Hi').
      apply lookup_seq in Hi' as [-> _]. rewrite Nat.add_0_l.
      unfold Token.token_of. rewrite (Hm i tk Hi).
      unfold text_of, ref.
      rewrite <- (Nat.add_0_r (g + (1 + 3 * i))) at 1.
      rewrite (Htok i tk 0%nat _ Hi eq_refl), (Htok i tk 1%nat _ Hi eq_refl).
      by destruct tk.
  - apply Forall2_same_length_lookup_2.
    + unfold Rows.row_members. by rewrite length_map, !length_seq.
    + intros k i m Hk Hmi. unfold Rows.row_members in Hmi.
      apply list_lookup_fmap_Some in Hmi as (i' & -> & Hi').
      apply lookup_seq in Hi' as [-> Hlt]. apply lookup_seq in Hk as [-> _].
      rewrite !Nat.add_0_l.
      destruct (lookup_lt_is_Some_2 toks k Hlt) as [tk Hi].
      unfold TokenView.place_of. rewrite (Hm k tk Hi). unfold calls_of, ref.
      rewrite <- (Nat.add_0_r (g + (1 + 3 * k))) at 1.
      by rewrite (Htok k tk 0%nat _ Hi eq_refl).
Qed.


Lemma rows_in_at store_ j rows :
  Rows.rows_in store_ j rows ->
  Rows.rows_at store_ j rows /\ Forall (fun gr => length gr.2 = 6%nat) rows.
Proof.
  revert j. induction rows as [|[g toks] rows IH]; intros j; [done|].
  cbn [Rows.rows_in Rows.rows_at]. intros (Hl & Hs & Hr).
  destruct (IH _ Hr) as [Ha Hf]. split; [done|]. by constructor.
Qed.

Lemma rows_at_app store_ j rows more :
  Rows.rows_at store_ j rows ->
  Rows.rows_at store_ (j + length rows) more ->
  Rows.rows_at store_ j (rows ++ more).
Proof.
  revert j. induction rows as [|[g toks] rows IH]; intros j.
  - cbn. by rewrite Nat.add_0_r.
  - cbn [Rows.rows_at app length]. intros [Hs Hr] Hm. split; [done|].
    apply IH; [done|]. by replace (S j + length rows)%nat with (j + S (length rows))%nat by lia.
Qed.

Lemma rows_at_more store_ more j rows :
  Rows.rows_at store_ j rows -> Rows.rows_at (store_ ++ more) j rows.
Proof.
  revert j. induction rows as [|[g toks] rows IH]; intros j; [done|].
  cbn [Rows.rows_at]. intros [Hs Hr]. split; [by apply sub_at_app|by apply IH].
Qed.

(** Reading all lines back. *)
Lemma rows_at_read s rows : forall j,
  Rows.rows_at (heap s) j rows ->
  let written := map (fun gr => Rows.row_members gr.1 (length gr.2)) rows in
  Forall2 (fun g ms => members_of s g = Some ms) (map fst rows) written /\
  mapM (Token.token_of s) (concat written) = Some (concat (map snd rows)) /\
  map length written = map (fun gr => length gr.2) rows /\
  Forall2 (Rows.row_placed s) (seq j (length rows)) written.
Proof.
  induction rows as [|[g toks] rows IH]; intros j Hat; cbv zeta.
  - cbn. repeat split; constructor.
  - destruct Hat as [Hs Hr]. destruct (IH _ Hr) as (Hm & Ht & Hl & Hp).
    destruct (row_reads s g j toks Hs) as (Hm0 & Ht0 & Hp0).
    cbn [map fst snd concat length seq]. split; [by constructor|]. split.
    + apply mapM_Some, Forall2_app; by apply mapM_Some.
    + split.
      * f_equal; [|done]. unfold Rows.row_members. by rewrite length_map, length_seq.
      * constructor; [|done]. unfold Rows.row_placed.
        replace (length (Rows.row_members g (length toks))) with (length toks); [done|].
        unfold Rows.row_members. by rewrite length_map, length_seq.
Qed.

Lemma token_loop_clean a t toks H j cur groups :
  (length cur < 6)%nat ->
  exists K rows cur',
    for_fold toks (Rows.loop_state groups (length H) j (length cur))
             ASTGeneration.place_token
             (Scene (H ++ Rows.row_objects (length H) j cur) a t)
    = Returns (Rows.loop_state (groups ++ map fst rows) (length (H ++ K))
                               (j + length rows) (length cur'))
              (Scene ((H ++ K) ++ Rows.row_objects (length (H ++ K)) (j + length rows) cur') a t)
    /\ (length cur' < 6)%nat
    /\ concat (map snd rows) ++ cur' = cur ++ toks
    /\ Rows.rows_in (H ++ K) j rows.
Proof.
  intros Hc. destruct (token_loop_framed a t toks H j cur groups Hc)
    as (K & rows & cur' & Hrun & Hl & Hcat & Hin & _).
  exists K, rows, cur'. rewrite !Nat.add_0_r in Hrun. done.
Qed.

Lemma show_tokens_framed toks h a t title code_box code_group :
  a !! "title" = Some (Obj title) ->
  a !! "code_box" = Some (Obj code_box) ->
  a !! "code_group" = Some (Obj code_group) ->
  exists K rows last,
    ASTGeneration.show_tokens toks (Scene h a t)
    = Returns tt
        (Scene (h ++ K)
           (<["token_groups" := PyList (map fst (rows ++ last))]> a)
           (t ++ [Play [Transform title (length h)] None;
                  Play [FadeOut [code_box]; FadeOut [code_group]] None]
              ++ map (fun gr => Play (map Write (Rows.row_members gr.1 (length gr.2)))
                                     (Some 0.3%Q)) (rows ++ last)))
    /\ Rows.rows_at (h ++ K) 0 (rows ++ last)
    /\ concat (map snd (rows ++ last)) = toks
    /\ Forall (fun gr => length gr.2 = 6%nat) rows
    /\ (last = [] \/ exists g cur, last = [(g, cur)] /\ (0 < length cur < 6)%nat)
    /\ text_of (Scene (h ++ K) a t) (length h) = Some "步骤 2: 词法分析 (Tokenization)".
Proof.
  intros Ht Hb Hg. unfold ASTGeneration.show_tokens.
  unfold bind at 1. rewrite Text_eq. cbv beta iota.
  unfold bind at 1. unfold to_corner. rewrite invoke_new. cbv beta iota.
  cbn [shape_of submobjects calls app].
  unfold bind at 1. rewrite (self_obj_eq _ _ _ _ _ Ht). cbv beta iota.
  unfold bind at 1. rewrite play_eq. cbv beta iota. cbn [heap attrs timeline].
  unfold bind at 1. rewrite (self_obj_eq _ _ _ _ _ Hb). cbv beta iota.
  unfold bind at 1. rewrite (self_obj_eq _ _ _ _ _ Hg). cbv beta iota.
  unfold bind at 1. rewrite play_eq. cbv beta iota. cbn [heap attrs timeline].
  unfold bind at 1. rewrite VGroup_any. cbv beta iota.
  change (remove_list_redundancies []) with (@nil ref).
  set (H0 := h ++ [_]).
  set (t0 := (t ++ _) ++ _).
  destruct (token_loop_clean a t0 toks H0 0 [] []) as (K & rows & cur' & Hrun & Hl & Hcat & Hin);
    [cbn; lia|].
  change (ASTGeneration.TokenLoop [] (length H0) ASTGeneration.x_start 2.5 0)
    with (Rows.loop_state [] (length H0) 0 (@length (string * string) [])).
  change [Mobject VGroupShape [] []] with (Rows.row_objects (length H0) 0 []).
  unfold bind at 1. rewrite Hrun. cbv beta iota. clear Hrun.
  cbn [app Nat.add] in *.
  set (Hf := H0 ++ K) in *.
  set (S1 := Scene (Hf ++ Rows.row_objects (length Hf) (length rows) cur') a t0).
  destruct (rows_in_at _ _ _ Hin) as [Hat H6].
  assert (Hcur : Rows.sub_at (heap S1) (length Hf) (Rows.row_objects (length Hf) (length rows) cur')).
  { unfold S1. cbn [heap].
    pose proof (sub_at_here Hf (Rows.row_objects (length Hf) (length rows) cur') []) as Hh.
    by rewrite app_nil_r in Hh. }
  destruct (row_reads S1 _ _ _ Hcur) as (Hm & _ & _).
  unfold Rows.loop_state.
  cbn [ASTGeneration.current_line ASTGeneration.token_groups].
  unfold bind at 1. rewrite (members_eq S1 _ _ Hm). cbv beta iota.
  assert (Hlen : length (Rows.row_members (length Hf) (length cur')) = length cur').
  { unfold Rows.row_members. by rewrite length_map, length_seq. }
  rewrite Hlen.
  set (last := if (0 <? Z.of_nat (length cur'))%Z
               then [(length Hf, cur')] else []).
  match goal with
  | |- context [if (0 <? Z.of_nat (length cur'))%Z then ?x else ?y] =>
      replace (if (0 <? Z.of_nat (length cur'))%Z then x else y)
        with (map fst (rows ++ last))
  end.
  2:{ unfold last. rewrite map_app. destruct (0 <? _)%Z; [done|]. cbn. by rewrite app_nil_r. }
  assert (Hall : Rows.rows_at (heap S1) 0 (rows ++ last)).
  { apply rows_at_app.
    - unfold S1. cbn [heap]. by apply rows_at_more.
    - unfold last. destruct (0 <? _)%Z; [|done]. cbn [Rows.rows_at Nat.add]. done. }
  destruct (rows_at_read S1 _ _ Hall) as (Hms & _ & _ & _).
  unfold bind at 1. rewrite (gather_members S1 _ _ Hms). cbv beta iota.
  cbn [app]. unfold S1 at 1.
  unfold bind at 1. rewrite VGroup_any. cbv beta iota.
  unfold bind at 1. unfold scale. rewrite invoke_new. cbv beta iota.
  unfold bind at 1. unfold move_to. rewrite invoke_new. cbv beta iota.
  cbn [shape_of submobjects calls app].
  set (A := Mobject VGroupShape _ _).
  unfold bind at 1. rewrite (play_rows _ _ (map fst (rows ++ last))
     (map (fun gr => Rows.row_members gr.1 (length gr.2)) (rows ++ last))).
  2:{ eapply Forall2_impl; [exact Hms|]. intros g ms Hgm.
      unfold S1 in Hgm. by apply (members_of_app _ [A] _ _ _ _ _ _ Hgm). }
  cbv beta iota. rewrite setattr_eq. cbn [heap attrs timeline].
  exists (([Mobject (TextShape "步骤 2: 词法分析 (Tokenization)" 36 "" GREEN NORMAL) []
               [Cto_corner UL 0.5]] ++ K)
            ++ Rows.row_objects (length Hf) (length rows) cur' ++ [A]), rows, last.
  split.
  { f_equal. f_equal.
    - unfold Hf, H0. by rewrite <- !app_assoc.
    - unfold t0. rewrite map_map. by rewrite <- !app_assoc. }
  split.
  { replace (h ++ _) with ((Hf ++ Rows.row_objects (length Hf) (length rows) cur') ++ [A]).
    - by apply rows_at_more.
    - unfold Hf, H0. by rewrite <- !app_assoc. }
  split.
  { rewrite map_app, concat_app. unfold last. cbn [app] in Hcat. rewrite <- Hcat.
    f_equal. destruct cur' as [|tk cur']; [done|].
    replace (0 <? Z.of_nat (length (tk :: cur')))%Z with true
      by (symmetry; apply Z.ltb_lt; cbn [length]; lia).
    cbn. by rewrite app_nil_r. }
  split; [done|]. split.
  { unfold last. destruct cur' as [|tk cur']; [by left|]. right.
    replace (0 <? Z.of_nat (length (tk :: cur')))%Z with true
      by (symmetry; apply Z.ltb_lt; cbn [length]; lia).
    exists (length Hf), (tk :: cur'). split; [done|]. cbn [length] in *. lia. }
  unfold text_of. cbn [heap]. rewrite <- !app_assoc. cbn [app].
  by rewrite list_lookup_middle.
Qed.

Lemma col_x_closed i : Rows.col_x i == inject_Z (2 * Z.of_nat i) - 6.
Proof.
  induction i as [|i IH].
  - reflexivity.
  - unfold Rows.col_x in *. cbn [Nat.iter]. unfold fadd at 1.
    etransitivity; [apply Qred_correct|]. rewrite IH, Nat2Z.inj_succ.
    unfold Qeq, Qminus, Qplus, Qopp, inject_Z. cbn [Qnum Qden]. lia.
Qed.

Lemma row_placed_in_columns s j ms :
  Rows.row_placed s j ms -> Grid.in_columns s (Rows.row_y j) ms.
Proof.
  unfold Rows.row_placed, Grid.in_columns. intros Hp.
  eapply Forall2_impl; [exact Hp|]. cbv beta. intros i m E.
  exists (Rows.col_x i). split; [done|]. apply col_x_closed.
Qed.

Lemma batches_app tl tl' : batches (tl ++ tl') = batches tl ++ batches tl'.
Proof. unfold batches. apply omap_app. Qed.

Lemma batches_plays {X} (f : X -> list animation) rt (xs : list X) :
  batches (map (fun x => Play (f x) rt) xs) = map f xs.
Proof. induction xs as [|x xs IH]; [done|]. cbn. by f_equal. Qed.

Lemma introduced_writes mss :
  flat_map (flat_map introduced) (map (map Write) mss) = concat mss.
Proof.
  induction mss as [|ms mss IH]; [done|]. cbn [map flat_map concat]. f_equal; [|done].
  induction ms as [|m ms IHm]; [done|]. cbn. by f_equal.
Qed.

Lemma line_sizes_of (rows last : list (ref * list (string * string))) :
  Forall (fun gr => length gr.2 = 6%nat) rows ->
  (last = [] \/ exists g cur, last = [(g, cur)] /\ (0 < length cur < 6)%nat) ->
  map (fun gr => length gr.2) (rows ++ last)
  = Grid.line_sizes (length (concat (map snd (rows ++ last)))).
Proof.
  intros H6 Hlast.
  assert (Hrows : map (fun gr : ref * list (string * string) => length gr.2) rows
                  = replicate (length rows) 6%nat
                  /\ length (concat (map snd rows)) = (6 * length rows)%nat).
  { induction H6 as [|[g r] rows Hr _ [IH1 IH2]]; [done|].
    cbn [map concat length replicate snd] in *. rewrite length_app, IH1, IH2, Hr.
    split; [done|lia]. }
  destruct Hrows as [E1 E2].
  rewrite !map_app, concat_app, length_app, E1, E2. unfold Grid.line_sizes.
  destruct Hlast as [->|(g & cur & -> & Hc)]; cbn [map concat length snd app].
  - rewrite Nat.add_0_r, Nat.mul_comm, Nat.div_mul, Nat.Div0.mod_mul by lia.
    cbn. done.
  - rewrite app_nil_r.
    assert (Hd : ((6 * length rows + length cur) / 6 = length rows)%nat).
    { symmetry. apply (Nat.div_unique _ 6 _ (length cur)); lia. }
    assert (Hm : ((6 * length rows + length cur) mod 6 = length cur)%nat).
    { symmetry. apply (Nat.mod_unique _ 6 (length rows)); lia. }
    rewrite Hd, Hm. destruct (Nat.eqb_spec (length cur) 0); [lia|done].
Qed.

(** X2: stage 2 for any token list, from any scene that stage 1 has
    prepared: after the title change and the fading of the source it
    writes the tokens in reading order, six to a batch and the rest in a
    last batch, none of them empty; the tokens of a line share one
    height, token [i] of the line sits at [x = 2 i - 6], and the first
    line at height 2.5; the line groups are kept in
    [self.token_groups]. *)
Theorem show_tokens_displays toks s title code_box code_group :
  attrs s !! "title" = Some (Obj title) ->
  attrs s !! "code_box" = Some (Obj code_box) ->
  attrs s !! "code_group" = Some (Obj code_group) ->
  exists s' new_title groups written,
    ASTGeneration.show_tokens toks s = Returns tt s' /\
    (exists more, heap s' = heap s ++ more) /\
    attrs s' = <["token_groups" := PyList groups]> (attrs s) /\
    text_of s' new_title = Some "步骤 2: 词法分析 (Tokenization)" /\
    batches (appended s s')
      = [Transform title new_title]
        :: [FadeOut [code_box]; FadeOut [code_group]]
        :: map (map Write) written /\
    Forall2 (fun g ms => members_of s' g = Some ms) groups written /\
    Token.displayed s' (appended s s') = Some toks /\
    map length written = Grid.line_sizes (length toks) /\
    exists heights : list Q,
      Forall2 (Grid.in_columns s') heights written /\
      (forall y, heights !! 0%nat = Some y -> y = 2.5%Q).
Proof.
  destruct s as [h a t]. cbn [attrs heap timeline]. intros Ht Hb Hg.
  destruct (show_tokens_framed toks h a t _ _ _ Ht Hb Hg)
    as (K & rows & last & Hrun & Hat & Hcat & H6 & Hlast & Htitle).
  eexists _, (length h), (map fst (rows ++ last)),
    (map (fun gr => Rows.row_members gr.1 (length gr.2)) (rows ++ last)).
  split; [exact Hrun|]. cbn [heap attrs timeline].
  set (s' := Scene (h ++ K) _ _).
  destruct (rows_at_read s' _ 0 Hat) as (Hms & Htoks & Hlen & Hpl).
  assert (Hb' : batches (appended (Scene h a t) s')
                = [Transform title (length h)]
                  :: [FadeOut [code_box]; FadeOut [code_group]]
                  :: map (map Write)
                       (map (fun gr => Rows.row_members gr.1 (length gr.2)) (rows ++ last))).
  { unfold appended, s'. cbn [timeline]. rewrite drop_app_length.
    change (?x :: ?y :: ?l) with ([x; y] ++ l). rewrite batches_app.
    rewrite batches_plays. by rewrite map_map. }
  split; [by exists K|]. split; [done|]. split; [exact Htitle|].
  split; [exact Hb'|]. split; [exact Hms|]. split.
  { unfold Token.displayed. rewrite Hb'. cbn [flat_map introduced app].
    rewrite introduced_writes. by rewrite Htoks, Hcat. }
  split.
  { rewrite Hlen. rewrite <- Hcat. by apply line_sizes_of. }
  exists (map Rows.row_y (seq 0 (length (rows ++ last)))). split.
  - apply Forall2_fmap_l. eapply Forall2_impl; [exact Hpl|].
    intros j ms. apply row_placed_in_columns.
  - intros y. destruct (length (rows ++ last)); cbn; [done|]. by intros [= <-].
Qed.


(** *** Stages on a framed store *)

(** References at different offsets of one store are different. *)
Ltac distinct_refs :=
  repeat (apply NoDup_cons; split;
          [let Hin := fresh in
           intros Hin; rewrite ?elem_of_cons, ?elem_of_nil in Hin; lia|]);
  apply NoDup_nil_2.

Lemma self_list_eq name ms H a t :
  a !! name = Some (PyList ms) ->
  self_list name (Scene H a t) = Returns ms (Scene H a t).
Proof. intros E. unfold self_list, getattr, bind. cbn [attrs]. by rewrite E. Qed.

Lemma text_of_prefix s s' m x :
  heap s `prefix_of` heap s' -> text_of s m = Some x -> text_of s' m = Some x.
Proof.
  unfold text_of. intros [more ->]. destruct (heap s !! m) as [o|] eqn:E; [|done].
  by rewrite (lookup_app_l_Some _ _ _ _ E).
Qed.

Lemma members_of_prefix s s' g ms :
  heap s `prefix_of` heap s' -> members_of s g = Some ms -> members_of s' g = Some ms.
Proof.
  unfold members_of. intros [more ->]. destruct (heap s !! g) as [o|] eqn:E; [|done].
  by rewrite (lookup_app_l_Some _ _ _ _ E).
Qed.

Lemma token_of_prefix s s' g tk :
  heap s `prefix_of` heap s' -> Token.token_of s g = Some tk -> Token.token_of s' g = Some tk.
Proof.
  intros Hp. unfold Token.token_of.
  destruct (members_of s g) as [ms|] eqn:Em; [|done].
  rewrite (members_of_prefix _ _ _ _ Hp Em).
  destruct ms as [|x [|y [|]]]; try done.
  destruct (text_of s x) as [tx|] eqn:Ex; [|done].
  destruct (text_of s y) as [ty|] eqn:Ey; [|done].
  by rewrite (text_of_prefix _ _ _ _ Hp Ex), (text_of_prefix _ _ _ _ Hp Ey).
Qed.

Section FramedStage.
Context (h : list mobject).

Lemma Arrow_framed start finish col buff stroke_width tip_length l a t :
  Arrow start finish col buff stroke_width tip_length (Scene (h ++ l) a t)
  = Returns (length h + length l)%nat
      (Scene (h ++ (l ++ [Mobject (ArrowShape start finish col buff stroke_width tip_length) [] []])) a t).
Proof. apply alloc_framed. Qed.

(** Reading a group that was there before the stage began. *)
Lemma members_old a0 t0 g xs l a t :
  members_of (Scene h a0 t0) g = Some xs ->
  members g (Scene (h ++ l) a t) = Returns xs (Scene (h ++ l) a t).
Proof.
  intros Hm. apply members_eq. by apply (members_of_app _ _ _ _ _ _ _ _ Hm).
Qed.

Lemma list_item_Some xs (i : Z) m s :
  (0 <= i)%Z -> xs !! Z.to_nat i = Some m -> list_item xs i s = Returns m s.
Proof.
  intros Hi Hx. unfold list_item. pose proof (lookup_lt_Some _ _ _ Hx) as Hlt.
  destruct (Z.ltb_spec i 0) as [|_]; [lia|].
  destruct (Z.ltb_spec i 0) as [|_]; [lia|]. cbn [orb].
  destruct (Z.leb_spec (Z.of_nat (length xs)) i) as [|_]; [lia|].
  by rewrite Hx.
Qed.

Lemma list_item_None xs (i : Z) s :
  (0 <= i)%Z -> xs !! Z.to_nat i = None -> list_item xs i s = Raises IndexError.
Proof.
  intros Hi Hx. unfold list_item. apply lookup_ge_None in Hx.
  destruct (Z.ltb_spec i 0) as [|_]; [lia|].
  destruct (Z.ltb_spec i 0) as [|_]; [lia|]. cbn [orb].
  destruct (Z.leb_spec (Z.of_nat (length xs)) i) as [|]; [done|lia].
Qed.

Lemma item_old a0 t0 g xs (i : Z) m l a t :
  members_of (Scene h a0 t0) g = Some xs ->
  (0 <= i)%Z -> xs !! Z.to_nat i = Some m ->
  item g i (Scene (h ++ l) a t) = Returns m (Scene (h ++ l) a t).
Proof.
  intros Hm Hi Hx. unfold item, bind. rewrite (members_old _ _ _ _ _ _ _ Hm).
  by apply list_item_Some.
Qed.

Lemma item_old_short a0 t0 g xs (i : Z) l a t :
  members_of (Scene h a0 t0) g = Some xs ->
  (0 <= i)%Z -> xs !! Z.to_nat i = None ->
  item g i (Scene (h ++ l) a t) = Raises IndexError.
Proof.
  intros Hm Hi Hx. unfold item, bind. rewrite (members_old _ _ _ _ _ _ _ Hm).
  by apply list_item_None.
Qed.

Lemma add_fresh_framed k o m l a t :
  l !! k = Some o -> m ∉ submobjects o ->
  add (length h + k)%nat [m] (Scene (h ++ l) a t)
  = Returns tt (Scene (h ++ <[k := Mobject (shape_of o) (submobjects o ++ [m]) (calls o)]> l) a t).
Proof.
  intros E Hm. unfold add, bind. rewrite deref_framed, E, store_framed.
  unfold list_update. rewrite remove_list_redundancies_NoDup by distinct_refs.
  by rewrite filter_fresh.
Qed.

(** A group of any members: one named twice is kept once. *)
Lemma VGroup_framed_any ms l a t :
  VGroup ms (Scene (h ++ l) a t)
  = Returns (length h + length l)%nat
      (Scene (h ++ (l ++ [Mobject VGroupShape (remove_list_redundancies ms) []])) a t).
Proof. rewrite VGroup_any. by rewrite length_app, <- app_assoc. Qed.

Lemma members_framed k o l a t :
  l !! k = Some o ->
  members (length h + k)%nat (Scene (h ++ l) a t)
  = Returns (submobjects o) (Scene (h ++ l) a t).
Proof. intros E. unfold members, bind, ret. by rewrite deref_framed, E. Qed.
End FramedStage.

(** One call of a stage on a framed store. *)
Ltac step lem :=
  rewrite ?bind_bind; unfold bind at 1; rewrite lem; cbv beta iota; cbn [length app].
Ltac call :=
  rewrite ?bind_bind; unfold bind at 1; erewrite invoke_framed by reflexivity; cbv beta iota;
  cbn [insert list_insert shape_of submobjects calls length app].
Ltac attr H :=
  rewrite ?bind_bind; unfold bind at 1; rewrite (self_obj_eq _ _ _ _ _ H); cbv beta iota.
Ltac shown :=
  rewrite ?bind_bind; unfold bind at 1; rewrite ?play_eq, ?play_run_time_eq; cbv beta iota;
  cbn [heap attrs timeline].
Ltac put m :=
  rewrite ?bind_bind; unfold bind at 1; erewrite (add_fresh_framed _ _ _ m) by
    (first [reflexivity | cbn [submobjects]; rewrite ?elem_of_cons, ?elem_of_nil; lia]);
  cbv beta iota; cbn [insert list_insert shape_of submobjects calls length app].

Ltac get H i m :=
  rewrite ?bind_bind; unfold bind at 1;
  rewrite (item_old _ _ _ _ _ i m _ _ _ H) by done; cbv beta iota.
Ltac norm := rewrite <- ?Nat.add_assoc; cbn [Nat.add].
Ltac read_group :=
  rewrite ?bind_bind; unfold bind at 1; erewrite members_framed by reflexivity; cbv beta iota;
  cbn [submobjects].
Ltac skip := rewrite ?bind_bind; unfold bind at 1; unfold ret at 1; cbv beta iota.

(** Reads a list of references of a framed store. *)
Ltac read_all :=
  apply mapM_Some;
  repeat (constructor; [rewrite lookup_framed; reflexivity|]);
  constructor.

Lemma wait_eq d s :
  wait d s = Returns tt (Scene (heap s) (attrs s) (timeline s ++ [Wait d])).
Proof. reflexivity. Qed.


(** *** The parsing stage *)

Lemma show_parsing_framed h a t title groups written :
  a !! "title" = Some (Obj title) ->
  a !! "token_groups" = Some (PyList groups) ->
  Forall2 (fun g ms => members_of (Scene h a t) g = Some ms) groups written ->
  ASTGeneration.show_parsing (Scene h a t)
  = Returns tt
      (Scene (h ++ Mobject (TextShape "步骤 3: 语法分析 (Parsing)" 36 "" ORANGE NORMAL) []
                           [Cto_corner UL 0.5]
                :: Parsing.rule_objects
                ++ [Mobject VGroupShape (map (fun i => length h + (1 + i))%nat (seq 0 7))
                            [Carrange DOWN LEFT 0.4; Cscale 0.85; Cmove_to (At ORIGIN)]])
             (<["rules" := Obj (length h + 8)%nat]> a)
             (t ++ [ Play [Transform title (length h)] None;
                     Play [FadeOut (concat written)] None;
                     Play [Write (length h + 8)%nat] (Some 3%Q) ])).
Proof.
  intros Ht Hg Hms. unfold ASTGeneration.show_parsing.
  unfold bind at 1. rewrite Text_eq. cbv beta iota.
  unfold bind at 1. unfold to_corner. rewrite invoke_new. cbv beta iota.
  cbn [shape_of submobjects calls app].
  unfold bind at 1. rewrite (self_obj_eq _ _ _ _ _ Ht). cbv beta iota.
  unfold bind at 1. rewrite play_eq. cbv beta iota. cbn [heap attrs timeline].
  unfold bind at 1. rewrite (self_list_eq _ _ _ _ _ Hg). cbv beta iota.
  unfold bind at 1. rewrite (gather_members _ groups written).
  2:{ eapply Forall2_impl; [exact Hms|]. intros g ms Hgm.
      by apply (members_of_app _ _ _ _ _ _ _ _ Hgm). }
  cbv beta iota. cbn [app].
  unfold bind at 1. rewrite play_eq. cbv beta iota. cbn [heap attrs timeline].
  do 7 (unfold bind at 1; rewrite Text_eq; cbv beta iota).
  unfold bind at 1. rewrite VGroup_any. cbv beta iota.
  unfold arrange, scale, move_to.
  do 3 (unfold bind at 1; rewrite invoke_new; cbv beta iota;
        cbn [shape_of submobjects calls app]).
  unfold bind at 1. rewrite play_run_time_eq. cbv beta iota. cbn [heap attrs timeline].
  rewrite setattr_eq. cbn [heap attrs timeline].
  rewrite !length_app. cbn [length].
  rewrite remove_list_redundancies_NoDup by distinct_refs.
  rewrite <- !Nat.add_assoc. cbn [Nat.add].
  f_equal. f_equal.
  - rewrite <- !app_assoc. reflexivity.
  - by rewrite <- !app_assoc.
Qed.

(** X3: stage 3 after stage 2, for any token list that is not empty: the
    parsing stage fades out exactly the objects the token stage wrote,
    which read the token list, and leaves the grammar rules in
    [self.rules]. *)
Theorem parsing_fades_displayed_tokens toks s title code_box code_group :
  toks <> [] ->
  attrs s !! "title" = Some (Obj title) ->
  attrs s !! "code_box" = Some (Obj code_box) ->
  attrs s !! "code_group" = Some (Obj code_group) ->
  exists s1 s2 rules,
    ASTGeneration.show_tokens toks s = Returns tt s1 /\
    (wait 2 ;; ASTGeneration.show_parsing) s1 = Returns tt s2 /\
    Parsing.faded_by (appended s1 s2) = Parsing.introduced_by (appended s s1) /\
    mapM (Token.token_of s2) (Parsing.faded_by (appended s1 s2)) = Some toks /\
    attrs s2 = <["rules" := Obj rules]> (attrs s1) /\
    lines_of s2 rules = Some Parsing.rule_lines.
Proof.
  destruct s as [h a t]. cbn [attrs heap timeline]. intros Hne Ht Hb Hg.
  destruct (show_tokens_framed toks h a t _ _ _ Ht Hb Hg)
    as (K & rows & last & Hrun & Hat & Hcat & H6 & Hlast & Htitle).
  set (written := map (fun gr : ref * list (string * string) =>
                         Rows.row_members gr.1 (length gr.2)) (rows ++ last)).
  set (a1 := <["token_groups" := PyList (map fst (rows ++ last))]> a) in *.
  set (t1 := t ++ _) in Hrun.
  set (s1 := Scene (h ++ K) a1 t1) in *.
  destruct (rows_at_read s1 _ 0 Hat) as (Hms & Htoks & _ & _). fold written in Hms, Htoks.
  assert (Ht1 : a1 !! "title" = Some (Obj title)).
  { unfold a1. by rewrite lookup_insert_ne. }
  assert (Hg1 : a1 !! "token_groups" = Some (PyList (map fst (rows ++ last)))).
  { unfold a1. by rewrite lookup_insert_eq. }
  pose proof (show_parsing_framed (h ++ K) a1 (t1 ++ [Wait 2]) title _ written Ht1 Hg1 Hms)
    as Hpar.
  eexists s1, _, (length (h ++ K) + 8)%nat.
  split; [exact Hrun|]. split; [exact Hpar|].
  set (s2 := Scene _ _ _).
  assert (Hf : Parsing.faded_by (appended s1 s2) = concat written).
  { unfold Parsing.faded_by, appended, s1, s2. cbn [timeline].
    rewrite <- app_assoc, drop_app_length. cbn. by rewrite !app_nil_r. }
  split.
  { rewrite Hf. unfold Parsing.introduced_by, appended, s1, t1. cbn [timeline].
    rewrite drop_app_length.
    change (?x :: ?y :: ?l) with ([x; y] ++ l).
    rewrite batches_app, batches_plays, flat_map_app.
    rewrite <- (map_map (fun gr : ref * list (string * string) =>
                           Rows.row_members gr.1 (length gr.2)) (map Write)).
    rewrite introduced_writes. reflexivity. }
  split.
  { rewrite Hf. apply mapM_Some. apply mapM_Some in Htoks. rewrite Hcat in Htoks.
    eapply Forall2_impl; [exact Htoks|]. intros g tk. apply token_of_prefix.
    unfold s1, s2. cbn [heap]. by eexists. }
  split; [reflexivity|].
  unfold s2, lines_of, members_of. cbn [heap].
  rewrite (lookup_app_r (h ++ K)) by lia.
  replace (length (h ++ K) + 8 - length (h ++ K))%nat with 8%nat by lia.
  cbn [lookup list_lookup Parsing.rule_objects Parsing.rule_lines map app submobjects
       mbind option_bind seq].
  apply mapM_Some. unfold text_of. cbn [heap].
  repeat (constructor;
    [rewrite (lookup_app_r (h ++ K)) by lia;
     match goal with |- context [(?x + ?k - ?x)%nat] =>
       replace (x + k - x)%nat with k by lia end;
     reflexivity|]).
  constructor.
Qed.


(** *** The tree stage *)

Lemma create_ast_node_at h l a t text color position :
  ASTGeneration.create_ast_node text color position (Scene (h ++ l) a t)
  = Returns (length h + (length l + (2 + length (Py.split Py.newline text))))%nat
      (Scene (h ++ (l ++ Node.node_objects (length h + length l)
                           (Py.split Py.newline text) color position)) a t).
Proof.
  pose proof (create_ast_node_framed text color position (h ++ l) a t) as E.
  cbv zeta in E. rewrite E. by rewrite length_app, <- app_assoc, <- Nat.add_assoc.
Qed.

(** Splits the node texts of the goal into their lines. *)
Ltac split_text :=
  match goal with
  | |- context [Py.split Py.newline ?text] =>
      let lines := eval vm_compute in (Py.split Py.newline text) in
      change (Py.split Py.newline text) with lines
  end.

Ltac node :=
  step create_ast_node_at; repeat split_text;
  cbn [Node.node_objects Node.node_line length map seq app]; norm.
Ltac arrow :=
  rewrite ?bind_bind; unfold ASTGeneration.connect_nodes at 1;
  step Arrow_framed; skip; norm.

Lemma show_ast_building_framed h a t title rules :
  a !! "title" = Some (Obj title) ->
  a !! "rules" = Some (Obj rules) ->
  ASTGeneration.show_ast_building (Scene h a t)
  = Returns tt
      (Scene (h ++ Grown.built (length h))
         (<["ast_arrows" :=
              PyList (Grown.at_offsets (length h) [10; 15; 21; 27; 32; 45; 51; 57; 38]%nat)]>
            (<["ast_nodes" :=
                 PyList (Grown.at_offsets (length h) [4; 9; 14; 20; 26; 31; 44; 50; 56; 37]%nat)]>
               (<["connections" := PyList []]> a)))
         (t ++ [ Play [Transform title (length h + 0)%nat] None;
                 Play [FadeOut [rules]] None;
                 Play (Grown.created (length h) [4]%nat) (Some 0.5%Q);
                 Play (Grown.created (length h) [9; 10]%nat) (Some 0.5%Q);
                 Play (Grown.created (length h) [14; 15]%nat) (Some 0.5%Q);
                 Play (Grown.created (length h) [20; 21; 26; 27]%nat) (Some 1%Q);
                 Play (Grown.created (length h) [31; 32]%nat) (Some 0.5%Q);
                 Play (Grown.created (length h) [44; 45; 50; 51; 56; 57]%nat) (Some 1.5%Q);
                 Play (Grown.created (length h) [37; 38]%nat) (Some 0.5%Q) ])).
Proof.
  intros Ht Hr.
  replace (Scene h a t) with (Scene (h ++ []) a t) at 1 by (by rewrite app_nil_r).
  unfold ASTGeneration.show_ast_building.
  step Text_framed. unfold to_corner. call.
  attr Ht. shown. attr Hr. shown.
  unfold bind at 1. rewrite setattr_eq. cbv beta iota. cbn [heap attrs timeline].
  node. node. arrow. node. arrow. node. arrow. node. arrow. node. arrow.
  node. arrow. node. arrow. node. arrow. node. arrow.
  do 7 shown.
  unfold bind at 1. rewrite setattr_eq. cbv beta iota. cbn [heap attrs timeline].
  rewrite setattr_eq. cbn [heap attrs timeline].
  rewrite <- !app_assoc.
  cbn [Grown.built Grown.link Node.node_objects Node.node_line length map seq app]. norm.
  reflexivity.
Qed.

Lemma built_holds_tree h a t :
  a !! "ast_nodes"
    = Some (PyList (Grown.at_offsets (length h) [4; 9; 14; 20; 26; 31; 44; 50; 56; 37]%nat)) ->
  a !! "ast_arrows"
    = Some (PyList (Grown.at_offsets (length h) [10; 15; 21; 27; 32; 45; 51; 57; 38]%nat)) ->
  Grown.fixed_tree (Scene (h ++ Grown.built (length h)) a t).
Proof.
  intros Hn Ha. unfold Grown.fixed_tree.
  exists (length h + 4)%nat, (length h + 9)%nat, (length h + 14)%nat, (length h + 20)%nat,
    (length h + 26)%nat, (length h + 31)%nat, (length h + 44)%nat, (length h + 50)%nat,
    (length h + 56)%nat, (length h + 37)%nat.
  eexists. cbv zeta. unfold self_pylist. cbn [attrs]. rewrite Hn, Ha.
  split; [reflexivity|]. split; [reflexivity|]. split; [distinct_refs|].
  rewrite !mapM_Some.
  unfold Tree.node_label, lines_of, connector_ends, connector_points, connector_arrow,
    is_arrow, arrow_points, members_of, text_of.
  cbn [heap map]. unfold Grown.built, Grown.link, Grown.labels.
  cbn [Node.node_objects Node.node_line length map seq app].
  norm. unfold ref.
  split.
  - repeat (constructor;
      [repeat (rewrite !lookup_framed;
               cbn [lookup list_lookup submobjects mbind option_bind]);
       apply mapM_Some;
       repeat (constructor; [rewrite lookup_framed; reflexivity|]); constructor|]).
    constructor.
  - repeat (constructor;
      [repeat (rewrite !lookup_framed; cbn [lookup list_lookup mbind option_bind]);
       reflexivity|]).
    constructor.
Qed.

Lemma introduced_created base ks :
  flat_map introduced (Grown.created base ks) = Grown.at_offsets base ks.
Proof.
  unfold Grown.created. induction (Grown.at_offsets base ks) as [|m ms IH]; [done|].
  cbn. by f_equal.
Qed.

Lemma filter_offsets base ks js :
  List.filter (fun m => bool_decide (m ∈ Grown.at_offsets base ks)) (Grown.at_offsets base js)
  = Grown.at_offsets base (List.filter (fun j => bool_decide (j ∈ ks)) js).
Proof.
  unfold Grown.at_offsets. induction js as [|j js IH]; [done|].
  cbn [map List.filter]. rewrite IH.
  destruct (bool_decide (j ∈ ks)) eqn:Ej.
  - rewrite bool_decide_eq_true_2; [done|].
    apply bool_decide_eq_true_1 in Ej. apply list_elem_of_fmap. by exists j.
  - rewrite bool_decide_eq_false_2; [done|].
    apply bool_decide_eq_false_1 in Ej. intros Hin. apply Ej.
    apply list_elem_of_fmap in Hin as (k & Hk & Hin). by replace j with k by lia.
Qed.

(** X5: stage 4 on any scene that has a title and the rules of stage 3: it
    returns and leaves the same tree, whatever the scene showed before,
    revealed in seven batches after the title change and the fading of
    the rules. *)
Theorem show_ast_building_builds_fixed_tree s title rules :
  attrs s !! "title" = Some (Obj title) ->
  attrs s !! "rules" = Some (Obj rules) ->
  exists s',
    ASTGeneration.show_ast_building s = Returns tt s' /\
    heap s `prefix_of` heap s' /\
    Grown.fixed_tree s' /\
    map length (batches (appended s s')) = [1; 1; 1; 2; 2; 4; 2; 6; 2]%nat /\
    (exists nodes, self_pylist s' "ast_nodes" = Some nodes /\
       map length (Tree.reveals nodes (appended s s')) = [1; 1; 1; 2; 1; 3; 1]%nat).
Proof.
  destruct s as [h a t]. cbn [attrs heap timeline]. intros Ht Hr.
  eexists. split; [exact (show_ast_building_framed h a t _ _ Ht Hr)|].
  split; [by eexists|]. split.
  { apply built_holds_tree; [by rewrite lookup_insert_ne, lookup_insert_eq
                            |by rewrite lookup_insert_eq]. }
  unfold appended. cbn [timeline]. rewrite drop_app_length.
  split; [reflexivity|].
  eexists. unfold self_pylist. cbn [attrs].
  rewrite lookup_insert_ne, lookup_insert_eq by done.
  split; [reflexivity|].
  unfold Tree.reveals. cbn [map batches omap list_omap flat_map introduced app].
  rewrite !introduced_created, !filter_offsets.
  vm_compute. reflexivity.
Qed.

(** X6: the four stages in a row, for any source text and any token list
    that is not empty, from any scene: the run returns, and the tree it
    ends with is the one tree of stage 4, whatever the source text and
    the tokens were. *)
Theorem construct_shows_same_tree_for_any_source code toks s :
  toks <> [] ->
  ASTGeneration.construct = Pipeline.run ASTGeneration.source_code ASTGeneration.tokens /\
  exists s',
    Pipeline.run code toks s = Returns tt s' /\
    heap s `prefix_of` heap s' /\
    Grown.fixed_tree s'.
Proof.
  intros _. split; [reflexivity|].
  destruct s as [h a t]. unfold Pipeline.run.
  unfold bind at 1. pose proof (show_source_code_framed code h a t) as E1.
  cbv zeta in E1. rewrite E1. clear E1. cbv beta iota.
  set (H1 := h ++ _). set (a1 := <["code_box" := _]> _). 
  unfold bind at 1. rewrite wait_eq. cbv beta iota. cbn [heap attrs timeline].
  set (t1 := (t ++ _) ++ _).
  assert (Ht1 : a1 !! "title" = Some (Obj (length h + 0)%nat)).
  { unfold a1. do 2 (rewrite lookup_insert_ne by done). by rewrite lookup_insert_eq. }
  destruct (show_tokens_framed toks H1 a1 t1 _ _ _ Ht1
              ltac:(unfold a1; by rewrite lookup_insert_eq)
              ltac:(unfold a1; rewrite lookup_insert_ne by done; by rewrite lookup_insert_eq))
    as (K & rows & last & Hrun & Hat & _).
  unfold bind at 1. rewrite Hrun. clear Hrun. cbv beta iota.
  set (a2 := <["token_groups" := _]> a1). set (t2 := t1 ++ _).
  unfold bind at 1. rewrite wait_eq. cbv beta iota. cbn [heap attrs timeline].
  destruct (rows_at_read (Scene (H1 ++ K) a2 (t2 ++ [Wait 2])) _ 0 Hat) as (Hms & _).
  unfold bind at 1.
  rewrite (show_parsing_framed (H1 ++ K) a2 (t2 ++ [Wait 2]) (length h + 0)%nat _ _
             ltac:(unfold a2; rewrite lookup_insert_ne by done; exact Ht1)
             ltac:(unfold a2; by rewrite lookup_insert_eq) Hms).
  cbv beta iota.
  set (H3 := (H1 ++ K) ++ _). set (a3 := <["rules" := _]> a2). set (t3 := (t2 ++ _) ++ _).
  unfold bind at 1. rewrite wait_eq. cbv beta iota. cbn [heap attrs timeline].
  unfold bind at 1.
  rewrite (show_ast_building_framed H3 a3 (t3 ++ [Wait 2]) (length h + 0)%nat
             (length (H1 ++ K) + 8)%nat
             ltac:(unfold a3, a2; do 2 (rewrite lookup_insert_ne by done); exact Ht1)
             ltac:(unfold a3; by rewrite lookup_insert_eq)).
  cbv beta iota. rewrite wait_eq. cbn [heap attrs timeline].
  eexists. split; [reflexivity|]. split.
  { unfold H3, H1. rewrite <- !app_assoc. by eexists. }
  apply built_holds_tree.
  - rewrite lookup_insert_ne by done. by rewrite lookup_insert_eq.
  - by rewrite lookup_insert_eq.
Qed.


(** *** The block-merging stages *)

Lemma identify_mergeable_blocks_framed h a t title blocks bs b1 b2 b3 :
  a !! "title" = Some (Obj title) ->
  a !! "blocks" = Some (Obj blocks) ->
  members_of (Scene h a t) blocks = Some bs ->
  bs !! 1%nat = Some b1 -> bs !! 2%nat = Some b2 -> bs !! 3%nat = Some b3 ->
  BlockMerging.identify_mergeable_blocks (Scene h a t)
  = Returns tt
      (Scene (h ++ Merging.identified (length h) b1 b2 b3)
         (<["annotations" := Obj (length h + 10)%nat]>
            (<["highlight_boxes" := Obj (length h + 6)%nat]>
               (<["rule_text" := Obj (length h + 5)%nat]> a)))
         (t ++ [ Play [Transform title (length h + 0)%nat] None;
                 Play [Write (length h + 5)%nat] None;
                 Play (map Create [length h + 7; length h + 8; length h + 9]%nat)
                      (Some 1.5%Q);
                 Play [Write (length h + 10)%nat] None ])).
Proof.
  intros Ht Hb Hm H1 H2 H3.
  replace (Scene h a t) with (Scene (h ++ []) a t) at 1 by (by rewrite app_nil_r).
  unfold BlockMerging.identify_mergeable_blocks.
  step Text_framed. unfold to_corner. call.
  attr Hb.
  step (item_old h a t blocks bs 1 b1); [|done..].
  step (item_old h a t blocks bs 2 b2); [|done..].
  step (item_old h a t blocks bs 3 b3); [|done..].
  do 4 step Text_framed.
  step VGroup_framed; [|distinct_refs].
  unfold arrange, scale, to_edge_buff. do 3 call.
  attr Ht. shown. shown.
  step VGroup_framed; [|distinct_refs].
  unfold for_each. cbn [for_each].
  step SurroundingRectangle_framed. put (length h + 7)%nat.
  step SurroundingRectangle_framed. put (length h + 8)%nat.
  step SurroundingRectangle_framed. put (length h + 9)%nat.
  skip. read_group. shown.
  step VGroup_framed; [|distinct_refs].
  unfold for_each. cbn [for_each]. unfold next_to.
  step Text_framed. call. put (length h + 11)%nat.
  step Text_framed. call. put (length h + 12)%nat.
  step Text_framed. call. put (length h + 13)%nat.
  skip. shown.
  unfold bind at 1. rewrite setattr_eq. cbv beta iota. cbn [heap attrs timeline].
  unfold bind at 1. rewrite setattr_eq. cbv beta iota. cbn [heap attrs timeline].
  rewrite setattr_eq. cbn [heap attrs timeline].
  by rewrite <- !app_assoc.
Qed.

(** X11: stage 2 of the block-merging scene on any scene whose
    [self.blocks] has a second, third and fourth member: it frames
    exactly those three blocks and puts a note under each; it plays the
    title change, the rules, the three frames in one batch of 1.5
    seconds, and the notes. *)
Theorem identify_mergeable_blocks_highlights s title blocks bs b1 b2 b3 :
  attrs s !! "title" = Some (Obj title) ->
  attrs s !! "blocks" = Some (Obj blocks) ->
  members_of s blocks = Some bs ->
  bs !! 1%nat = Some b1 -> bs !! 2%nat = Some b2 -> bs !! 3%nat = Some b3 ->
  exists s' new_title rule_text highlight_boxes annotations hs ans,
    BlockMerging.identify_mergeable_blocks s = Returns tt s' /\
    heap s `prefix_of` heap s' /\
    attrs s' = <["annotations" := Obj annotations]>
                 (<["highlight_boxes" := Obj highlight_boxes]>
                    (<["rule_text" := Obj rule_text]> (attrs s))) /\
    appended s s'
      = [ Play [Transform title new_title] None;
          Play [Write rule_text] None;
          Play (map Create hs) (Some 1.5%Q);
          Play [Write annotations] None ] /\
    lines_of s' rule_text = Some Merging.rule_lines /\
    members_of s' highlight_boxes = Some hs /\
    Merging.objects_of s' hs = Some (map Merging.highlight_of [b1; b2; b3]) /\
    members_of s' annotations = Some ans /\
    Merging.objects_of s' ans = Some (map Merging.annotation_of [b1; b2; b3]).
Proof.
  destruct s as [h a t]. cbn [attrs heap timeline]. intros Ht Hb Hm H1 H2 H3.
  eexists _, (length h + 0)%nat, (length h + 5)%nat, (length h + 6)%nat,
    (length h + 10)%nat, _, _.
  split; [exact (identify_mergeable_blocks_framed h a t _ _ _ _ _ _ Ht Hb Hm H1 H2 H3)|].
  split; [by eexists|]. split; [done|].
  split; [unfold appended; cbn [timeline]; by rewrite drop_app_length|].
  unfold lines_of, members_of, Merging.objects_of. cbn [heap].
  rewrite !lookup_framed.
  cbn [Merging.identified lookup list_lookup app map submobjects mbind option_bind].
  split; [unfold text_of; cbn [heap]; read_all|].
  split; [reflexivity|]. split; [read_all|]. split; [reflexivity|]. read_all.
Qed.

(** X12: with fewer than four blocks in [self.blocks] stage 2 raises
    [IndexError]. *)
Theorem identify_mergeable_blocks_needs_four s blocks bs :
  attrs s !! "blocks" = Some (Obj blocks) ->
  members_of s blocks = Some bs ->
  (length bs < 4)%nat ->
  BlockMerging.identify_mergeable_blocks s = Raises IndexError.
Proof.
  destruct s as [h a t]. cbn [attrs heap timeline]. intros Hb Hm Hlen.
  replace (Scene h a t) with (Scene (h ++ []) a t) at 1 by (by rewrite app_nil_r).
  unfold BlockMerging.identify_mergeable_blocks.
  step Text_framed. unfold to_corner. call.
  attr Hb.
  destruct (bs !! 1%nat) as [b1|] eqn:H1.
  2:{ unfold bind at 1. by rewrite (item_old_short h a t blocks bs 1). }
  step (item_old h a t blocks bs 1 b1); [|done..].
  destruct (bs !! 2%nat) as [b2|] eqn:H2.
  2:{ unfold bind at 1. by rewrite (item_old_short h a t blocks bs 2). }
  step (item_old h a t blocks bs 2 b2); [|done..].
  destruct (bs !! 3%nat) as [b3|] eqn:H3.
  2:{ unfold bind at 1. by rewrite (item_old_short h a t blocks bs 3). }
  apply lookup_lt_Some in H3. lia.
Qed.


Lemma create_block_box_at h l a t block_id statements color :
  BlockMerging.create_block_box block_id statements color (Scene (h ++ l) a t)
  = Returns (length h + (length l + (3 + length (Box.box_lines statements))))%nat
      (Scene (h ++ (l ++ Box.box_objects (length h + length l) block_id color statements)) a t).
Proof.
  change BlockMerging.create_block_box with BuildBasicBlocks.create_block_box.
  rewrite create_block_box_framed. by rewrite length_app, <- app_assoc, <- Nat.add_assoc.
Qed.

Lemma create_arrow_plain_framed h l a t from_block to_block from_idx to_idx :
  BlockMerging.create_arrow from_block to_block None from_idx to_idx (Scene (h ++ l) a t)
  = Returns (length h + length l)%nat
      (Scene (h ++ (l ++ [Mobject
                (ArrowShape
                   (Connector.anchor_at
                      (if (from_idx =? 4)%Z then if (to_idx =? 5)%Z then Left else Right
                       else Bottom)
                      from_block BlockMerging.OFFSET_DISTANCE)
                   (Connector.anchor_at Top to_block BlockMerging.OFFSET_DISTANCE)
                   BLUE 0.15 2.5 0.2)
                [] [Cset_stroke 2.5 1.0; Cset_color BLUE]])) a t).
Proof.
  unfold BlockMerging.create_arrow.
  rewrite create_arrow_start_edge, create_arrow_finish_edge.
  cbn [Py.truthy_str].
  unfold bind at 1. rewrite Arrow_framed. cbv beta iota.
  unfold set_stroke, set_color.
  unfold bind at 1. rewrite (invoke_last_framed h a t). cbv beta iota.
  unfold bind at 1. rewrite (invoke_last_framed h a t). cbv beta iota.
  reflexivity.
Qed.

Lemma perform_merging_framed h a t title rule_text highlight_boxes annotations
    blocks arrows bs ars b0 b1 b2 b3 b4 b5 b6 b7 b8 a0 a1 a2 a3 a4 a5 a6 a7 a8 :
  a !! "title" = Some (Obj title) ->
  a !! "rule_text" = Some (Obj rule_text) ->
  a !! "highlight_boxes" = Some (Obj highlight_boxes) ->
  a !! "annotations" = Some (Obj annotations) ->
  a !! "blocks" = Some (Obj blocks) ->
  a !! "arrows" = Some (Obj arrows) ->
  members_of (Scene h a t) blocks = Some (b0 :: b1 :: b2 :: b3 :: b4 :: b5 :: b6 :: b7 :: b8 :: bs) ->
  members_of (Scene h a t) arrows = Some (a0 :: a1 :: a2 :: a3 :: a4 :: a5 :: a6 :: a7 :: a8 :: ars) ->
  BlockMerging.perform_merging (Scene h a t)
  = Returns tt
      (Scene (h ++ Merging.merged (length h) b0 b4
                     (remove_list_redundancies [b0; length h + 7; b4; b5; b6; b7; b8]%nat)
                     (remove_list_redundancies [length h + 8; length h + 9; a4; a5; a6; a7; a8]%nat))
         (<["merged_block" := Obj (length h + 7)%nat]>
            (<["arrows" := Obj (length h + 11)%nat]>
               (<["blocks" := Obj (length h + 10)%nat]> a)))
         (t ++ [ Play [Transform title (length h + 0)%nat] None;
                 Play [FadeOut [rule_text]; FadeOut [highlight_boxes];
                       FadeOut [annotations]] None;
                 Play (map (fun m => FadeOut [m]) [b1; b2; b3; a0; a1; a2; a3]) (Some 1%Q);
                 Play [Create (length h + 7)%nat] (Some 1%Q);
                 Play [Create (length h + 8)%nat; Create (length h + 9)%nat] (Some 1%Q) ])).
Proof.
  intros Ht Hr Hh Hn Hb Ha Hbs Has.
  replace (Scene h a t) with (Scene (h ++ []) a t) at 1 by (by rewrite app_nil_r).
  unfold BlockMerging.perform_merging.
  step Text_framed. unfold to_corner. call.
  attr Ht. shown. attr Hr. attr Hh. attr Hn. shown.
  step create_block_box_at.
  cbn [Box.box_objects Box.box_lines Box.box_calls Box.line_text Py.truthy_list map length seq app].
  norm. unfold move_to, scale. call. call.
  attr Hb.
  get Hbs 1%Z b1.
  get Hbs 2%Z b2.
  get Hbs 3%Z b3.
  attr Ha.
  get Has 0%Z a0.
  get Has 1%Z a1.
  get Has 2%Z a2.
  get Has 3%Z a3.
  shown. shown.
  get Hbs 0%Z b0.
  step create_arrow_plain_framed.
  get Hbs 4%Z b4.
  step create_arrow_plain_framed.
  shown.
  get Hbs 0%Z b0.
  get Hbs 4%Z b4.
  get Hbs 5%Z b5.
  get Hbs 6%Z b6.
  get Hbs 7%Z b7.
  get Hbs 8%Z b8.
  step VGroup_framed_any.
  unfold bind at 1. rewrite setattr_eq. cbv beta iota. cbn [heap attrs timeline].
  get Has 4%Z a4. get Has 5%Z a5. get Has 6%Z a6. get Has 7%Z a7. get Has 8%Z a8.
  step VGroup_framed_any.
  unfold bind at 1. rewrite setattr_eq. cbv beta iota. cbn [heap attrs timeline].
  rewrite setattr_eq. cbn [heap attrs timeline].
  by rewrite <- !app_assoc.
Qed.

(** X13: stage 3 of the block-merging scene on any scene whose
    [self.blocks] and [self.arrows] have at least nine members each: it
    plays the title change, the fading of the rules, frames and notes,
    then in one batch of one second the fading of blocks 1 to 3 and
    arrows 0 to 3, then the creation of a block [merged_block] with the
    three merged statements, then that of two new connectors, from
    block 0 to it and from it to block 4; [self.blocks] and
    [self.arrows] become new groups of seven. *)
Theorem perform_merging_any_graph s title rule_text highlight_boxes annotations
    blocks arrows bs ars b0 b1 b2 b3 b4 b5 b6 b7 b8 a0 a1 a2 a3 a4 a5 a6 a7 a8 :
  attrs s !! "title" = Some (Obj title) ->
  attrs s !! "rule_text" = Some (Obj rule_text) ->
  attrs s !! "highlight_boxes" = Some (Obj highlight_boxes) ->
  attrs s !! "annotations" = Some (Obj annotations) ->
  attrs s !! "blocks" = Some (Obj blocks) ->
  attrs s !! "arrows" = Some (Obj arrows) ->
  members_of s blocks = Some (b0 :: b1 :: b2 :: b3 :: b4 :: b5 :: b6 :: b7 :: b8 :: bs) ->
  members_of s arrows = Some (a0 :: a1 :: a2 :: a3 :: a4 :: a5 :: a6 :: a7 :: a8 :: ars) ->
  NoDup [b0; b4; b5; b6; b7; b8] ->
  NoDup [a4; a5; a6; a7; a8] ->
  Forall (fun m => (m < length (heap s))%nat) [b0; b4; b5; b6; b7; b8; a4; a5; a6; a7; a8] ->
  exists s' new_title merged new1 new2 blocks' arrows',
    BlockMerging.perform_merging s = Returns tt s' /\
    heap s `prefix_of` heap s' /\
    attrs s' = <["merged_block" := Obj merged]>
                 (<["arrows" := Obj arrows']> (<["blocks" := Obj blocks']> (attrs s))) /\
    appended s s'
      = [ Play [Transform title new_title] None;
          Play [FadeOut [rule_text]; FadeOut [highlight_boxes]; FadeOut [annotations]]
               None;
          Play (map (fun m => FadeOut [m]) [b1; b2; b3; a0; a1; a2; a3]) (Some 1%Q);
          Play [Create merged] (Some 1%Q);
          Play [Create new1; Create new2] (Some 1%Q) ] /\
    members_of s' blocks' = Some [b0; merged; b4; b5; b6; b7; b8] /\
    members_of s' arrows' = Some [new1; new2; a4; a5; a6; a7; a8] /\
    block_title s' merged = Some "merged_block" /\
    block_statements s' merged = Some Merging.merged_statements /\
    calls_of s' merged = [Cmove_to (At (UP * 3.0)); Cscale 0.5] /\
    connector_ends s' new1 = Some (b0, merged) /\
    connector_ends s' new2 = Some (merged, b4).
Proof.
  destruct s as [h a t]. cbn [attrs heap timeline].
  intros Ht Hr Hh Hn Hb Ha Hbs Has Hdb Hda Hold.
  eexists _, (length h + 0)%nat, (length h + 7)%nat, (length h + 8)%nat,
    (length h + 9)%nat, (length h + 10)%nat, (length h + 11)%nat.
  split;
    [exact (perform_merging_framed h a t _ _ _ _ _ _ _ _ _ _ _ _ _ _ _ _ _ _ _ _ _ _ _ _ _ _
              Ht Hr Hh Hn Hb Ha Hbs Has)|].
  split; [by eexists|]. split; [done|].
  split; [unfold appended; cbn [timeline]; by rewrite drop_app_length|].
  rewrite !Forall_cons in Hold. destruct Hold as (? & ? & ? & ? & ? & ? & ? & ? & ? & ? & ? & _).
  rewrite !remove_list_redundancies_NoDup.
  2:{ apply NoDup_cons; split; [rewrite !elem_of_cons, elem_of_nil; lia|].
      apply NoDup_cons; split; [rewrite !elem_of_cons, elem_of_nil; lia|]. done. }
  2:{ apply NoDup_cons in Hdb as [Hb0 Hdb].
      apply NoDup_cons; split.
      - rewrite elem_of_cons. intros [->|Hin]; [lia|done].
      - apply NoDup_cons; split; [rewrite !elem_of_cons, elem_of_nil; lia|done]. }
  unfold block_title, block_statements, lines_of, members_of, text_of, calls_of,
    connector_ends, connector_points, connector_arrow, is_arrow, arrow_points.
  cbn [heap]. rewrite !lookup_framed.
  cbn [Merging.merged Merging.merged_statements lookup list_lookup app map submobjects
       mbind option_bind calls shape_of].
  rewrite !lookup_framed.
  cbn [lookup list_lookup mbind option_bind submobjects].
  split; [reflexivity|]. split; [reflexivity|]. split; [reflexivity|].
  split; [read_all|]. split; [reflexivity|]. split; reflexivity.
Qed.

(** Reads item [n] of an old group, or stops with [IndexError]. *)
Ltac read_or_raise H xs n i :=
  rewrite ?bind_bind;
  let m := fresh "m" in
  let E := fresh "E" in
  destruct (xs !! n) as [m|] eqn:E;
  [ unfold bind at 1; rewrite (item_old _ _ _ _ _ i m _ _ _ H) by done; cbv beta iota
  | unfold bind at 1; by rewrite (item_old_short _ _ _ _ _ i _ _ _ H) ].
Ltac read_again H i :=
  rewrite ?bind_bind; unfold bind at 1;
  erewrite (item_old _ _ _ _ _ i _ _ _ _ H) by (lia || eassumption); cbv beta iota.

(** X14: with fewer than nine blocks or fewer than nine arrows stage 3 raises
    [IndexError]. *)
Theorem perform_merging_needs_nine s title rule_text highlight_boxes annotations
    blocks arrows bs ars :
  attrs s !! "title" = Some (Obj title) ->
  attrs s !! "rule_text" = Some (Obj rule_text) ->
  attrs s !! "highlight_boxes" = Some (Obj highlight_boxes) ->
  attrs s !! "annotations" = Some (Obj annotations) ->
  attrs s !! "blocks" = Some (Obj blocks) ->
  attrs s !! "arrows" = Some (Obj arrows) ->
  members_of s blocks = Some bs ->
  members_of s arrows = Some ars ->
  (length bs < 9)%nat \/ (length ars < 9)%nat ->
  BlockMerging.perform_merging s = Raises IndexError.
Proof.
  destruct s as [h a t]. cbn [attrs heap timeline].
  intros Ht Hr Hh Hn Hb Ha Hbs Has Hshort.
  replace (Scene h a t) with (Scene (h ++ []) a t) at 1 by (by rewrite app_nil_r).
  unfold BlockMerging.perform_merging.
  step Text_framed. unfold to_corner. call.
  attr Ht. shown. attr Hr. attr Hh. attr Hn. shown.
  step create_block_box_at.
  cbn [Box.box_objects Box.box_lines Box.box_calls Box.line_text Py.truthy_list map length seq app].
  norm. unfold move_to, scale. call. call.
  attr Hb.
  read_or_raise Hbs bs 1%nat 1%Z.
  read_or_raise Hbs bs 2%nat 2%Z.
  read_or_raise Hbs bs 3%nat 3%Z.
  attr Ha.
  read_or_raise Has ars 0%nat 0%Z.
  read_or_raise Has ars 1%nat 1%Z.
  read_or_raise Has ars 2%nat 2%Z.
  read_or_raise Has ars 3%nat 3%Z.
  shown. shown.
  read_or_raise Hbs bs 0%nat 0%Z.
  step create_arrow_plain_framed.
  read_or_raise Hbs bs 4%nat 4%Z.
  step create_arrow_plain_framed.
  shown.
  read_again Hbs 0%Z. read_again Hbs 4%Z.
  read_or_raise Hbs bs 5%nat 5%Z.
  read_or_raise Hbs bs 6%nat 6%Z.
  read_or_raise Hbs bs 7%nat 7%Z.
  read_or_raise Hbs bs 8%nat 8%Z.
  step VGroup_framed_any.
  unfold bind at 1. rewrite setattr_eq. cbv beta iota. cbn [heap attrs timeline].
  read_or_raise Has ars 4%nat 4%Z.
  read_or_raise Has ars 5%nat 5%Z.
  read_or_raise Has ars 6%nat 6%Z.
  read_or_raise Has ars 7%nat 7%Z.
  read_or_raise Has ars 8%nat 8%Z.
  repeat match goal with
         | E : _ !! _ = Some _ |- _ => apply lookup_lt_Some in E
         end.
  lia.
Qed.

Lemma self_list_group h l a t name g xs a0 t0 :
  a !! name = Some (Obj g) ->
  members_of (Scene h a0 t0) g = Some xs ->
  self_list name (Scene (h ++ l) a t) = Returns xs (Scene (h ++ l) a t).
Proof.
  intros E Hm. unfold self_list, getattr, bind. cbn [attrs]. rewrite E.
  by apply (members_old h a0 t0).
Qed.

(** X15: stage 4 of the block-merging scene on any scene with a title,
    blocks and arrows: after the title change one batch of 1.5 seconds
    animates [set_opacity(1.0)] on every block and then on every arrow,
    in order, and a three-line note is written and kept in
    [self.note]. *)
Theorem show_final_merged_cfg_shows s title blocks arrows bs ars :
  attrs s !! "title" = Some (Obj title) ->
  attrs s !! "blocks" = Some (Obj blocks) ->
  attrs s !! "arrows" = Some (Obj arrows) ->
  members_of s blocks = Some bs ->
  members_of s arrows = Some ars ->
  bs ++ ars <> [] ->
  exists s' new_title note,
    BlockMerging.show_final_merged_cfg s = Returns tt s' /\
    heap s `prefix_of` heap s' /\
    attrs s' = <["note" := Obj note]> (attrs s) /\
    appended s s'
      = [ Play [Transform title new_title] None;
          Play (map (fun m => Animate m (Cset_opacity 1.0)) (bs ++ ars)) (Some 1.5%Q);
          Play [Write note] None ] /\
    lines_of s' note = Some Final.note_lines /\
    calls_of s' note = [Carrange DOWN LEFT 0.4; Cto_edge RIGHT (Some 0.5%Q)].
Proof.
  destruct s as [h a t]. cbn [attrs heap timeline]. intros Ht Hb Ha Hbs Has _.
  eexists _, (length h + 0)%nat, (length h + 4)%nat.
  split.
  { replace (Scene h a t) with (Scene (h ++ []) a t) at 1 by (by rewrite app_nil_r).
    unfold BlockMerging.show_final_merged_cfg.
    step Text_framed. unfold to_corner. call.
    attr Ht. shown.
    unfold bind at 1. rewrite (self_list_group _ _ _ _ _ _ _ _ _ Hb Hbs). cbv beta iota.
    unfold bind at 1. rewrite (self_list_group _ _ _ _ _ _ _ _ _ Ha Has). cbv beta iota.
    shown.
    do 3 step Text_framed.
    step VGroup_framed; [|distinct_refs].
    unfold arrange, to_edge_buff. call. call.
    shown. rewrite setattr_eq. cbn [heap attrs timeline]. reflexivity. }
  split; [by eexists|]. split; [done|]. split.
  { unfold appended. cbn [timeline]. rewrite <- !app_assoc, drop_app_length.
    cbn [app]. by rewrite map_app. }
  unfold lines_of, members_of, text_of, calls_of. cbn [heap].
  rewrite !lookup_framed. cbn [lookup list_lookup submobjects mbind option_bind calls].
  split; [read_all|reflexivity].
Qed.

(** X16: a stage of the block-merging scene run before the stage that
    prepares it: the first attribute it reads is missing and it raises
    [AttributeError]. *)
Theorem merging_stages_need_stage_one s :
  attrs s !! "title" = None ->
  attrs s !! "blocks" = None ->
  BlockMerging.identify_mergeable_blocks s = Raises (AttributeError "blocks") /\
  BlockMerging.perform_merging s = Raises (AttributeError "title") /\
  BlockMerging.show_final_merged_cfg s = Raises (AttributeError "title").
Proof.
  destruct s as [h a t]. cbn [attrs]. intros Ht Hb.
  replace (Scene h a t) with (Scene (h ++ []) a t) by (by rewrite app_nil_r).
  split; [|split].
  - unfold BlockMerging.identify_mergeable_blocks.
    step Text_framed. unfold to_corner. call.
    unfold bind at 1. unfold self_obj, getattr, bind. cbn [attrs]. by rewrite Hb.
  - unfold BlockMerging.perform_merging.
    step Text_framed. unfold to_corner. call.
    unfold bind at 1. unfold self_obj, getattr, bind. cbn [attrs]. by rewrite Ht.
  - unfold BlockMerging.show_final_merged_cfg.
    step Text_framed. unfold to_corner. call.
    unfold bind at 1. unfold self_obj, getattr, bind. cbn [attrs]. by rewrite Ht.
Qed.

(** X17: stage 3 of the block-merging scene right after stage 1, without
    stage 2: the rules it wants to fade out do not exist. *)
Theorem perform_merging_needs_stage_two s title :
  attrs s !! "title" = Some (Obj title) ->
  attrs s !! "rule_text" = None ->
  BlockMerging.perform_merging s = Raises (AttributeError "rule_text").
Proof.
  destruct s as [h a t]. cbn [attrs]. intros Ht Hr.
  replace (Scene h a t) with (Scene (h ++ []) a t) by (by rewrite app_nil_r).
  unfold BlockMerging.perform_merging.
  step Text_framed. unfold to_corner. call.
  attr Ht. shown.
  unfold bind at 1. unfold self_obj, getattr, bind. cbn [attrs]. by rewrite Hr.
Qed.

(** X7: a stage of the AST scene run on a scene without a title, that is
    before stage 1: it raises [AttributeError]. *)
Theorem ast_stages_need_stage_one s toks :
  attrs s !! "title" = None ->
  ASTGeneration.show_tokens toks s = Raises (AttributeError "title") /\
  ASTGeneration.show_parsing s = Raises (AttributeError "title") /\
  ASTGeneration.show_ast_building s = Raises (AttributeError "title").
Proof.
  destruct s as [h a t]. cbn [attrs]. intros Ht.
  replace (Scene h a t) with (Scene (h ++ []) a t) by (by rewrite app_nil_r).
  split; [|split].
  - unfold ASTGeneration.show_tokens.
    step Text_framed. unfold to_corner. call.
    unfold bind at 1. unfold self_obj, getattr, bind. cbn [attrs]. by rewrite Ht.
  - unfold ASTGeneration.show_parsing.
    step Text_framed. unfold to_corner. call.
    unfold bind at 1. unfold self_obj, getattr, bind. cbn [attrs]. by rewrite Ht.
  - unfold ASTGeneration.show_ast_building.
    step Text_framed. unfold to_corner. call.
    unfold bind at 1. unfold self_obj, getattr, bind. cbn [attrs]. by rewrite Ht.
Qed.

(** X8: stages 3 and 4 of the AST scene right after stage 1: the token
    groups, and the rules, do not exist yet. *)
Theorem ast_stages_need_their_predecessor s title :
  attrs s !! "title" = Some (Obj title) ->
  attrs s !! "token_groups" = None ->
  attrs s !! "rules" = None ->
  ASTGeneration.show_parsing s = Raises (AttributeError "token_groups") /\
  ASTGeneration.show_ast_building s = Raises (AttributeError "rules").
Proof.
  destruct s as [h a t]. cbn [attrs]. intros Ht Hg Hr.
  replace (Scene h a t) with (Scene (h ++ []) a t) by (by rewrite app_nil_r).
  split.
  - unfold ASTGeneration.show_parsing.
    step Text_framed. unfold to_corner. call.
    attr Ht. shown.
    unfold bind at 1. unfold self_list, getattr, bind. cbn [attrs]. by rewrite Hg.
  - unfold ASTGeneration.show_ast_building.
    step Text_framed. unfold to_corner. call.
    attr Ht. shown.
    unfold bind at 1. unfold self_obj, getattr, bind. cbn [attrs]. by rewrite Hr.
Qed.


(** *** The connection loop of the final CFG scene *)

Lemma add_old h l a t g o m :
  h !! g = Some o ->
  add g [m] (Scene (h ++ l) a t)
  = Returns tt
      (Scene (<[g := Mobject (shape_of o) (list_update (submobjects o) [m]) (calls o)]> h ++ l)
             a t).
Proof.
  intros E. unfold add, deref, store, bind. cbn [heap attrs timeline].
  rewrite (lookup_app_l_Some _ _ _ _ E). cbv beta iota. cbn [heap attrs timeline].
  rewrite remove_list_redundancies_NoDup by distinct_refs.
  by rewrite insert_app_l by (by eapply lookup_lt_Some).
Qed.

Lemma lookup_updated (h : list mobject) (g : ref) O l k :
  (<[g := O]> h ++ l) !! (length h + k)%nat = l !! k.
Proof.
  rewrite lookup_app_r by (rewrite length_insert; lia).
  rewrite length_insert. f_equal. lia.
Qed.

Lemma lookup_updated_here (h : list mobject) (g : ref) O l o :
  h !! g = Some o -> (<[g := O]> h ++ l) !! g = Some O.
Proof.
  intros E. apply lookup_lt_Some in E.
  rewrite lookup_app_l by (by rewrite length_insert).
  by apply list_lookup_insert_eq.
Qed.

Lemma list_update_fresh_one (ms : list ref) (m : ref) :
  m ∉ ms -> list_update ms [m] = ms ++ [m].
Proof. intros Hm. unfold list_update. by rewrite filter_fresh. Qed.

(** Where a turn of the connection loop of [FinalCFG.construct] starts
    its arrow, by cases on the indices. *)
Lemma final_cfg_start_edge (from_idx to_idx : Z) (from_block : ref) :
  (if (from_idx =? 0)%Z then
     get_bottom from_block + DOWN * FinalCFG.OFFSET_DISTANCE
   else if (from_idx =? 1)%Z then
     (if (to_idx =? 2)%Z then
        get_left from_block + LEFT * FinalCFG.OFFSET_DISTANCE
      else
        get_right from_block + RIGHT * FinalCFG.OFFSET_DISTANCE)
   else if ((from_idx =? 2) || (from_idx =? 3))%Z then
     get_bottom from_block + DOWN * FinalCFG.OFFSET_DISTANCE
   else
     get_bottom from_block + DOWN * FinalCFG.OFFSET_DISTANCE)%P
  = Connector.anchor_at
      (if (from_idx =? 1)%Z then if (to_idx =? 2)%Z then Left else Right
       else Bottom)
      from_block FinalCFG.OFFSET_DISTANCE.
Proof.
  destruct (Z.eqb_spec from_idx 1) as [->|Hne]; [by destruct (to_idx =? 2)%Z|].
  by repeat case_match.
Qed.

Lemma final_cfg_finish_edge (to_idx : Z) (to_block : ref) :
  (if (to_idx =? 1)%Z then
     get_top to_block + UP * FinalCFG.OFFSET_DISTANCE
   else if ((to_idx =? 2) || (to_idx =? 3))%Z then
     get_top to_block + UP * FinalCFG.OFFSET_DISTANCE
   else if (to_idx =? 4)%Z then
     get_top to_block + UP * FinalCFG.OFFSET_DISTANCE
   else
     get_top to_block + UP * FinalCFG.OFFSET_DISTANCE)%P
  = Connector.anchor_at Top to_block FinalCFG.OFFSET_DISTANCE.
Proof. by repeat case_match. Qed.

(** X18: one turn of the connection loop of [FinalCFG.construct], for any
    connection between two members of [blocks]: [arrows] gains exactly one
    connector, the last; it joins the two blocks, ends above the top edge
    of the destination and starts below the bottom edge of the source,
    or, from block 1, left of it towards block 2 and right of it
    otherwise; a label, if given, is centred on the arrow and shifted to
    the same side; nothing else that existed changes. *)
Theorem final_cfg_connect_joins s blocks arrows bs ars from_idx to_idx label
    from_block to_block :
  members_of s blocks = Some bs ->
  members_of s arrows = Some ars ->
  (0 <= from_idx)%Z -> bs !! Z.to_nat from_idx = Some from_block ->
  (0 <= to_idx)%Z -> bs !! Z.to_nat to_idx = Some to_block ->
  Forall (fun m => (m < length (heap s))%nat) ars ->
  exists s' c arrow,
    FinalCFG.connect blocks arrows (from_idx, to_idx, label) s = Returns tt s' /\
    attrs s' = attrs s /\ timeline s' = timeline s /\
    (forall m, m <> arrows -> (m < length (heap s))%nat -> heap s' !! m = heap s !! m) /\
    calls_of s' arrows = calls_of s arrows /\
    members_of s' arrows = Some (ars ++ [c]) /\
    connector_arrow s' c = Some arrow /\
    connector_ends s' c = Some (from_block, to_block) /\
    arrow_points s' arrow =
      Some (Connector.anchor_at
              (if (from_idx =? 1)%Z then if (to_idx =? 2)%Z then Left else Right
               else Bottom)
              from_block FinalCFG.OFFSET_DISTANCE,
            Connector.anchor_at Top to_block FinalCFG.OFFSET_DISTANCE) /\
    if Py.truthy_str label then
      exists l,
        connector_label s' c = Some l /\
        text_of s' l = label /\
        calls_of s' l =
          [ Cset_opacity 1.0;
            Cmove_to (get_center arrow);
            Cshift ((if (to_idx =? 2)%Z then LEFT else RIGHT) * 0.3) ]
    else connector_label s' c = None.
Proof.
  destruct s as [h a t]. cbn [attrs heap timeline].
  intros Hbs Has Hf Hfrom Ht Hto Hold.
  assert (Harrows : exists o, h !! arrows = Some o /\ submobjects o = ars).
  { unfold members_of in Has. cbn [heap] in Has.
    destruct (h !! arrows) as [o|]; [|done]. exists o. split; [done|]. by injection Has. }
  destruct Harrows as (o & Ho & <-).
  assert (Hfresh : forall k, (length h + k)%nat ∉ submobjects o).
  { intros k Hin. rewrite Forall_forall in Hold. apply Hold in Hin. lia. }
  assert (Hrun : forall c l,
    add arrows [c] (Scene (h ++ l) a t)
    = Returns tt (Scene (<[arrows := Mobject (shape_of o) (list_update (submobjects o) [c]) (calls o)]> h ++ l) a t)).
  { intros c l. by apply add_old. }
  assert (Hkeep : forall (c : ref) (l : list mobject) (m : ref), m <> arrows -> (m < length h)%nat ->
            (<[arrows := Mobject (shape_of o) (list_update (submobjects o) [c]) (calls o)]> h ++ l) !! m
            = h !! m).
  { intros c l m Hm Hlt. rewrite lookup_app_l by (by rewrite length_insert).
    by rewrite list_lookup_insert_ne. }
  assert (Hprelude : forall k : ref -> M unit,
    FinalCFG.connect blocks arrows (from_idx, to_idx, label) (Scene h a t)
    = (arrow_group <-
         (if Py.truthy_str label then
            label' <- Text (default "" label) FinalCFG.LABEL_FONT_SIZE ""
                           FinalCFG.ARROW_COLOR BOLD ;;
            set_opacity label' FinalCFG.ARROW_OPACITY ;;
            move_to label' (get_center (length h + 0)%nat) ;;
            (if (to_idx =? 2)%Z then shift label' (LEFT * 0.3)
             else shift label' (RIGHT * 0.3)) ;;
            VGroup [(length h + 0)%nat; label']
          else ret (length h + 0)%nat) ;;
       add arrows [arrow_group])
        (Scene (h ++ [Mobject
                  (ArrowShape
                     (Connector.anchor_at
                        (if (from_idx =? 1)%Z then if (to_idx =? 2)%Z then Left else Right
                         else Bottom)
                        from_block FinalCFG.OFFSET_DISTANCE)
                     (Connector.anchor_at Top to_block FinalCFG.OFFSET_DISTANCE)
                     FinalCFG.ARROW_COLOR FinalCFG.ARROW_BUFF FinalCFG.ARROW_STROKE_WIDTH
                     FinalCFG.ARROW_TIP_LENGTH)
                  []
                  [ Cset_stroke FinalCFG.ARROW_STROKE_WIDTH FinalCFG.ARROW_OPACITY;
                    Cset_color FinalCFG.ARROW_COLOR;
                    Ctip_set_stroke FinalCFG.ARROW_STROKE_WIDTH FinalCFG.ARROW_OPACITY;
                    Ctip_set_fill FinalCFG.ARROW_COLOR FinalCFG.ARROW_OPACITY ]]) a t)).
  { intros _.
    replace (Scene h a t) with (Scene (h ++ []) a t) at 1 by (by rewrite app_nil_r).
    unfold FinalCFG.connect. cbv beta iota zeta.
    step (item_old h a t blocks bs from_idx from_block); [|done..].
    step (item_old h a t blocks bs to_idx to_block); [|done..].
    rewrite final_cfg_start_edge, final_cfg_finish_edge.
    step Arrow_framed.
    unfold set_stroke, set_color, tip_set_stroke, tip_set_fill. do 4 call.
    reflexivity. }
  rewrite (Hprelude (fun _ => ret tt)). clear Hprelude.
  assert (Hread : forall c l,
            members_of (Scene (<[arrows := Mobject (shape_of o)
                                  (list_update (submobjects o) [(length h + c)%nat]) (calls o)]> h ++ l) a t)
                       arrows
            = Some (submobjects o ++ [(length h + c)%nat])
            /\ calls_of (Scene (<[arrows := Mobject (shape_of o)
                                  (list_update (submobjects o) [(length h + c)%nat]) (calls o)]> h ++ l) a t)
                       arrows
              = calls_of (Scene h a t) arrows).
  { intros c l. unfold members_of, calls_of. cbn [heap].
    rewrite (lookup_updated_here _ _ _ _ _ Ho), Ho. cbn [submobjects calls].
    by rewrite list_update_fresh_one. }
  destruct label as [[|ch text]|]; cbn [Py.truthy_str].
  - skip. rewrite Hrun.
    eexists _, (length h + 0)%nat, (length h + 0)%nat.
    split; [reflexivity|]. split; [done|]. split; [done|].
    split; [intros m ? ?; cbn [heap]; by apply Hkeep|].
    destruct (Hread 0%nat [Mobject
                  (ArrowShape
                     (Connector.anchor_at
                        (if (from_idx =? 1)%Z then if (to_idx =? 2)%Z then Left else Right
                         else Bottom)
                        from_block FinalCFG.OFFSET_DISTANCE)
                     (Connector.anchor_at Top to_block FinalCFG.OFFSET_DISTANCE)
                     FinalCFG.ARROW_COLOR FinalCFG.ARROW_BUFF FinalCFG.ARROW_STROKE_WIDTH
                     FinalCFG.ARROW_TIP_LENGTH)
                  []
                  [ Cset_stroke FinalCFG.ARROW_STROKE_WIDTH FinalCFG.ARROW_OPACITY;
                    Cset_color FinalCFG.ARROW_COLOR;
                    Ctip_set_stroke FinalCFG.ARROW_STROKE_WIDTH FinalCFG.ARROW_OPACITY;
                    Ctip_set_fill FinalCFG.ARROW_COLOR FinalCFG.ARROW_OPACITY ]]) as [Hm Hc].
    split; [exact Hc|]. split; [exact Hm|].
    unfold connector_ends, connector_points, connector_arrow, connector_label, is_arrow,
      arrow_points. cbn [heap]. unfold ref.
    repeat (rewrite !lookup_updated; cbn [lookup list_lookup mbind option_bind]).
    split; [done|]. split; [by repeat case_match|]. done.
  - destruct (to_idx =? 2)%Z;
      (eexists _, (length h + 2)%nat, (length h + 0)%nat;
       split;
       [ step Text_framed; unfold set_opacity, move_to, shift; call; call; call;
         (step VGroup_framed; [|distinct_refs]); rewrite Hrun; reflexivity |];
       split; [done|]; split; [done|];
       split; [intros m ? ?; cbn [heap]; by apply Hkeep|];
       match goal with
       | |- context [Scene (?H' ++ ?l) a t] => destruct (Hread 2%nat l) as [Hm Hc]
       end;
       split; [exact Hc|]; split; [exact Hm|];
       unfold connector_ends, connector_points, connector_arrow, connector_label, is_arrow,
         arrow_points, members_of, text_of, calls_of; cbn [heap]; unfold ref;
       repeat (rewrite !lookup_updated;
               cbn [lookup list_lookup mbind option_bind submobjects calls]);
       split; [done|]; split; [by repeat case_match|]; split; [done|];
       exists (length h + 1)%nat;
       repeat (rewrite !lookup_updated;
               cbn [lookup list_lookup mbind option_bind submobjects calls]);
       done).
  - skip. rewrite Hrun.
    eexists _, (length h + 0)%nat, (length h + 0)%nat.
    split; [reflexivity|]. split; [done|]. split; [done|].
    split; [intros m ? ?; cbn [heap]; by apply Hkeep|].
    match goal with
    | |- context [Scene (?H' ++ ?l) a t] => destruct (Hread 0%nat l) as [Hm Hc]
    end.
    split; [exact Hc|]. split; [exact Hm|].
    unfold connector_ends, connector_points, connector_arrow, connector_label, is_arrow,
      arrow_points. cbn [heap]. unfold ref.
    repeat (rewrite !lookup_updated; cbn [lookup list_lookup mbind option_bind]).
    split; [done|]. split; [by repeat case_match|]. done.
Qed.

(** *** The theorems above at the scenes of the repository *)

Lemma show_source_code_shows_witness :
  (PyFacts.ascii_only (ASTGeneration.source_code) = true) /\
  (let code_lines := Py.split Py.newline (Py.strip (ASTGeneration.source_code)) in
  exists s' title code_group code_box shown,
    ASTGeneration.show_source_code (ASTGeneration.source_code) (empty_scene) = Returns tt s' /\
    heap (empty_scene) `prefix_of` heap s' /\
    attrs s' = <["code_box" := Obj code_box]>
                 (<["code_group" := Obj code_group]>
                    (<["title" := Obj title]> (attrs (empty_scene)))) /\
    timeline s' = timeline (empty_scene) ++ [ Play [Write title] None;
                                  Play [Create code_box; Write code_group] (Some 2%Q) ] /\
    heap s' !! code_box = Some (Mobject (RectShape code_group BLUE 0.3 0.2 2) [] []) /\
    Token.shown_source s' = Some shown /\
    Forall2 (fun shown_line line =>
               Py.lstrip shown_line = Py.lstrip line /\
               (Py.len shown_line <= Py.len line)%Z)
            shown code_lines).
Proof.
  split; [by_computation|].
  apply (show_source_code_shows (ASTGeneration.source_code) (empty_scene)).
  - by_computation.
Defined.

Lemma show_tokens_displays_witness :
  (attrs (Stage.tokens_before) !! "title" = Some (Obj (0%nat))) /\
  (attrs (Stage.tokens_before) !! "code_box" = Some (Obj (12%nat))) /\
  (attrs (Stage.tokens_before) !! "code_group" = Some (Obj (1%nat))) /\
  (exists s' new_title groups written,
    ASTGeneration.show_tokens (ASTGeneration.tokens) (Stage.tokens_before) = Returns tt s' /\
    (exists more, heap s' = heap (Stage.tokens_before) ++ more) /\
    attrs s' = <["token_groups" := PyList groups]> (attrs (Stage.tokens_before)) /\
    text_of s' new_title = Some "步骤 2: 词法分析 (Tokenization)" /\
    batches (appended (Stage.tokens_before) s')
      = [Transform (0%nat) new_title]
        :: [FadeOut [(12%nat)]; FadeOut [(1%nat)]]
        :: map (map Write) written /\
    Forall2 (fun g ms => members_of s' g = Some ms) groups written /\
    Token.displayed s' (appended (Stage.tokens_before) s') = Some (ASTGeneration.tokens) /\
    map length written = Grid.line_sizes (length (ASTGeneration.tokens)) /\
    exists heights : list Q,
      Forall2 (Grid.in_columns s') heights written /\
      (forall y, heights !! 0%nat = Some y -> y = 2.5%Q)).
Proof.
  split; [by_computation|].
  split; [by_computation|].
  split; [by_computation|].
  apply (show_tokens_displays (ASTGeneration.tokens) (Stage.tokens_before) (0%nat) (12%nat) (1%nat)).
  - by_computation.
  - by_computation.
  - by_computation.
Defined.

Lemma parsing_fades_displayed_tokens_witness :
  ((ASTGeneration.tokens) <> []) /\
  (attrs (Stage.tokens_before) !! "title" = Some (Obj (0%nat))) /\
  (attrs (Stage.tokens_before) !! "code_box" = Some (Obj (12%nat))) /\
  (attrs (Stage.tokens_before) !! "code_group" = Some (Obj (1%nat))) /\
  (exists s1 s2 rules,
    ASTGeneration.show_tokens (ASTGeneration.tokens) (Stage.tokens_before) = Returns tt s1 /\
    (wait 2 ;; ASTGeneration.show_parsing) s1 = Returns tt s2 /\
    Parsing.faded_by (appended s1 s2) = Parsing.introduced_by (appended (Stage.tokens_before) s1) /\
    mapM (Token.token_of s2) (Parsing.faded_by (appended s1 s2)) = Some (ASTGeneration.tokens) /\
    attrs s2 = <["rules" := Obj rules]> (attrs s1) /\
    lines_of s2 rules = Some Parsing.rule_lines).
Proof.
  split; [discriminate|].
  split; [by_computation|].
  split; [by_computation|].
  split; [by_computation|].
  apply (parsing_fades_displayed_tokens (ASTGeneration.tokens) (Stage.tokens_before) (0%nat) (12%nat) (1%nat)).
  - discriminate.
  - by_computation.
  - by_computation.
  - by_computation.
Defined.

Lemma show_ast_building_builds_fixed_tree_witness :
  (attrs (Stage.tree_before) !! "title" = Some (Obj (0%nat))) /\
  (attrs (Stage.tree_before) !! "rules" = Some (Obj (128%nat))) /\
  (exists s',
    ASTGeneration.show_ast_building (Stage.tree_before) = Returns tt s' /\
    heap (Stage.tree_before) `prefix_of` heap s' /\
    Grown.fixed_tree s' /\
    map length (batches (appended (Stage.tree_before) s')) = [1; 1; 1; 2; 2; 4; 2; 6; 2]%nat /\
    (exists nodes, self_pylist s' "ast_nodes" = Some nodes /\
       map length (Tree.reveals nodes (appended (Stage.tree_before) s')) = [1; 1; 1; 2; 1; 3; 1]%nat)).
Proof.
  split; [by_computation|].
  split; [by_computation|].
  apply (show_ast_building_builds_fixed_tree (Stage.tree_before) (0%nat) (128%nat)).
  - by_computation.
  - by_computation.
Defined.

Lemma construct_shows_same_tree_for_any_source_witness :
  ((ASTGeneration.tokens) <> []) /\
  (ASTGeneration.construct = Pipeline.run ASTGeneration.source_code ASTGeneration.tokens /\
  exists s',
    Pipeline.run (ASTGeneration.source_code) (ASTGeneration.tokens) (empty_scene) = Returns tt s' /\
    heap (empty_scene) `prefix_of` heap s' /\
    Grown.fixed_tree s').
Proof.
  split; [discriminate|].
  apply (construct_shows_same_tree_for_any_source (ASTGeneration.source_code) (ASTGeneration.tokens) (empty_scene)).
  - discriminate.
Defined.

Lemma ast_stages_need_stage_one_witness :
  (attrs (empty_scene) !! "title" = None) /\
  (ASTGeneration.show_tokens (ASTGeneration.tokens) (empty_scene) = Raises (AttributeError "title") /\
  ASTGeneration.show_parsing (empty_scene) = Raises (AttributeError "title") /\
  ASTGeneration.show_ast_building (empty_scene) = Raises (AttributeError "title")).
Proof.
  split; [by_computation|].
  apply (ast_stages_need_stage_one (empty_scene) (ASTGeneration.tokens)).
  - by_computation.
Defined.

Lemma ast_stages_need_their_predecessor_witness :
  (attrs (Stage.tokens_before) !! "title" = Some (Obj (0%nat))) /\
  (attrs (Stage.tokens_before) !! "token_groups" = None) /\
  (attrs (Stage.tokens_before) !! "rules" = None) /\
  (ASTGeneration.show_parsing (Stage.tokens_before) = Raises (AttributeError "token_groups") /\
  ASTGeneration.show_ast_building (Stage.tokens_before) = Raises (AttributeError "rules")).
Proof.
  split; [by_computation|].
  split; [by_computation|].
  split; [by_computation|].
  apply (ast_stages_need_their_predecessor (Stage.tokens_before) (0%nat)).
  - by_computation.
  - by_computation.
  - by_computation.
Defined.

Lemma identify_mergeable_blocks_highlights_witness :
  (attrs (MergeStep.initial) !! "title" = Some (Obj (0%nat))) /\
  (attrs (MergeStep.initial) !! "blocks" = Some (Obj (1%nat))) /\
  (members_of (MergeStep.initial) (1%nat) = Some ([7; 12; 17; 22; 27; 32; 37; 42; 47]%nat)) /\
  (([7; 12; 17; 22; 27; 32; 37; 42; 47]%nat) !! 1%nat = Some (12%nat)) /\
  (([7; 12; 17; 22; 27; 32; 37; 42; 47]%nat) !! 2%nat = Some (17%nat)) /\
  (([7; 12; 17; 22; 27; 32; 37; 42; 47]%nat) !! 3%nat = Some (22%nat)) /\
  (exists s' new_title rule_text highlight_boxes annotations hs ans,
    BlockMerging.identify_mergeable_blocks (MergeStep.initial) = Returns tt s' /\
    heap (MergeStep.initial) `prefix_of` heap s' /\
    attrs s' = <["annotations" := Obj annotations]>
                 (<["highlight_boxes" := Obj highlight_boxes]>
                    (<["rule_text" := Obj rule_text]> (attrs (MergeStep.initial)))) /\
    appended (MergeStep.initial) s'
      = [ Play [Transform (0%nat) new_title] None;
          Play [Write rule_text] None;
          Play (map Create hs) (Some 1.5%Q);
          Play [Write annotations] None ] /\
    lines_of s' rule_text = Some Merging.rule_lines /\
    members_of s' highlight_boxes = Some hs /\
    Merging.objects_of s' hs = Some (map Merging.highlight_of [(12%nat); (17%nat); (22%nat)]) /\
    members_of s' annotations = Some ans /\
    Merging.objects_of s' ans = Some (map Merging.annotation_of [(12%nat); (17%nat); (22%nat)])).
Proof.
  split; [by_computation|].
  split; [by_computation|].
  split; [by_computation|].
  split; [by_computation|].
  split; [by_computation|].
  split; [by_computation|].
  apply (identify_mergeable_blocks_highlights (MergeStep.initial) (0%nat) (1%nat) ([7; 12; 17; 22; 27; 32; 37; 42; 47]%nat) (12%nat) (17%nat) (22%nat)).
  - by_computation.
  - by_computation.
  - by_computation.
  - by_computation.
  - by_computation.
  - by_computation.
Defined.

Lemma identify_mergeable_blocks_needs_four_witness :
  (attrs (Merging.short_scene) !! "blocks" = Some (Obj (0%nat))) /\
  (members_of (Merging.short_scene) (0%nat) = Some (@nil ref)) /\
  ((length (@nil ref) < 4)%nat) /\
  (BlockMerging.identify_mergeable_blocks (Merging.short_scene) = Raises IndexError).
Proof.
  split; [by_computation|].
  split; [by_computation|].
  split; [vm_compute; lia|].
  apply (identify_mergeable_blocks_needs_four (Merging.short_scene) (0%nat) (@nil ref)).
  - by_computation.
  - by_computation.
  - vm_compute; lia.
Defined.

Lemma perform_merging_any_graph_witness :
  (attrs (MergeStep.before) !! "title" = Some (Obj (0%nat))) /\
  (attrs (MergeStep.before) !! "rule_text" = Some (Obj (67%nat))) /\
  (attrs (MergeStep.before) !! "highlight_boxes" = Some (Obj (68%nat))) /\
  (attrs (MergeStep.before) !! "annotations" = Some (Obj (72%nat))) /\
  (attrs (MergeStep.before) !! "blocks" = Some (Obj (1%nat))) /\
  (attrs (MergeStep.before) !! "arrows" = Some (Obj (48%nat))) /\
  (members_of (MergeStep.before) (1%nat) = Some ((7%nat) :: (12%nat) :: (17%nat) :: (22%nat) :: (27%nat) :: (32%nat) :: (37%nat) :: (42%nat) :: (47%nat) :: (@nil ref))) /\
  (members_of (MergeStep.before) (48%nat) = Some ((49%nat) :: (50%nat) :: (51%nat) :: (52%nat) :: (55%nat) :: (58%nat) :: (59%nat) :: (60%nat) :: (61%nat) :: (@nil ref))) /\
  (NoDup [(7%nat); (27%nat); (32%nat); (37%nat); (42%nat); (47%nat)]) /\
  (NoDup [(55%nat); (58%nat); (59%nat); (60%nat); (61%nat)]) /\
  (Forall (fun m => (m < length (heap (MergeStep.before)))%nat) [(7%nat); (27%nat); (32%nat); (37%nat); (42%nat); (47%nat); (55%nat); (58%nat); (59%nat); (60%nat); (61%nat)]) /\
  (exists s' new_title merged new1 new2 blocks' arrows',
    BlockMerging.perform_merging (MergeStep.before) = Returns tt s' /\
    heap (MergeStep.before) `prefix_of` heap s' /\
    attrs s' = <["merged_block" := Obj merged]>
                 (<["arrows" := Obj arrows']> (<["blocks" := Obj blocks']> (attrs (MergeStep.before)))) /\
    appended (MergeStep.before) s'
      = [ Play [Transform (0%nat) new_title] None;
          Play [FadeOut [(67%nat)]; FadeOut [(68%nat)]; FadeOut [(72%nat)]]
               None;
          Play (map (fun m => FadeOut [m]) [(12%nat); (17%nat); (22%nat); (49%nat); (50%nat); (51%nat); (52%nat)]) (Some 1%Q);
          Play [Create merged] (Some 1%Q);
          Play [Create new1; Create new2] (Some 1%Q) ] /\
    members_of s' blocks' = Some [(7%nat); merged; (27%nat); (32%nat); (37%nat); (42%nat); (47%nat)] /\
    members_of s' arrows' = Some [new1; new2; (55%nat); (58%nat); (59%nat); (60%nat); (61%nat)] /\
    block_title s' merged = Some "merged_block" /\
    block_statements s' merged = Some Merging.merged_statements /\
    calls_of s' merged = [Cmove_to (At (UP * 3.0)); Cscale 0.5] /\
    connector_ends s' new1 = Some ((7%nat), merged) /\
    connector_ends s' new2 = Some (merged, (27%nat))).
Proof.
  split; [by_computation|].
  split; [by_computation|].
  split; [by_computation|].
  split; [by_computation|].
  split; [by_computation|].
  split; [by_computation|].
  split; [by_computation|].
  split; [by_computation|].
  split; [by_decision|].
  split; [by_decision|].
  split; [by_decision|].
  apply (perform_merging_any_graph (MergeStep.before) (0%nat) (67%nat) (68%nat) (72%nat) (1%nat) (48%nat) (@nil ref) (@nil ref) (7%nat) (12%nat) (17%nat) (22%nat) (27%nat) (32%nat) (37%nat) (42%nat) (47%nat) (49%nat) (50%nat) (51%nat) (52%nat) (55%nat) (58%nat) (59%nat) (60%nat) (61%nat)).
  - by_computation.
  - by_computation.
  - by_computation.
  - by_computation.
  - by_computation.
  - by_computation.
  - by_computation.
  - by_computation.
  - by_decision.
  - by_decision.
  - by_decision.
Defined.

Lemma perform_merging_needs_nine_witness :
  (attrs (MergeStep.merged) !! "title" = Some (Obj (0%nat))) /\
  (attrs (MergeStep.merged) !! "rule_text" = Some (Obj (67%nat))) /\
  (attrs (MergeStep.merged) !! "highlight_boxes" = Some (Obj (68%nat))) /\
  (attrs (MergeStep.merged) !! "annotations" = Some (Obj (72%nat))) /\
  (attrs (MergeStep.merged) !! "blocks" = Some (Obj (86%nat))) /\
  (attrs (MergeStep.merged) !! "arrows" = Some (Obj (87%nat))) /\
  (members_of (MergeStep.merged) (86%nat) = Some ([7; 83; 27; 32; 37; 42; 47]%nat)) /\
  (members_of (MergeStep.merged) (87%nat) = Some ([84; 85; 55; 58; 59; 60; 61]%nat)) /\
  ((length ([7; 83; 27; 32; 37; 42; 47]%nat) < 9)%nat \/ (length ([84; 85; 55; 58; 59; 60; 61]%nat) < 9)%nat) /\
  (BlockMerging.perform_merging (MergeStep.merged) = Raises IndexError).
Proof.
  split; [by_computation|].
  split; [by_computation|].
  split; [by_computation|].
  split; [by_computation|].
  split; [by_computation|].
  split; [by_computation|].
  split; [by_computation|].
  split; [by_computation|].
  split; [left; vm_compute; lia|].
  apply (perform_merging_needs_nine (MergeStep.merged) (0%nat) (67%nat) (68%nat) (72%nat) (86%nat) (87%nat) ([7; 83; 27; 32; 37; 42; 47]%nat) ([84; 85; 55; 58; 59; 60; 61]%nat)).
  - by_computation.
  - by_computation.
  - by_computation.
  - by_computation.
  - by_computation.
  - by_computation.
  - by_computation.
  - by_computation.
  - left; vm_compute; lia.
Defined.

Lemma show_final_merged_cfg_shows_witness :
  (attrs (MergeStep.merged) !! "title" = Some (Obj (0%nat))) /\
  (attrs (MergeStep.merged) !! "blocks" = Some (Obj (86%nat))) /\
  (attrs (MergeStep.merged) !! "arrows" = Some (Obj (87%nat))) /\
  (members_of (MergeStep.merged) (86%nat) = Some ([7; 83; 27; 32; 37; 42; 47]%nat)) /\
  (members_of (MergeStep.merged) (87%nat) = Some ([84; 85; 55; 58; 59; 60; 61]%nat)) /\
  (([7; 83; 27; 32; 37; 42; 47]%nat) ++ ([84; 85; 55; 58; 59; 60; 61]%nat) <> []) /\
  (exists s' new_title note,
    BlockMerging.show_final_merged_cfg (MergeStep.merged) = Returns tt s' /\
    heap (MergeStep.merged) `prefix_of` heap s' /\
    attrs s' = <["note" := Obj note]> (attrs (MergeStep.merged)) /\
    appended (MergeStep.merged) s'
      = [ Play [Transform (0%nat) new_title] None;
          Play (map (fun m => Animate m (Cset_opacity 1.0)) (([7; 83; 27; 32; 37; 42; 47]%nat) ++ ([84; 85; 55; 58; 59; 60; 61]%nat))) (Some 1.5%Q);
          Play [Write note] None ] /\
    lines_of s' note = Some Final.note_lines /\
    calls_of s' note = [Carrange DOWN LEFT 0.4; Cto_edge RIGHT (Some 0.5%Q)]).
Proof.
  split; [by_computation|].
  split; [by_computation|].
  split; [by_computation|].
  split; [by_computation|].
  split; [by_computation|].
  split; [discriminate|].
  apply (show_final_merged_cfg_shows (MergeStep.merged) (0%nat) (86%nat) (87%nat) ([7; 83; 27; 32; 37; 42; 47]%nat) ([84; 85; 55; 58; 59; 60; 61]%nat)).
  - by_computation.
  - by_computation.
  - by_computation.
  - by_computation.
  - by_computation.
  - discriminate.
Defined.

Lemma merging_stages_need_stage_one_witness :
  (attrs (empty_scene) !! "title" = None) /\
  (attrs (empty_scene) !! "blocks" = None) /\
  (BlockMerging.identify_mergeable_blocks (empty_scene) = Raises (AttributeError "blocks") /\
  BlockMerging.perform_merging (empty_scene) = Raises (AttributeError "title") /\
  BlockMerging.show_final_merged_cfg (empty_scene) = Raises (AttributeError "title")).
Proof.
  split; [by_computation|].
  split; [by_computation|].
  apply (merging_stages_need_stage_one (empty_scene)).
  - by_computation.
  - by_computation.
Defined.

Lemma perform_merging_needs_stage_two_witness :
  (attrs (MergeStep.initial) !! "title" = Some (Obj (0%nat))) /\
  (attrs (MergeStep.initial) !! "rule_text" = None) /\
  (BlockMerging.perform_merging (MergeStep.initial) = Raises (AttributeError "rule_text")).
Proof.
  split; [by_computation|].
  split; [by_computation|].
  apply (perform_merging_needs_stage_two (MergeStep.initial) (0%nat)).
  - by_computation.
  - by_computation.
Defined.

Lemma final_cfg_connect_joins_witness :
  (members_of (after FinalCFG.construct empty_scene) (0%nat) = Some ([6; 11; 16; 21; 26; 31]%nat)) /\
  (members_of (after FinalCFG.construct empty_scene) (32%nat) = Some ([33; 36; 39; 40; 41; 42]%nat)) /\
  ((0 <= (1%Z))%Z) /\
  (([6; 11; 16; 21; 26; 31]%nat) !! Z.to_nat (1%Z) = Some (11%nat)) /\
  ((0 <= (2%Z))%Z) /\
  (([6; 11; 16; 21; 26; 31]%nat) !! Z.to_nat (2%Z) = Some (16%nat)) /\
  (Forall (fun m => (m < length (heap (after FinalCFG.construct empty_scene)))%nat) ([33; 36; 39; 40; 41; 42]%nat)) /\
  (exists s' c arrow,
    FinalCFG.connect (0%nat) (32%nat) ((1%Z), (2%Z), (Some "true")) (after FinalCFG.construct empty_scene) = Returns tt s' /\
    attrs s' = attrs (after FinalCFG.construct empty_scene) /\ timeline s' = timeline (after FinalCFG.construct empty_scene) /\
    (forall m, m <> (32%nat) -> (m < length (heap (after FinalCFG.construct empty_scene)))%nat -> heap s' !! m = heap (after FinalCFG.construct empty_scene) !! m) /\
    calls_of s' (32%nat) = calls_of (after FinalCFG.construct empty_scene) (32%nat) /\
    members_of s' (32%nat) = Some (([33; 36; 39; 40; 41; 42]%nat) ++ [c]) /\
    connector_arrow s' c = Some arrow /\
    connector_ends s' c = Some ((11%nat), (16%nat)) /\
    arrow_points s' arrow =
      Some (Connector.anchor_at
              (if ((1%Z) =? 1)%Z then if ((2%Z) =? 2)%Z then Left else Right
               else Bottom)
              (11%nat) FinalCFG.OFFSET_DISTANCE,
            Connector.anchor_at Top (16%nat) FinalCFG.OFFSET_DISTANCE) /\
    if Py.truthy_str (Some "true") then
      exists l,
        connector_label s' c = Some l /\
        text_of s' l = (Some "true") /\
        calls_of s' l =
          [ Cset_opacity 1.0;
            Cmove_to (get_center arrow);
            Cshift ((if ((2%Z) =? 2)%Z then LEFT else RIGHT) * 0.3) ]
    else connector_label s' c = None).
Proof.
  split; [by_computation|].
  split; [by_computation|].
  split; [lia|].
  split; [by_computation|].
  split; [lia|].
  split; [by_computation|].
  split; [by_decision|].
  apply (final_cfg_connect_joins (after FinalCFG.construct empty_scene) (0%nat) (32%nat) ([6; 11; 16; 21; 26; 31]%nat) ([33; 36; 39; 40; 41; 42]%nat) (1%Z) (2%Z) (Some "true") (11%nat) (16%nat)).
  - by_computation.
  - by_computation.
  - lia.
  - by_computation.
  - lia.
  - by_computation.
  - by_decision.
Defined.
